(** * AllGoGrand: token-gated weather access

    A shallow embedding of the three programs of the repository:

    - [Backend]: the FastAPI broker of [backend/main.py]
      ([validate_wallet_address], [check_token_ownership], [get_weather]);
    - [Agent]: the autonomous client of [agent/agent.py]
      ([WeatherAgent.get_weather], [purchase_weather_token],
      [autonomous_weather_request], [run_demo]);
    - [Marketplace]: the ARC4 contract [WeatherMarketplace] of
      [smart_contracts/weather_marketplace/contract.py].

    Python code that raises and catches exceptions while mutating an object is
    modelled in a state-and-exception monad in which the state survives a
    raise (as Python attributes do).  Everything outside the repository (the
    algod node, the HTTP transport, the weather provider, the wall clock) is
    an oracle of a [World] record; calls are recorded in a trace.

    Balances: [account_info["amount"]] is an integer number of microAlgos and
    the code divides it by [1_000_000].  Python's [int / int] is correctly
    rounded, hence monotone, and [5_000_000 / 1_000_000] and
    [1_100_000 / 1_000_000] evaluate to the doubles denoted by the literals
    [5.0] and [1.1]; so on integer amounts the comparisons of the source agree
    with the same comparisons on exact rationals, which is how they are
    written here ([Q]). *)

From Stdlib Require Import ZArith QArith List String Bool Lia Arith.
Import ListNotations.

Set Implicit Arguments.

(* ===================================================================== *)
(** ** A state monad with exceptions that keep the state *)
(* ===================================================================== *)

Module Eff.

Section Monad.
Variables E S : Type.

(** A computation reads and writes a state [S] and either returns a value
    or raises an [E]; the state at the point of the raise is kept. *)
Definition M (A : Type) : Type := S -> (E + A) * S.

Definition ret {A} (a : A) : M A := fun s => (inr a, s).

Definition raise {A} (e : E) : M A := fun s => (inl e, s).

Definition bind {A B} (m : M A) (k : A -> M B) : M B :=
  fun s =>
    match m s with
    | (inr a, s') => k a s'
    | (inl e, s') => (inl e, s')
    end.

(** [try: m except e: h e] *)
Definition try_except {A} (m : M A) (h : E -> M A) : M A :=
  fun s =>
    match m s with
    | (inr a, s') => (inr a, s')
    | (inl e, s') => h e s'
    end.

Definition get : M S := fun s => (inr s, s).

Definition modify (f : S -> S) : M unit := fun s => (inr tt, f s).

(** Lift a call that returns [None] when the callee raises. *)
Definition call {A} (e : E) (r : option A) : M A :=
  match r with
  | Some a => ret a
  | None => raise e
  end.
(** [preserves R m]: whatever [m] does (return or raise), the final state is
    [R]-related to the initial one. *)
Definition preserves {A} (R : S -> S -> Prop) (m : M A) : Prop :=
  forall s, R s (snd (m s)).
End Monad.

Arguments preserves {E S A} R m.
Arguments ret {E S A} a.
Arguments raise {E S A} e.
Arguments bind {E S A B} m k.
Arguments try_except {E S A} m h.
Arguments get {E S}.
Arguments modify {E S} f.
Arguments call {E S A} e r.

End Eff.

Declare Scope eff_scope.
Delimit Scope eff_scope with eff.
Notation "x <- m ;; k" := (Eff.bind m (fun x => k))
  (at level 61, m at next level, right associativity) : eff_scope.
Notation "m ;; k" := (Eff.bind m (fun _ => k))
  (at level 61, right associativity) : eff_scope.

(* ===================================================================== *)
(** ** The broker: [backend/main.py] *)
(* ===================================================================== *)

Module Backend.

Import Eff.
Local Open Scope string_scope.
Local Open Scope eff_scope.

(** *** Data *)

(** One entry of [account_info["assets"]]. *)
Record Asset := { asset_id : Z; asset_amount : Z }.

(** The dictionary that [algod_client.account_info] returns, with the keys
    the code reads. [amount] is in microAlgos. *)
Record AccountInfo := { amount : Z; assets : list Asset }.

(** [class WeatherData(BaseModel)] *)
Record WeatherData := {
  wd_city : string;
  wd_country : string;
  wd_temperature : Q;
  wd_feels_like : Q;
  wd_humidity : Z;
  wd_pressure : Q;
  wd_description : string;
  wd_wind_speed : Q;
  wd_wind_direction : Z;
  wd_visibility : Z;
  wd_uv_index : option Z
}.

(** A [datetime], as microseconds since the epoch.  The source renders it with
    [isoformat() + "Z"], which is injective; the fields below keep the
    [datetime] itself. *)
Definition datetime := Z.

(** [dt.replace(microsecond=0)] *)
Definition replace_microsecond_0 (dt : datetime) : datetime :=
  (dt - dt mod 1000000)%Z.

(** [class TokenInfo(BaseModel)]; [token_id] is [str(WEATHER_ASA_ID)], kept as
    the integer. *)
Record TokenInfo := {
  token_id : Z;
  remaining_time_seconds : Z;
  expires_at : datetime
}.

(** [class WeatherResponse(BaseModel)] *)
Record WeatherResponse := {
  wr_success : bool;
  wr_data : WeatherData;
  wr_token_info : TokenInfo;
  wr_timestamp : datetime
}.

(** The ["marketplace_info"] object of the 403 body; [contract_id] is
    [str(MARKETPLACE_APP_ID)], kept as the integer. *)
Record MarketplaceInfo := {
  contract_id : Z;
  token_price_algo : Z;
  purchase_endpoint : string
}.

Record ErrorDetails := {
  wallet_address : string;
  required_token_type : string;
  marketplace_info : MarketplaceInfo
}.

(** The ["error"] object of a structured denial. *)
Record ErrorBody := {
  code : string;
  message : string;
  details : option ErrorDetails
}.

(** [HTTPException.detail]: a dictionary [{"success": .., "error": ..}] or a
    plain string. *)
Inductive Detail :=
| DetailDict (success : bool) (error : ErrorBody)
| DetailStr (text : string).

Inductive exn :=
| HTTPException (status_code : Z) (detail : Detail)
| Exception.

(** What the route answers once FastAPI and [http_exception_handler] have
    run. *)
Inductive Content :=
| ContentDict (success : bool) (error : ErrorBody)
| ContentError (text : string).

Inductive Response :=
| Response200 (body : WeatherResponse)
| JSONResponse (status_code : Z) (content : Content).

(** The provider dictionary that [format_weather_data] reads, key by key
    ([None]: the key is absent). Values are taken well typed. *)
Record RawMain := {
  raw_temp : option Q;
  raw_feels_like : option Q;
  raw_humidity : option Z;
  raw_pressure : option Q
}.

Record RawCondition := { raw_description : option string }.

Record RawWind := { raw_speed : option Q; raw_deg : option Z }.

Record RawSys := { raw_country : option string }.

Record RawWeather := {
  raw_name : option string;
  raw_sys : option RawSys;
  raw_main : option RawMain;
  raw_weather : option (list RawCondition);
  raw_wind : option RawWind;
  raw_visibility : option Z
}.

(** Outcome of [get_weather_data(city)]: the three provider functions return
    a dictionary, raise [HTTPException] (404 city not found, 500 key not
    configured, 502 provider unavailable) or raise something else. *)
Inductive Upstream :=
| UpstreamData (raw : RawWeather)
| UpstreamHTTPException (status_code : Z) (text : string)
| UpstreamException.

(** *** The world outside the broker *)

Record World := {
  (** [algod_client.account_info(wallet)]; [None]: the call raises *)
  account_info : string -> option AccountInfo;
  (** the configured provider, through [get_weather_data] *)
  provider : string -> Upstream;
  (** the n-th reading of [datetime.utcnow()] *)
  utcnow : nat -> datetime
}.

Inductive Event :=
| EvAccountInfo (wallet : string)
| EvProvider (city : string).

(** The broker keeps nothing between requests; the state of the model is the
    trace of outside calls (latest first) and the number of clock readings. *)
Record St := { calls : list Event; clock_reads : nat }.

Definition B := M exn St.

Definition record_call (e : Event) : B unit :=
  modify (fun s => {| calls := e :: calls s; clock_reads := clock_reads s |}).

Section Broker.

(** [algosdk.encoding]: [None] stands for a raise. *)
Variable address_bytes : Type.
Variable decode_address : string -> option address_bytes.
Variable encode_address : address_bytes -> option string.

(** Configuration read from the environment at start-up. *)
Variable WEATHER_ASA_ID : Z.
Variable MARKETPLACE_APP_ID : Z.

Variable W : World.

(** [def validate_wallet_address(wallet)] *)
Definition validate_wallet_address (wallet : string) : bool :=
  match decode_address wallet with
  | Some b =>
      match encode_address b with
      | Some _ => true
      | None => false
      end
  | None => false
  end.

(** [account_info["amount"] / 1_000_000] *)
Definition balance_algos (info : AccountInfo) : Q :=
  (inject_Z (amount info) / 1000000)%Q.

Definition algod_account_info (wallet : string) : B AccountInfo :=
  record_call (EvAccountInfo wallet) ;;
  call Exception (account_info W wallet).

(** [async def check_token_ownership(wallet)] *)
Definition check_token_ownership (wallet : string) : B bool :=
  try_except
    (info <- algod_account_info wallet ;;
     let has_token := Qle_bool 5.0 (balance_algos info) in
     ret has_token)
    (fun _ => ret false).

(** [async def get_weather_data(city)] *)
Definition get_weather_data (city : string) : B RawWeather :=
  record_call (EvProvider city) ;;
  match provider W city with
  | UpstreamData raw => ret raw
  | UpstreamHTTPException st text => raise (HTTPException st (DetailStr text))
  | UpstreamException => raise Exception
  end.

Definition dict_get {A} (o : option A) (default : A) : A :=
  match o with
  | Some a => a
  | None => default
  end.

(** [def format_weather_data(raw_data, city)]; [[{}][0]] of an empty list
    raises [IndexError]. *)
Definition format_weather_data (raw_data : RawWeather) (city : string)
  : B WeatherData :=
  let main := dict_get (raw_main raw_data)
                {| raw_temp := None; raw_feels_like := None;
                   raw_humidity := None; raw_pressure := None |} in
  weather <- call Exception
               (hd_error (dict_get (raw_weather raw_data)
                                   [ {| raw_description := None |} ])) ;;
  let wind := dict_get (raw_wind raw_data)
                {| raw_speed := None; raw_deg := None |} in
  let sys := dict_get (raw_sys raw_data) {| raw_country := None |} in
  ret {| wd_city := dict_get (raw_name raw_data) city;
         wd_country := dict_get (raw_country sys) "";
         wd_temperature := dict_get (raw_temp main) 0.0%Q;
         wd_feels_like := dict_get (raw_feels_like main) 0.0%Q;
         wd_humidity := dict_get (raw_humidity main) 0%Z;
         wd_pressure := dict_get (raw_pressure main) 0%Q;
         wd_description := dict_get (raw_description weather) "";
         wd_wind_speed := dict_get (raw_speed wind) 0.0%Q;
         wd_wind_direction := dict_get (raw_deg wind) 0%Z;
         wd_visibility := dict_get (raw_visibility raw_data) 0%Z;
         wd_uv_index := None |}.

(** [datetime.utcnow()] *)
Definition datetime_utcnow : B datetime :=
  fun s => (inr (utcnow W (clock_reads s)),
            {| calls := calls s; clock_reads := S (clock_reads s) |}).

Definition invalid_wallet : exn :=
  HTTPException 400
    (DetailDict false
       {| code := "INVALID_WALLET";
          message := "Invalid wallet address format";
          details := None |}).

Definition invalid_token (wallet : string) : exn :=
  HTTPException 403
    (DetailDict false
       {| code := "INVALID_TOKEN";
          message := "No valid weather access token found for this wallet";
          details :=
            Some {| wallet_address := wallet;
                    required_token_type := "OpenWeather Access Token";
                    marketplace_info :=
                      {| contract_id := MARKETPLACE_APP_ID;
                         token_price_algo := 10;
                         purchase_endpoint := "/marketplace/buy" |} |} |}).

(** [@app.get("/weather") async def get_weather(city, wallet)] *)
Definition get_weather (city wallet : string) : B WeatherResponse :=
  if negb (validate_wallet_address wallet) then raise invalid_wallet
  else
    has_valid_token <- check_token_ownership wallet ;;
    if negb has_valid_token then raise (invalid_token wallet)
    else
      try_except
        (raw_weather <- get_weather_data city ;;
         weather_data <- format_weather_data raw_weather city ;;
         expires <- datetime_utcnow ;;
         stamp <- datetime_utcnow ;;
         ret {| wr_success := true;
                wr_data := weather_data;
                wr_token_info :=
                  {| token_id := WEATHER_ASA_ID;
                     remaining_time_seconds := 3600;
                     expires_at := replace_microsecond_0 expires |};
                wr_timestamp := stamp |})
        (fun e =>
           match e with
           | HTTPException _ _ => raise e
           | Exception =>
               raise (HTTPException 500 (DetailStr "Internal server error"))
           end).

(** [@app.exception_handler(HTTPException)] *)
Definition http_exception_handler (status : Z) (detail : Detail) : Response :=
  match detail with
  | DetailDict ok err => JSONResponse status (ContentDict ok err)
  | DetailStr text => JSONResponse status (ContentError text)
  end.

(** The route as a client sees it: [get_weather] under the exception
    handler (an exception that is not an [HTTPException] would be FastAPI's
    plain 500). *)
Definition handle (city wallet : string) (s : St) : Response * St :=
  match get_weather city wallet s with
  | (inr body, s') => (Response200 body, s')
  | (inl (HTTPException status detail), s') =>
      (http_exception_handler status detail, s')
  | (inl Exception, s') =>
      (JSONResponse 500 (ContentError "Internal Server Error"), s')
  end.

End Broker.

(** A response with the two fields read from the clock blanked: what remains
    is the status, the denial body and the weather payload. *)
Definition without_clock (r : Response) : Response :=
  match r with
  | Response200 body =>
      Response200
        {| wr_success := wr_success body;
           wr_data := wr_data body;
           wr_token_info :=
             {| token_id := token_id (wr_token_info body);
                remaining_time_seconds :=
                  remaining_time_seconds (wr_token_info body);
                expires_at := 0%Z |};
           wr_timestamp := 0%Z |}
  | JSONResponse status content => JSONResponse status content
  end.

End Backend.

(* ===================================================================== *)
(** ** The autonomous client: [agent/agent.py] *)
(* ===================================================================== *)

Module Agent.

Import Eff.
Local Open Scope string_scope.
Local Open Scope Z_scope.
Local Open Scope eff_scope.

(** *** Data *)

(** A decoded JSON document ([response.json()]). *)
#[warnings="-register-all"]
Inductive json :=
| JNull
| JBool (b : bool)
| JNumber (q : Q)
| JString (s : string)
| JArray (items : list json)
| JObject (members : list (string * json)).

Fixpoint assoc (key : string) (members : list (string * json)) : option json :=
  match members with
  | [] => None
  | (k, v) :: rest => if String.eqb key k then Some v else assoc key rest
  end.

(** [d[key]] with a string key: [KeyError] when the key is absent,
    [TypeError] when [d] is not a dictionary ([None] for both). *)
Definition subscript (d : json) (key : string) : option json :=
  match d with
  | JObject members => assoc key members
  | _ => None
  end.

(** [d.get(key, default)]: [AttributeError] when [d] is not a dictionary. *)
Definition dict_get (d : json) (key : string) (default : json) : option json :=
  match d with
  | JObject members =>
      Some match assoc key members with
           | Some v => v
           | None => default
           end
  | _ => None
  end.

(** Python truth value of a decoded JSON document. *)
Definition truth (d : json) : bool :=
  match d with
  | JNull => false
  | JBool b => b
  | JNumber q => negb (Qeq_bool q 0)
  | JString s => negb (String.eqb s "")
  | JArray items => match items with [] => false | _ => true end
  | JObject members => match members with [] => false | _ => true end
  end.

(** [if weather_data:] on an [Optional[Dict]]. *)
Definition truthy (r : option json) : bool :=
  match r with
  | Some d => truth d
  | None => false
  end.

(** A [requests.Response]: the status and what [response.json()] gives
    ([None]: it raises). *)
Record HttpResponse := {
  status_code : Z;
  response_json : option json
}.

Record SuggestedParams := { sp_fee : Z; sp_first : Z; sp_last : Z }.

(** [transaction.PaymentTxn(sender, sp, receiver, amt, note)] *)
Record PaymentTxn := {
  sender : string;
  sp : SuggestedParams;
  receiver : string;
  amt : Z;
  note : string
}.

(** [payment_txn.sign(private_key)] *)
Record SignedTxn := { txn : PaymentTxn; signed_with : string }.

(** *** The world outside the agent

    Every oracle is indexed by the number of outside calls made so far, so
    that the broker and the ledger may answer differently each time. [None]
    stands for a raise (time-out, connection error, rejected transaction). *)
Record World := {
  (** [requests.get(backend_url + "/weather", params={city, wallet})] *)
  http_get : nat -> string -> string -> option HttpResponse;
  (** [algod_client.account_info(address)] *)
  account_info : nat -> string -> option Backend.AccountInfo;
  (** [algod_client.suggested_params()] *)
  suggested_params : nat -> option SuggestedParams;
  (** [algod_client.send_transaction(signed_txn)]: the transaction id *)
  send_transaction : nat -> SignedTxn -> option string;
  (** [transaction.wait_for_confirmation(client, txid, rounds)], read at
      ["confirmed-round"] *)
  wait_for_confirmation : nat -> string -> Z -> option Z
}.

Inductive Event :=
| EvHttpGet (city wallet : string)
| EvAccountInfo (address : string)
| EvSuggestedParams
| EvSendTransaction (stx : SignedTxn)
| EvWaitForConfirmation (txid : string) (rounds : Z)
| EvSleep (seconds : Z)
(** instrumentation: one per invocation of [purchase_weather_token] *)
| EvPurchaseAttempt.

(** The attributes of a [WeatherAgent] that the methods read or write. *)
Record WeatherAgent := {
  address : string;
  private_key : string;
  weather_asa_id : Z;
  balance_algos : Q;
  owned_tokens : list Backend.Asset;
  request_count : Z;
  successful_requests : Z;
  tokens_purchased : Z
}.

Record St := {
  self : WeatherAgent;
  trace : list Event;      (* latest first *)
  io : nat                 (* outside calls made so far *)
}.

Inductive exn := Exception.

Definition A := M exn St.

Definition update_self (f : WeatherAgent -> WeatherAgent) : A unit :=
  modify (fun s => {| self := f (self s); trace := trace s; io := io s |}).

Definition get_self : A WeatherAgent :=
  fun s => (inr (self s), s).

Definition emit (e : Event) : A unit :=
  modify (fun s => {| self := self s; trace := e :: trace s; io := io s |}).

(** A call that leaves the process. *)
Definition outside {X} (e : Event) (oracle : nat -> option X) : A X :=
  fun s =>
    let s' := {| self := self s; trace := e :: trace s; io := S (io s) |} in
    match oracle (io s) with
    | Some x => (inr x, s')
    | None => (inl Exception, s')
    end.

(** [time.sleep(seconds)] *)
Definition sleep (seconds : Z) : A unit := emit (EvSleep seconds).

Definition set_balance_algos (q : Q) (a : WeatherAgent) : WeatherAgent :=
  {| address := address a; private_key := private_key a;
     weather_asa_id := weather_asa_id a;
     balance_algos := q; owned_tokens := owned_tokens a;
     request_count := request_count a;
     successful_requests := successful_requests a;
     tokens_purchased := tokens_purchased a |}.

Definition set_owned_tokens (l : list Backend.Asset) (a : WeatherAgent)
  : WeatherAgent :=
  {| address := address a; private_key := private_key a;
     weather_asa_id := weather_asa_id a;
     balance_algos := balance_algos a; owned_tokens := l;
     request_count := request_count a;
     successful_requests := successful_requests a;
     tokens_purchased := tokens_purchased a |}.

Definition incr_request_count (a : WeatherAgent) : WeatherAgent :=
  {| address := address a; private_key := private_key a;
     weather_asa_id := weather_asa_id a;
     balance_algos := balance_algos a; owned_tokens := owned_tokens a;
     request_count := request_count a + 1;
     successful_requests := successful_requests a;
     tokens_purchased := tokens_purchased a |}.

Definition incr_successful_requests (a : WeatherAgent) : WeatherAgent :=
  {| address := address a; private_key := private_key a;
     weather_asa_id := weather_asa_id a;
     balance_algos := balance_algos a; owned_tokens := owned_tokens a;
     request_count := request_count a;
     successful_requests := successful_requests a + 1;
     tokens_purchased := tokens_purchased a |}.

Definition incr_tokens_purchased (a : WeatherAgent) : WeatherAgent :=
  {| address := address a; private_key := private_key a;
     weather_asa_id := weather_asa_id a;
     balance_algos := balance_algos a; owned_tokens := owned_tokens a;
     request_count := request_count a;
     successful_requests := successful_requests a;
     tokens_purchased := tokens_purchased a + 1 |}.

(** The receiver of the demo payment. *)
Definition demo_marketplace_address : string :=
  "7ZUECA7HFLZTXENRV24SHLU4AVPUTMTTDUFUBNBD64C73F3UHRTHAIOF6Q".

Section Methods.

Variable W : World.

(** [def get_address(self)] *)
Definition get_address : A string :=
  a <- get_self ;; ret (address a).

(** [def _update_account_info(self)] *)
Definition _update_account_info : A unit :=
  try_except
    (a <- get_self ;;
     account_info <- outside (EvAccountInfo (address a))
                       (fun k => account_info W k (address a)) ;;
     update_self
       (set_balance_algos
          (inject_Z (Backend.amount account_info) / 1000000)%Q) ;;
     let assets := Backend.assets account_info in
     update_self
       (set_owned_tokens
          (filter (fun asset =>
                     (Backend.asset_id asset =? weather_asa_id a)
                     && (Backend.asset_amount asset >? 0))
                  assets)))
    (fun _ => ret tt).

(** [def has_valid_token(self)] *)
Definition has_valid_token : A bool :=
  a <- get_self ;; ret (Z.of_nat (List.length (owned_tokens a)) >? 0).

(** [def get_weather(self, city)] *)
Definition get_weather (city : string) : A (option json) :=
  update_self incr_request_count ;;
  try_except
    (a <- get_self ;;
     response <- outside (EvHttpGet city (address a))
                   (fun k => http_get W k city (address a)) ;;
     if status_code response =? 200 then
       update_self incr_successful_requests ;;
       data <- call Exception (response_json response) ;;
       inner <- call Exception (subscript data "data") ;;
       _ <- call Exception (subscript inner "temperature") ;;
       ret (Some data)
     else if status_code response =? 403 then
       error_data <- call Exception (response_json response) ;;
       error <- call Exception (dict_get error_data "error" (JObject [])) ;;
       _ <- call Exception
              (dict_get error "message" (JString "Unknown error")) ;;
       ret None
     else
       ret None)
    (fun _ => ret None).

(** [def purchase_weather_token(self)].  Building and signing the payment
    stay inside the process; with the agent's own address and key and the
    constant receiver they are taken not to raise. *)
Definition purchase_weather_token : A bool :=
  emit EvPurchaseAttempt ;;
  a <- get_self ;;
  if Qlt_le_dec (balance_algos a) 1.1 then
    ret false
  else
    try_except
      (params <- outside EvSuggestedParams (suggested_params W) ;;
       let payment_txn :=
         {| sender := address a;
            sp := params;
            receiver := demo_marketplace_address;
            amt := 1000000;
            note := "Demo weather token purchase" |} in
       let signed_txn :=
         {| txn := payment_txn; signed_with := private_key a |} in
       txid <- outside (EvSendTransaction signed_txn)
                 (fun k => send_transaction W k signed_txn) ;;
       confirmed_round <- outside (EvWaitForConfirmation txid 4)
                            (fun k => wait_for_confirmation W k txid 4) ;;
       if confirmed_round >? 0 then
         update_self incr_tokens_purchased ;;
         sleep 1 ;;
         _update_account_info ;;
         ret true
       else
         ret false)
      (fun _ => ret false).

(** [def fund_wallet_for_demo(self)]: only logs. *)
Definition fund_wallet_for_demo : A bool := ret true.

(** The [for attempt in range(max_attempts)] loop of
    [autonomous_weather_request] and the two lines after it: [remaining]
    iterations are left, the next one has index [attempt]. *)
Fixpoint purchase_loop (city : string) (max_attempts : Z)
         (remaining : nat) (attempt : Z) : A (option json) :=
  match remaining with
  | O => ret None
  | S remaining' =>
      purchased <- purchase_weather_token ;;
      retried <- (if purchased : bool then
                    sleep 2 ;;
                    weather_data <- get_weather city ;;
                    if truthy weather_data then ret weather_data
                    else ret None
                  else ret None) ;;
      match retried with
      | Some weather_data => ret (Some weather_data)
      | None =>
          (if attempt <? max_attempts - 1 then sleep 5 else ret tt) ;;
          purchase_loop city max_attempts remaining' (attempt + 1)
      end
  end.

(** What the loop does after an iteration that did not return: the pause
    between attempts, then the remaining iterations. *)
Definition next_iteration (city : string) (max_attempts : Z) (remaining : nat)
  (attempt : Z) (s : St) : (exn + option json) * St :=
  purchase_loop city max_attempts remaining (attempt + 1)
    (snd ((if attempt <? max_attempts - 1 then sleep 5 else ret tt) s)).

(** [purchase_weather_token] fails on every attempt of the loop entered in
    state [s] with [remaining] iterations left: the call made in [s] returns
    [False], and so does every later one, each made in the state the loop is
    in after the failure before it and the pause that follows. *)
Fixpoint every_attempt_fails (max_attempts : Z) (remaining : nat)
         (attempt : Z) (s : St) : Prop :=
  match remaining with
  | O => True
  | S remaining' =>
      fst (purchase_weather_token s) = inr false
      /\ every_attempt_fails max_attempts remaining' (attempt + 1)
           (snd ((if attempt <? max_attempts - 1 then sleep 5 else ret tt)
                   (snd (purchase_weather_token s))))
  end.

(** [def autonomous_weather_request(self, city, max_attempts=3)] *)
Definition autonomous_weather_request (city : string) (max_attempts : Z)
  : A (option json) :=
  _update_account_info ;;
  weather_data <- get_weather city ;;
  if truthy weather_data then ret weather_data
  else purchase_loop city max_attempts (Z.to_nat max_attempts) 0.

(** [def print_stats(self)]: only prints. *)
Definition print_stats : A unit := ret tt.

(** The [for i, city in enumerate(cities, 1)] loop of [run_demo]; [total] is
    [len(cities)]. A granted result without ["data"]["temperature"] or
    ["data"]["description"] raises out of the loop. *)
Fixpoint run_demo_loop (total : Z) (i : Z) (cities : list string) : A unit :=
  match cities with
  | [] => ret tt
  | city :: rest =>
      result <- autonomous_weather_request city 3 ;;
      (if truthy result then
         match result with
         | Some d =>
             inner <- call Exception (subscript d "data") ;;
             _ <- call Exception (subscript inner "temperature") ;;
             inner' <- call Exception (subscript d "data") ;;
             _ <- call Exception (subscript inner' "description") ;;
             ret tt
         | None => ret tt
         end
       else ret tt) ;;
      (if i <? total then sleep 3 else ret tt) ;;
      run_demo_loop total (i + 1) rest
  end.

(** [def run_demo(self, cities=None)] *)
Definition run_demo (cities : option (list string)) : A unit :=
  let cities :=
    match cities with
    | Some l => l
    | None => ["Berlin"; "New York"; "Tokyo"; "London"; "Sydney"]
    end in
  run_demo_loop (Z.of_nat (List.length cities)) 1 cities ;;
  print_stats.

(** [WeatherAgent.__init__] with a given mnemonic: the counters start at
    zero and the account is read once. *)
Definition new_agent (address private_key : string) (weather_asa_id : Z)
  : St :=
  snd (_update_account_info
         {| self := {| address := address; private_key := private_key;
                       weather_asa_id := weather_asa_id;
                       balance_algos := 0; owned_tokens := [];
                       request_count := 0; successful_requests := 0;
                       tokens_purchased := 0 |};
            trace := []; io := 0 |}).

(** The methods a caller may invoke on an agent. *)
Inductive Op :=
| OpGetAddress
| OpUpdateAccountInfo
| OpHasValidToken
| OpGetWeather (city : string)
| OpPurchaseWeatherToken
| OpFundWalletForDemo
| OpAutonomousWeatherRequest (city : string) (max_attempts : Z)
| OpPrintStats
| OpRunDemo (cities : option (list string)).

(** The state after a method call (whether it returns or raises). *)
Definition exec (op : Op) (s : St) : St :=
  match op with
  | OpGetAddress => snd (get_address s)
  | OpUpdateAccountInfo => snd (_update_account_info s)
  | OpHasValidToken => snd (has_valid_token s)
  | OpGetWeather city => snd (get_weather city s)
  | OpPurchaseWeatherToken => snd (purchase_weather_token s)
  | OpFundWalletForDemo => snd (fund_wallet_for_demo s)
  | OpAutonomousWeatherRequest city n =>
      snd (autonomous_weather_request city n s)
  | OpPrintStats => snd (print_stats s)
  | OpRunDemo cities => snd (run_demo cities s)
  end.

(** States an agent can be in: freshly constructed, or after any sequence
    of method calls. *)
Inductive reachable : St -> Prop :=
| reachable_new : forall address private_key weather_asa_id,
    reachable (new_agent address private_key weather_asa_id)
| reachable_exec : forall op s,
    reachable s -> reachable (exec op s).

(** The broker's answer to the request that [get_weather] issues in state
    [s]. *)
Definition answer (city : string) (s : St) : option HttpResponse :=
  http_get W (io s) city (address (self s)).

(** Whether that answer has status 200. *)
Definition answered_200 (city : string) (s : St) : bool :=
  match answer city s with
  | Some response => status_code response =? 200
  | None => false
  end.

(** Number of acquisition attempts recorded in a trace. *)
Fixpoint attempts (t : list Event) : nat :=
  match t with
  | [] => O
  | EvPurchaseAttempt :: t' => S (attempts t')
  | _ :: t' => attempts t'
  end.

(** How the counters of an agent may move between two states: none goes
    down, and [successful_requests] stays at or below [request_count] if it
    was. *)
Definition counters_grow (s s' : St) : Prop :=
  request_count (self s) <= request_count (self s')
  /\ successful_requests (self s) <= successful_requests (self s')
  /\ tokens_purchased (self s) <= tokens_purchased (self s')
  /\ (successful_requests (self s) <= request_count (self s) ->
      successful_requests (self s') <= request_count (self s')).

(** Acquisition attempts made between two states of a run. *)
Definition new_attempts (before after : St) : Z :=
  Z.of_nat (attempts (trace after)) - Z.of_nat (attempts (trace before)).

(** Number of transactions submitted to the ledger in a trace. *)
Fixpoint submissions (t : list Event) : nat :=
  match t with
  | [] => O
  | EvSendTransaction _ :: t' => S (submissions t')
  | _ :: t' => submissions t'
  end.

End Methods.

End Agent.

(* ===================================================================== *)
(** ** The contract: [weather_marketplace/contract.py] *)
(* ===================================================================== *)

Module Marketplace.

Local Open Scope Z_scope.

(** An AVM [uint64] is an integer in [0, 2^64).  Arithmetic that leaves the
    range makes the program fail: the call is rejected and the global state
    is not written. *)
Definition uint64_max : Z := 2 ^ 64 - 1.

Definition is_uint64 (x : Z) : bool := (0 <=? x) && (x <=? uint64_max).

(** [a + b] on [UInt64] *)
Definition uint64_add (a b : Z) : option Z :=
  if a + b <=? uint64_max then Some (a + b) else None.

(** The global state declared in [__init__]. *)
Record State := {
  token_price : Z;
  weather_asa_id : Z;
  token_duration : Z;
  total_tokens_sold : Z;
  is_active : bool
}.

(** What an ABI method returns. *)
Inductive Value :=
| VUInt64 (x : Z)
| VBool (b : bool)
| VString (s : string)
| VVoid.

(** [def __init__(self)] *)
Definition __init__ : State :=
  {| token_price := 10000000;
     weather_asa_id := 0;
     token_duration := 3600;
     total_tokens_sold := 0;
     is_active := true |}.

(** A method either fails ([None]) or gives the new state and its return
    value. *)
Definition abimethod := State -> option (State * Value).

Definition get_token_price : abimethod :=
  fun self => Some (self, VUInt64 (token_price self)).

Definition get_weather_asa_id : abimethod :=
  fun self => Some (self, VUInt64 (weather_asa_id self)).

(** The argument is an ABI [uint64]; the router rejects anything else. *)
Definition set_weather_asa_id (asa_id : Z) : abimethod :=
  fun self =>
    if is_uint64 asa_id then
      Some ({| token_price := token_price self;
               weather_asa_id := asa_id;
               token_duration := token_duration self;
               total_tokens_sold := total_tokens_sold self;
               is_active := is_active self |}, VVoid)
    else None.

Definition get_token_duration : abimethod :=
  fun self => Some (self, VUInt64 (token_duration self)).

Definition record_token_sale : abimethod :=
  fun self =>
    match uint64_add (total_tokens_sold self) 1 with
    | Some sold =>
        let self' := {| token_price := token_price self;
                        weather_asa_id := weather_asa_id self;
                        token_duration := token_duration self;
                        total_tokens_sold := sold;
                        is_active := is_active self |} in
        Some (self', VUInt64 (total_tokens_sold self'))
    | None => None
    end.

Definition get_total_sales : abimethod :=
  fun self => Some (self, VUInt64 (total_tokens_sold self)).

Definition is_contract_active : abimethod :=
  fun self => Some (self, VBool (is_active self)).

Definition get_contract_info : abimethod :=
  fun self =>
    Some (self,
          VString
            "WeatherMarketplace v1.0 - Tokenized Weather API Access"%string).

(** The application calls the contract accepts. *)
Inductive Call :=
| CallGetTokenPrice
| CallGetWeatherAsaId
| CallSetWeatherAsaId (asa_id : Z)
| CallGetTokenDuration
| CallRecordTokenSale
| CallGetTotalSales
| CallIsContractActive
| CallGetContractInfo.

Definition dispatch (c : Call) : abimethod :=
  match c with
  | CallGetTokenPrice => get_token_price
  | CallGetWeatherAsaId => get_weather_asa_id
  | CallSetWeatherAsaId asa_id => set_weather_asa_id asa_id
  | CallGetTokenDuration => get_token_duration
  | CallRecordTokenSale => record_token_sale
  | CallGetTotalSales => get_total_sales
  | CallIsContractActive => is_contract_active
  | CallGetContractInfo => get_contract_info
  end.

(** The global state after a call: a failed call writes nothing. *)
Definition after (c : Call) (self : State) : State :=
  match dispatch c self with
  | Some (self', _) => self'
  | None => self
  end.

(** The states of a deployed application. *)
Inductive reachable : State -> Prop :=
| reachable_init : reachable __init__
| reachable_call : forall c self, reachable self -> reachable (after c self).

End Marketplace.

(* ===================================================================== *)
(** ** Concrete worlds, used to run the models *)
(* ===================================================================== *)

Module Scenario.

Local Open Scope string_scope.
Local Open Scope Z_scope.

(** A stand-in for the address codec of [algosdk], enough to run the broker:
    it accepts the strings of 58 characters. *)
Definition decode_address (wallet : string) : option string :=
  if Nat.eqb (String.length wallet) 58 then Some wallet else None.

Definition encode_address (b : string) : option string := Some b.

Definition wallet : string :=
  "7ZUECA7HFLZTXENRV24SHLU4AVPUTMTTDUFUBNBD64C73F3UHRTHAIOF6Q".

Definition london : Backend.RawWeather :=
  {| Backend.raw_name := Some "London";
     Backend.raw_sys := Some {| Backend.raw_country := Some "GB" |};
     Backend.raw_main :=
       Some {| Backend.raw_temp := Some 14.5%Q;
               Backend.raw_feels_like := Some 14.5%Q;
               Backend.raw_humidity := Some 80;
               Backend.raw_pressure := Some 1013%Q |};
     Backend.raw_weather :=
       Some [ {| Backend.raw_description := Some "overcast" |} ];
     Backend.raw_wind :=
       Some {| Backend.raw_speed := Some 3.2%Q; Backend.raw_deg := Some 270 |};
     Backend.raw_visibility := Some 10000 |}.

(** A clock that advances by one second and one microsecond per reading. *)
Definition ticking (n : nat) : Backend.datetime := Z.of_nat n * 1000001.

(** A ledger on which every account holds [microalgos]. *)
Definition ledger_with (microalgos : Z) (w : string)
  : option Backend.AccountInfo :=
  Some {| Backend.amount := microalgos; Backend.assets := [] |}.

(** 6 ALGO on the account, the provider answers. *)
Definition funded : Backend.World :=
  {| Backend.account_info := ledger_with 6000000;
     Backend.provider := fun _ => Backend.UpstreamData london;
     Backend.utcnow := ticking |}.

(** 2 ALGO on the account. *)
Definition underfunded : Backend.World :=
  {| Backend.account_info := ledger_with 2000000;
     Backend.provider := fun _ => Backend.UpstreamData london;
     Backend.utcnow := ticking |}.

(** The node does not answer. *)
Definition ledger_down : Backend.World :=
  {| Backend.account_info := fun _ => None;
     Backend.provider := fun _ => Backend.UpstreamData london;
     Backend.utcnow := ticking |}.

(** 6 ALGO on the account, the provider is unreachable (the provider
    functions turn that into a 502). *)
Definition provider_down : Backend.World :=
  {| Backend.account_info := ledger_with 6000000;
     Backend.provider :=
       fun _ => Backend.UpstreamHTTPException 502 "Weather service unavailable";
     Backend.utcnow := ticking |}.

Definition idle : Backend.St :=
  {| Backend.calls := []; Backend.clock_reads := 0 |}.

(** The broker with the stand-in codec and asset and application ids 0. *)
Definition serve (W : Backend.World) (city w : string)
  : Backend.Response * Backend.St :=
  Backend.handle decode_address encode_address 0 0 W city w idle.

(** *** Worlds of the agent *)

Definition denial_body : Agent.json :=
  Agent.JObject
    [ ("success", Agent.JBool false);
      ("error", Agent.JObject
                  [ ("code", Agent.JString "INVALID_TOKEN");
                    ("message",
                     Agent.JString
                       "No valid weather access token found for this wallet")
                  ]) ].

Definition granted_body : Agent.json :=
  Agent.JObject
    [ ("success", Agent.JBool true);
      ("data", Agent.JObject
                 [ ("city", Agent.JString "London");
                   ("temperature", Agent.JNumber 14.5%Q);
                   ("description", Agent.JString "overcast") ]) ].

Definition respond (status : Z) (body : Agent.json)
  : option Agent.HttpResponse :=
  Some {| Agent.status_code := status; Agent.response_json := Some body |}.

Definition node_ok (microalgos : Z) (broker : option Agent.HttpResponse)
  : Agent.World :=
  {| Agent.http_get := fun _ _ _ => broker;
     Agent.account_info := fun _ w => ledger_with microalgos w;
     Agent.suggested_params :=
       fun _ => Some {| Agent.sp_fee := 1000; Agent.sp_first := 1;
                        Agent.sp_last := 1001 |};
     Agent.send_transaction := fun _ _ => Some "TXID";
     Agent.wait_for_confirmation := fun _ _ _ => Some 7 |}.

(** The broker denies with 403; the account holds 0.5 ALGO. *)
Definition denied_and_broke : Agent.World :=
  node_ok 500000 (respond 403 denial_body).

(** The broker grants; the node rejects every transaction. *)
Definition granted_node_rejects : Agent.World :=
  {| Agent.http_get := fun _ _ _ => respond 200 granted_body;
     Agent.account_info := fun _ w => ledger_with 6000000 w;
     Agent.suggested_params := fun _ => None;
     Agent.send_transaction := fun _ _ => None;
     Agent.wait_for_confirmation := fun _ _ _ => None |}.

(** The broker denies with 403; the node rejects every transaction. *)
Definition denied_node_rejects : Agent.World :=
  {| Agent.http_get := fun _ _ _ => respond 403 denial_body;
     Agent.account_info := fun _ w => ledger_with 6000000 w;
     Agent.suggested_params := fun _ => None;
     Agent.send_transaction := fun _ _ => None;
     Agent.wait_for_confirmation := fun _ _ _ => None |}.

(** The broker answers 502 (its provider is down) and the node confirms
    every payment.  The account starts with 6 ALGO; a purchase is five outside
    calls apart from the next, and each confirmed payment takes 1 ALGO and the
    fee of 0.001 ALGO from the balance the node reports. *)
Definition upstream_502 : Agent.World :=
  {| Agent.http_get :=
       fun _ _ _ =>
         respond 502
           (Agent.JObject
              [ ("error", Agent.JString "Weather service unavailable") ]);
     Agent.account_info :=
       fun k w => ledger_with (6000000 - 1001000 * Z.of_nat ((k - 1) / 5)) w;
     Agent.suggested_params :=
       fun _ => Some {| Agent.sp_fee := 1000; Agent.sp_first := 1;
                        Agent.sp_last := 1001 |};
     Agent.send_transaction := fun _ _ => Some "TXID";
     Agent.wait_for_confirmation := fun _ _ _ => Some 7 |}.

(** The broker grants; the account holds 6 ALGO. *)
Definition granted : Agent.World :=
  node_ok 6000000 (respond 200 granted_body).

Definition agent (W : Agent.World) : Agent.St :=
  Agent.new_agent W wallet "key" 0.

End Scenario.

(* ===================================================================== *)
(** ** The broker: the token listing route *)
(* ===================================================================== *)

Module Tokens.

Import Eff Backend.
Local Open Scope string_scope.
Local Open Scope eff_scope.

(** [class TokenDetails(BaseModel)]; [asset_id] is [str(asset["asset-id"])],
    kept as the integer, and [expires_at] keeps the [datetime]. *)
Record TokenDetails := {
  td_asset_id : Z;
  td_asset_name : string;
  td_symbol : string;
  td_balance : Z;
  td_expires_at : option datetime;
  td_remaining_time_seconds : option Z;
  td_status : string;
  td_purchase_time : option string;
  td_total_uses : Z;
  td_max_uses : Z
}.

(** The [summary] dictionary of a [TokensResponse]. *)
Record Summary := {
  total_tokens : Z;
  valid_tokens : Z;
  expired_tokens : Z
}.

(** [class TokensResponse(BaseModel)] *)
Record TokensResponse := {
  tr_success : bool;
  tr_wallet_address : string;
  tr_tokens : list TokenDetails;
  tr_summary : Summary
}.

(** What the route answers once [http_exception_handler] has run. *)
Inductive Reply :=
| Reply200 (body : TokensResponse)
| ReplyJSON (status_code : Z) (content : Content).

(** The state of the route after the ledger has been asked. *)
Definition asked (wallet : string) (s : St) : St :=
  {| calls := EvAccountInfo wallet :: calls s; clock_reads := clock_reads s |}.

(** The state of the route after the provider has been asked too. *)
Definition fetched (city wallet : string) (s : St) : St :=
  {| calls := EvProvider city :: EvAccountInfo wallet :: calls s;
     clock_reads := clock_reads s |}.

(** The weather tokens among the assets of an account. *)
Definition weather_tokens (WEATHER_ASA_ID : Z) (info : AccountInfo)
  : list Asset :=
  filter (fun asset =>
            (asset_id asset =? WEATHER_ASA_ID)%Z
            && (asset_amount asset >? 0)%Z)
         (assets info).

Section Route.

Variable address_bytes : Type.
Variable decode_address : string -> option address_bytes.
Variable encode_address : address_bytes -> option string.
Variable WEATHER_ASA_ID : Z.
Variable W : World.

(** [asset["asset-id"] == WEATHER_ASA_ID and asset["amount"] > 0] *)
Definition is_weather_token (asset : Asset) : bool :=
  (asset_id asset =? WEATHER_ASA_ID)%Z && (asset_amount asset >? 0)%Z.

(** The [for asset in assets] loop of [get_wallet_tokens], with its two
    accumulators. *)
Fixpoint list_tokens (assets : list Asset) (tokens : list TokenDetails)
         (valid_tokens : Z) : B (list TokenDetails * Z) :=
  match assets with
  | [] => ret (tokens, valid_tokens)
  | asset :: rest =>
      if is_weather_token asset then
        now <- datetime_utcnow W ;;
        list_tokens rest
          (tokens ++
             [ {| td_asset_id := asset_id asset;
                  td_asset_name := "OpenWeather Access Token";
                  td_symbol := "OWAT";
                  td_balance := asset_amount asset;
                  td_expires_at := Some (replace_microsecond_0 now);
                  td_remaining_time_seconds := Some 3600%Z;
                  td_status := "valid";
                  td_purchase_time := None;
                  td_total_uses := 0%Z;
                  td_max_uses := 1%Z |} ])
          (valid_tokens + 1)%Z
      else list_tokens rest tokens valid_tokens
  end.

(** [@app.get("/tokens/{wallet_address}") async def get_wallet_tokens] *)
Definition get_wallet_tokens (wallet_address : string) : B TokensResponse :=
  if negb (validate_wallet_address decode_address encode_address
             wallet_address)
  then raise invalid_wallet
  else
    try_except
      (account_info <- algod_account_info W wallet_address ;;
       let assets := assets account_info in
       listed <- list_tokens assets [] 0%Z ;;
       let tokens := fst listed in
       let valid_tokens := snd listed in
       ret {| tr_success := true;
              tr_wallet_address := wallet_address;
              tr_tokens := tokens;
              tr_summary :=
                {| total_tokens := Z.of_nat (List.length tokens);
                   valid_tokens := valid_tokens;
                   expired_tokens := 0%Z |} |})
      (fun _ =>
         raise (HTTPException 500
                  (DetailStr "Error retrieving token information"))).

(** The route as a client sees it: [get_wallet_tokens] under
    [http_exception_handler]. *)
Definition handle_tokens (wallet_address : string) (s : St) : Reply * St :=
  match get_wallet_tokens wallet_address s with
  | (inr body, s') => (Reply200 body, s')
  | (inl (HTTPException status (DetailDict ok err)), s') =>
      (ReplyJSON status (ContentDict ok err), s')
  | (inl (HTTPException status (DetailStr text)), s') =>
      (ReplyJSON status (ContentError text), s')
  | (inl Exception, s') =>
      (ReplyJSON 500 (ContentError "Internal Server Error"), s')
  end.

End Route.

End Tokens.

(* ===================================================================== *)
(** ** The broker: weather providers and the health route *)
(* ===================================================================== *)

Module Providers.

Import Eff.
Import Agent (json, JNull, JBool, JNumber, JString, JArray, JObject,
              subscript, dict_get, truth).
Local Open Scope string_scope.
Local Open Scope eff_scope.

(** A decoded number is held by its exact value: Python compares and hashes
    an [int] and a [float] by value, so [3] and [3.0] are the same dictionary
    key. *)

(** The environment variables the provider functions and [health_check]
    read. *)
Record Config := {
  WEATHER_API_PROVIDER : string;
  OPENWEATHER_API_KEY : string;
  WEATHERAPI_KEY : string;
  WEATHER_ASA_ID : Z;
  MARKETPLACE_APP_ID : Z
}.

Inductive exn :=
| HTTPException (status_code : Z) (detail : string)
| RequestException
| Exception.

(** The four requests the provider functions send, by URL, with the
    parameters that vary. *)
Inductive Request :=
| GeocodeRequest (name : string)
| ForecastRequest (latitude longitude : json)
| OpenWeatherRequest (q appid : string)
| WeatherApiRequest (key q : string).

(** [requests.get(...)], [raise_for_status()] and [.json()] together: the
    decoded body, a [RequestException] (connection error, time-out, error
    status), or another exception. *)
Inductive Fetched :=
| FetchedJson (body : json)
| FetchedRequestException
| FetchedException.

(** The state is the list of requests sent, latest first. *)
Definition P := M exn (list Request).

(** [codes.get(code, "unknown")] on an integer code. *)
Definition _weather_code_to_description (code : Z) : string :=
  match code with
  | 0 => "clear sky"
  | 1 => "mainly clear"
  | 2 => "partly cloudy"
  | 3 => "overcast"
  | 45 => "fog"
  | 48 => "depositing rime fog"
  | 51 => "light drizzle"
  | 53 => "moderate drizzle"
  | 55 => "dense drizzle"
  | 61 => "slight rain"
  | 63 => "moderate rain"
  | 65 => "heavy rain"
  | 71 => "slight snow"
  | 73 => "moderate snow"
  | 75 => "heavy snow"
  | 95 => "thunderstorm"
  | _ => "unknown"
  end%Z.

(** The codes the table lists. *)
Definition listed_codes : list Z :=
  [0; 1; 2; 3; 45; 48; 51; 53; 55; 61; 63; 65; 71; 73; 75; 95]%Z.

(** [_weather_code_to_description(v)] on any decoded value: [True] and
    [False] are the keys 1 and 0, a number is a key when its value is an
    integer, [None] and strings are in no table, and a list or a dictionary
    cannot be hashed ([None]: [TypeError]). *)
Definition describe (v : json) : option string :=
  match v with
  | JNull => Some "unknown"
  | JBool b => Some (_weather_code_to_description (if b then 1 else 0)%Z)
  | JNumber q =>
      Some (if Pos.eqb (Qden (Qred q)) 1
            then _weather_code_to_description (Qnum (Qred q))
            else "unknown")
  | JString _ => Some "unknown"
  | JArray _ => None
  | JObject _ => None
  end.

(** [v[0]]: the first item of a list, the first character of a string;
    [None] for an [IndexError], [KeyError] or [TypeError]. *)
Definition subscript_0 (v : json) : option json :=
  match v with
  | JArray (x :: _) => Some x
  | JString (String c _) => Some (JString (String c EmptyString))
  | _ => None
  end.

(** No request is taken back: the list of requests sent only grows. *)
Definition grows (sent sent' : list Request) : Prop :=
  (List.length sent <= List.length sent')%nat.

Section Functions.

(** Python's [str.lower], [x / 3.6] and [x * 1000] on a decoded value
    ([None]: the operation raises). *)
Variable str_lower : json -> option json.
Variable truediv_3_6 : json -> option json.
Variable mul_1000 : json -> option json.

Variable C : Config.
Variable respond : Request -> Fetched.

Definition fetch (r : Request) : P json :=
  fun sent =>
    match respond r with
    | FetchedJson body => (inr body, r :: sent)
    | FetchedRequestException => (inl RequestException, r :: sent)
    | FetchedException => (inl Exception, r :: sent)
    end.

(** [except requests.exceptions.RequestException: raise HTTPException(502)] *)
Definition unavailable_on_request_exception {A} (m : P A) : P A :=
  try_except m
    (fun e =>
       match e with
       | RequestException =>
           raise (HTTPException 502 "Weather service unavailable")
       | _ => raise e
       end).

(** [async def get_weather_from_open_meteo(city)] *)
Definition get_weather_from_open_meteo (city : string) : P json :=
  unavailable_on_request_exception
    (geocode_data <- fetch (GeocodeRequest city) ;;
     results <- call Exception (dict_get geocode_data "results" JNull) ;;
     if negb (truth results) then
       raise (HTTPException 404 ("City '" ++ city ++ "' not found"))
     else
       location <- call Exception (subscript_0 results) ;;
       lat <- call Exception (subscript location "latitude") ;;
       lon <- call Exception (subscript location "longitude") ;;
       weather_data <- fetch (ForecastRequest lat lon) ;;
       current <- call Exception (subscript weather_data "current") ;;
       name <- call Exception (subscript location "name") ;;
       country <- call Exception
                    (dict_get location "country_code" (JString "")) ;;
       temp <- call Exception (subscript current "temperature_2m") ;;
       feels_like <- call Exception (subscript current "temperature_2m") ;;
       humidity <- call Exception (subscript current "relative_humidity_2m") ;;
       pressure <- call Exception
                     (dict_get current "surface_pressure" (JNumber 1013)) ;;
       code <- call Exception (subscript current "weather_code") ;;
       description <- call Exception (describe code) ;;
       speed <- call Exception (subscript current "wind_speed_10m") ;;
       deg <- call Exception (subscript current "wind_direction_10m") ;;
       ret (JObject
              [ ("name", name);
                ("sys", JObject [ ("country", country) ]);
                ("main", JObject [ ("temp", temp);
                                   ("feels_like", feels_like);
                                   ("humidity", humidity);
                                   ("pressure", pressure) ]);
                ("weather",
                 JArray [ JObject [ ("description", JString description) ] ]);
                ("wind", JObject [ ("speed", speed); ("deg", deg) ]);
                ("visibility", JNumber 10000) ])).

(** [async def get_weather_from_openweather(city)] *)
Definition get_weather_from_openweather (city : string) : P json :=
  if String.eqb (OPENWEATHER_API_KEY C) "" then
    raise (HTTPException 500 "OpenWeather API key not configured")
  else
    unavailable_on_request_exception
      (fetch (OpenWeatherRequest city (OPENWEATHER_API_KEY C))).

(** [async def get_weather_from_weatherapi(city)] *)
Definition get_weather_from_weatherapi (city : string) : P json :=
  if String.eqb (WEATHERAPI_KEY C) "" then
    raise (HTTPException 500 "WeatherAPI key not configured")
  else
    unavailable_on_request_exception
      (data <- fetch (WeatherApiRequest (WEATHERAPI_KEY C) city) ;;
       location <- call Exception (subscript data "location") ;;
       current <- call Exception (subscript data "current") ;;
       name <- call Exception (subscript location "name") ;;
       country <- call Exception (subscript location "country") ;;
       temp <- call Exception (subscript current "temp_c") ;;
       feels_like <- call Exception (subscript current "feelslike_c") ;;
       humidity <- call Exception (subscript current "humidity") ;;
       pressure <- call Exception (subscript current "pressure_mb") ;;
       condition <- call Exception (subscript current "condition") ;;
       text <- call Exception (subscript condition "text") ;;
       description <- call Exception (str_lower text) ;;
       wind_kph <- call Exception (subscript current "wind_kph") ;;
       speed <- call Exception (truediv_3_6 wind_kph) ;;
       deg <- call Exception (subscript current "wind_degree") ;;
       vis_km <- call Exception (subscript current "vis_km") ;;
       visibility <- call Exception (mul_1000 vis_km) ;;
       ret (JObject
              [ ("name", name);
                ("sys", JObject [ ("country", country) ]);
                ("main", JObject [ ("temp", temp);
                                   ("feels_like", feels_like);
                                   ("humidity", humidity);
                                   ("pressure", pressure) ]);
                ("weather", JArray [ JObject [ ("description", description) ] ]);
                ("wind", JObject [ ("speed", speed); ("deg", deg) ]);
                ("visibility", visibility) ])).

(** [async def get_weather_data(city)] *)
Definition get_weather_data (city : string) : P json :=
  if String.eqb (WEATHER_API_PROVIDER C) "open-meteo" then
    get_weather_from_open_meteo city
  else if String.eqb (WEATHER_API_PROVIDER C) "openweather" then
    get_weather_from_openweather city
  else if String.eqb (WEATHER_API_PROVIDER C) "weatherapi" then
    get_weather_from_weatherapi city
  else
    get_weather_from_open_meteo city.

(** The request [get_weather_data] sends first for [city], when it sends any:
    the geocoding request of Open-Meteo (also the fallback for an unknown
    provider), or the one request of the provider that has a key. *)
Definition first_request (city : string) : Request :=
  if String.eqb (WEATHER_API_PROVIDER C) "open-meteo" then
    GeocodeRequest city
  else if String.eqb (WEATHER_API_PROVIDER C) "openweather" then
    OpenWeatherRequest city (OPENWEATHER_API_KEY C)
  else if String.eqb (WEATHER_API_PROVIDER C) "weatherapi" then
    WeatherApiRequest (WEATHERAPI_KEY C) city
  else
    GeocodeRequest city.

(** *** [health_check] *)

(** [class HealthResponse(BaseModel)], its nested dictionaries flattened;
    the two ids are [str(..)] of the integers kept here. *)
Record HealthResponse := {
  status : string;
  version : string;
  algorand_node_status : string;
  algorand_node_network : string;
  algorand_node_last_round : Z;
  weather_api_status : string;
  weather_api_rate_limit_remaining : Z;
  weather_api_provider : string;
  indexer_status : string;
  indexer_pending_transactions : Z;
  contract_marketplace_app_id : Z;
  contract_weather_token_asa_id : Z;
  timestamp : Z
}.

(** [async def health_check(algod, indexer)]: [algod_status] is
    [algod.status()["last-round"]] and [indexer_health] is [indexer.health()]
    ([None]: the call or the lookup raises); [now] is [datetime.utcnow()]. *)
Definition health_check (algod_status : option Z) (indexer_health : option unit)
           (now : Z) : HealthResponse :=
  let algorand_status :=
    match algod_status with
    | Some _ => "connected"
    | None => "disconnected"
    end in
  let last_round :=
    match algod_status with
    | Some r => r
    | None => 0%Z
    end in
  let weather_api_status :=
    if String.eqb (WEATHER_API_PROVIDER C) "openweather"
       && String.eqb (OPENWEATHER_API_KEY C) ""
    then "not_configured"
    else if String.eqb (WEATHER_API_PROVIDER C) "weatherapi"
            && String.eqb (WEATHERAPI_KEY C) ""
    then "not_configured"
    else "available" in
  let rate_limit :=
    if String.eqb (WEATHER_API_PROVIDER C) "open-meteo"
    then 10000%Z else 1000%Z in
  let indexer_status :=
    match indexer_health with
    | Some _ => "connected"
    | None => "disconnected"
    end in
  {| status := if String.eqb algorand_status "connected"
               then "healthy" else "degraded";
     version := "1.0.0";
     algorand_node_status := algorand_status;
     algorand_node_network := "localnet";
     algorand_node_last_round := last_round;
     weather_api_status := weather_api_status;
     weather_api_rate_limit_remaining := rate_limit;
     weather_api_provider := WEATHER_API_PROVIDER C;
     indexer_status := indexer_status;
     indexer_pending_transactions := 0%Z;
     contract_marketplace_app_id := MARKETPLACE_APP_ID C;
     contract_weather_token_asa_id := WEATHER_ASA_ID C;
     timestamp := now |}.

End Functions.

End Providers.

(* ===================================================================== *)
(** ** The autonomous client: reading its trace *)
(* ===================================================================== *)

Module Journal.

Import Agent.
Local Open Scope Z_scope.

(** Number of requests sent to the broker in a trace. *)
Fixpoint requests (t : list Event) : nat :=
  match t with
  | [] => O
  | EvHttpGet _ _ :: t' => S (requests t')
  | _ :: t' => requests t'
  end.

(** Number of five-second pauses (the pause between purchase attempts) in a
    trace. *)
Fixpoint pauses (t : list Event) : nat :=
  match t with
  | [] => O
  | EvSleep 5 :: t' => S (pauses t')
  | _ :: t' => pauses t'
  end.

(** The payment [purchase_weather_token] builds: 1 ALGO from the agent to the
    demo address, signed with the agent's key. *)
Definition is_demo_payment (address private_key : string) (stx : SignedTxn)
  : Prop :=
  sender (txn stx) = address
  /\ receiver (txn stx) = demo_marketplace_address
  /\ amt (txn stx) = 1000000
  /\ signed_with stx = private_key.

(** Every transaction of a trace is that payment. *)
Definition only_demo_payments (address private_key : string)
           (t : list Event) : Prop :=
  Forall (fun e =>
            match e with
            | EvSendTransaction stx => is_demo_payment address private_key stx
            | _ => True
            end) t.

(** What every method keeps between the state before and the state after:
    the identity of the agent; one request in the trace per unit of
    [request_count]; a submission for every purchase counted and an attempt
    for every submission; no transaction but the demo payment. *)
Definition accounted (s s' : St) : Prop :=
  address (self s') = address (self s)
  /\ private_key (self s') = private_key (self s)
  /\ weather_asa_id (self s') = weather_asa_id (self s)
  /\ request_count (self s') - request_count (self s)
     = Z.of_nat (requests (trace s')) - Z.of_nat (requests (trace s))
  /\ tokens_purchased (self s') - tokens_purchased (self s)
     <= Z.of_nat (submissions (trace s')) - Z.of_nat (submissions (trace s))
  /\ Z.of_nat (submissions (trace s')) - Z.of_nat (submissions (trace s))
     <= Z.of_nat (attempts (trace s')) - Z.of_nat (attempts (trace s))
  /\ (only_demo_payments (address (self s)) (private_key (self s)) (trace s)
      -> only_demo_payments (address (self s')) (private_key (self s'))
           (trace s')).

(** The events one call of [purchase_weather_token] may add, latest first,
    when it gets as far as [stage]: the guard, the parameters, the
    submission, the confirmation, the refresh after a confirmed payment. *)
Definition purchase_events (address : string) (stx : SignedTxn)
           (txid : string) (stage : nat) : list Event :=
  match stage with
  | 0%nat => [EvPurchaseAttempt]
  | 1%nat => [EvSuggestedParams; EvPurchaseAttempt]
  | 2%nat => [EvSendTransaction stx; EvSuggestedParams; EvPurchaseAttempt]
  | 3%nat => [EvWaitForConfirmation txid 4; EvSendTransaction stx;
              EvSuggestedParams; EvPurchaseAttempt]
  | _ => [EvAccountInfo address; EvSleep 1; EvWaitForConfirmation txid 4;
          EvSendTransaction stx; EvSuggestedParams; EvPurchaseAttempt]
  end.

(** The payment built from the parameters [params]. *)
Definition demo_payment (a : WeatherAgent) (params : SuggestedParams)
  : SignedTxn :=
  {| txn := {| sender := address a;
               sp := params;
               receiver := demo_marketplace_address;
               amt := 1000000;
               note := "Demo weather token purchase" |};
     signed_with := private_key a |}.

(** A granted document as [get_weather] accepts it: a dictionary whose
    ["data"] member has a ["temperature"]. *)
Definition has_temperature (d : json) : Prop :=
  exists inner t,
    subscript d "data" = Some inner
    /\ subscript inner "temperature" = Some t.

(** How far a call of [purchase_weather_token] gets in state [s]: 0 it stops
    at the balance guard, 1 the node gives no parameters, 2 the node refuses
    the transaction, 3 the transaction is not confirmed, 4 it is confirmed. *)
Definition purchase_stage (W : World) (s : St) : nat :=
  if Qlt_le_dec (balance_algos (self s)) 1.1 then 0%nat
  else
    match suggested_params W (io s) with
    | None => 1%nat
    | Some params =>
        match send_transaction W (S (io s)) (demo_payment (self s) params) with
        | None => 2%nat
        | Some txid =>
            match wait_for_confirmation W (S (S (io s))) txid 4 with
            | None => 3%nat
            | Some confirmed_round =>
                if confirmed_round >? 0 then 4%nat else 3%nat
            end
        end
    end.

End Journal.

(* ===================================================================== *)
(** ** The contract: sequences of calls *)
(* ===================================================================== *)

Module Calls.

Import Marketplace.
Local Open Scope Z_scope.

(** The global state after a sequence of calls, oldest first. *)
Definition run (cs : list Call) (self : State) : State :=
  fold_left (fun st c => after c st) cs self.

(** Number of [record_token_sale] calls in a sequence. *)
Fixpoint sales (cs : list Call) : Z :=
  match cs with
  | [] => 0
  | CallRecordTokenSale :: cs' => 1 + sales cs'
  | _ :: cs' => sales cs'
  end.

(** The argument of the last [set_weather_asa_id] call of a sequence that is
    a [uint64], or [default] when there is none. *)
Definition last_asa_id (cs : list Call) (default : Z) : Z :=
  fold_left (fun a c =>
               match c with
               | CallSetWeatherAsaId asa_id =>
                   if is_uint64 asa_id then asa_id else a
               | _ => a
               end) cs default.

End Calls.

(* ===================================================================== *)
(** ** More concrete worlds *)
(* ===================================================================== *)

Module Example.

Import Scenario.
Local Open Scope string_scope.
Local Open Scope Z_scope.

(** An account with 2 ALGO that holds asset 7 twice (3 units, then none) and
    one unit of asset 9. *)
Definition holder_info : Backend.AccountInfo :=
  {| Backend.amount := 2000000;
     Backend.assets :=
       [ {| Backend.asset_id := 7; Backend.asset_amount := 3 |};
         {| Backend.asset_id := 9; Backend.asset_amount := 1 |};
         {| Backend.asset_id := 7; Backend.asset_amount := 0 |} ] |}.

Definition token_holder : Backend.World :=
  {| Backend.account_info := fun _ => Some holder_info;
     Backend.provider := fun _ => Backend.UpstreamData london;
     Backend.utcnow := ticking |}.

(** The listing route with the stand-in codec and asset id 7. *)
Definition list_tokens (W : Backend.World) (w : string)
  : Tokens.Reply * Backend.St :=
  Tokens.handle_tokens decode_address encode_address 7 W w idle.

(** *** Provider answers *)

Definition geocode_london : Agent.json :=
  Agent.JObject
    [ ("results",
       Agent.JArray
         [ Agent.JObject
             [ ("name", Agent.JString "London");
               ("latitude", Agent.JNumber 51.5%Q);
               ("longitude", Agent.JNumber (-0.12)%Q);
               ("country_code", Agent.JString "GB") ] ]) ].

Definition forecast_london : Agent.json :=
  Agent.JObject
    [ ("current",
       Agent.JObject
         [ ("temperature_2m", Agent.JNumber 14.5%Q);
           ("relative_humidity_2m", Agent.JNumber 80%Q);
           ("weather_code", Agent.JNumber 3%Q);
           ("wind_speed_10m", Agent.JNumber 3.2%Q);
           ("wind_direction_10m", Agent.JNumber 270%Q);
           ("surface_pressure", Agent.JNumber 1013%Q) ]) ].

(** Open-Meteo knows London and nothing else. *)
Definition open_meteo (r : Providers.Request) : Providers.Fetched :=
  match r with
  | Providers.GeocodeRequest name =>
      if String.eqb name "London"
      then Providers.FetchedJson geocode_london
      else Providers.FetchedJson (Agent.JObject [])
  | Providers.ForecastRequest _ _ => Providers.FetchedJson forecast_london
  | _ => Providers.FetchedRequestException
  end.

(** *** Worlds of the agent *)

(** The broker denies; the node accepts the payment but never confirms
    it. *)
Definition never_confirmed : Agent.World :=
  {| Agent.http_get := fun _ _ _ => respond 403 denial_body;
     Agent.account_info := fun _ w => ledger_with 6000000 w;
     Agent.suggested_params :=
       fun _ => Some {| Agent.sp_fee := 1000; Agent.sp_first := 1;
                        Agent.sp_last := 1001 |};
     Agent.send_transaction := fun _ _ => Some "TXID";
     Agent.wait_for_confirmation := fun _ _ _ => None |}.

(** A granted document with a temperature and no description. *)
Definition terse_body : Agent.json :=
  Agent.JObject
    [ ("success", Agent.JBool true);
      ("data", Agent.JObject
                 [ ("city", Agent.JString "Berlin");
                   ("temperature", Agent.JNumber 9%Q) ]) ].

Definition terse_broker : Agent.World :=
  node_ok 6000000 (respond 200 terse_body).

(** The agent's node reports the holder's account. *)
Definition holder_node : Agent.World :=
  {| Agent.http_get := fun _ _ _ => respond 403 denial_body;
     Agent.account_info := fun _ _ => Some holder_info;
     Agent.suggested_params := fun _ => None;
     Agent.send_transaction := fun _ _ => None;
     Agent.wait_for_confirmation := fun _ _ _ => None |}.

(** An agent configured with asset id 7. *)
Definition holder_agent : Agent.St :=
  Agent.new_agent holder_node wallet "key" 7.

(** The account held 6 ALGO when the node was first asked and holds 0.5 ALGO
    ever since; the node hands out parameters and rejects the payment the
    account cannot cover. *)
Definition drained : Agent.World :=
  {| Agent.http_get := fun _ _ _ => respond 403 denial_body;
     Agent.account_info :=
       fun k w => ledger_with (if Nat.eqb k 0 then 6000000 else 500000) w;
     Agent.suggested_params :=
       fun _ => Some {| Agent.sp_fee := 1000; Agent.sp_first := 1;
                        Agent.sp_last := 1001 |};
     Agent.send_transaction := fun _ _ => None;
     Agent.wait_for_confirmation := fun _ _ _ => None |}.

(** The broker denies; the account holds exactly 1.1 ALGO and the node
    confirms every payment. *)
Definition at_the_margin : Agent.World :=
  node_ok 1100000 (respond 403 denial_body).

End Example.

(* ===================================================================== *)
(** ** Reasoning about computations *)
(* ===================================================================== *)

Module EffFacts.

Import Eff.

Section Preserves.
Variables E S : Type.

Variable R : S -> S -> Prop.
Hypothesis R_refl : forall s, R s s.
Hypothesis R_trans : forall s1 s2 s3, R s1 s2 -> R s2 s3 -> R s1 s3.

Lemma preserves_ret A (a : A) : preserves R (ret a : M E S A).
Proof. intros s. apply R_refl. Qed.

Lemma preserves_raise A (e : E) : preserves R (raise e : M E S A).
Proof. intros s. apply R_refl. Qed.

Lemma preserves_call A (e : E) (r : option A) :
  preserves R (call e r : M E S A).
Proof. destruct r; [apply preserves_ret | apply preserves_raise]. Qed.

Lemma preserves_bind A B (m : M E S A) (k : A -> M E S B) :
  preserves R m -> (forall a, preserves R (k a)) -> preserves R (bind m k).
Proof.
  intros Hm Hk s. unfold bind. specialize (Hm s).
  destruct (m s) as [[e | a] s']; simpl in *.
  - exact Hm.
  - eapply R_trans; [exact Hm | apply Hk].
Qed.

Lemma preserves_try_except A (m : M E S A) (h : E -> M E S A) :
  preserves R m -> (forall e, preserves R (h e)) ->
  preserves R (try_except m h).
Proof.
  intros Hm Hh s. unfold try_except. specialize (Hm s).
  destruct (m s) as [[e | a] s']; simpl in *.
  - eapply R_trans; [exact Hm | apply Hh].
  - exact Hm.
Qed.

End Preserves.

End EffFacts.

(* ===================================================================== *)
(** ** The broker: admission decisions *)
(* ===================================================================== *)

Module BackendFacts.

Import Eff Backend.
Local Open Scope string_scope.

Section Broker.

Variable address_bytes : Type.
Variable decode_address : string -> option address_bytes.
Variable encode_address : address_bytes -> option string.
Variables WEATHER_ASA_ID MARKETPLACE_APP_ID : Z.


(** What the verifier computes when the node answers. *)
Lemma check_token_ownership_answer W wallet info s :
  account_info W wallet = Some info ->
  check_token_ownership W wallet s
  = (inr (Qle_bool 5.0 (balance_algos info)),
     {| calls := EvAccountInfo wallet :: calls s;
        clock_reads := clock_reads s |}).
Proof.
  intros H. unfold check_token_ownership, try_except, algod_account_info,
    bind, record_call, modify, call. rewrite H. reflexivity.
Qed.

(** What the verifier computes when the node does not answer. *)
Lemma check_token_ownership_no_answer W wallet s :
  account_info W wallet = None ->
  check_token_ownership W wallet s
  = (inr false,
     {| calls := EvAccountInfo wallet :: calls s;
        clock_reads := clock_reads s |}).
Proof.
  intros H. unfold check_token_ownership, try_except, algod_account_info,
    bind, record_call, modify, call. rewrite H. reflexivity.
Qed.

(** The verifier never raises. *)
Lemma check_token_ownership_total W wallet s :
  exists b, fst (check_token_ownership W wallet s) = inr b.
Proof.
  destruct (account_info W wallet) as [info |] eqn:H.
  - rewrite (check_token_ownership_answer _ _ s H). simpl. eauto.
  - rewrite (check_token_ownership_no_answer _ _ s H). simpl. eauto.
Qed.

(** C1. For every account whose balance query succeeds, the verifier
    [check_token_ownership] returns true if and only if the balance is at
    least 5.0 ALGO: it returns false for every balance strictly below 5.0
    and true for every balance of 5.0 or more. *)
Theorem check_token_ownership_threshold W wallet info s :
  account_info W wallet = Some info ->
  ((balance_algos info < 5.0)%Q ->
     fst (check_token_ownership W wallet s) = inr false)
  /\ ((5.0 <= balance_algos info)%Q ->
        fst (check_token_ownership W wallet s) = inr true)
  /\ (fst (check_token_ownership W wallet s) = inr true
      <-> (5.0 <= balance_algos info)%Q).
Proof.
  intros H. rewrite (check_token_ownership_answer _ _ s H). simpl.
  assert (Hle : Qle_bool 5.0 (balance_algos info) = true
                <-> (5.0 <= balance_algos info)%Q) by apply Qle_bool_iff.
  repeat split.
  - intros Hlt. destruct (Qle_bool 5.0 (balance_algos info)) eqn:Hb; auto.
    exfalso. apply (Qlt_not_le _ _ Hlt). apply Hle. reflexivity.
  - intros Hge. f_equal. apply Hle. exact Hge.
  - intros Heq. apply Hle. congruence.
  - intros Hge. f_equal. apply Hle. exact Hge.
Qed.

(** C2. For a well-formed caller identity, when the balance query fails the
    verifier returns false (no exception reaches the caller) and the route
    answers 403 with code INVALID_TOKEN, without calling the provider. *)
Theorem ledger_failure_is_denied W city wallet s :
  validate_wallet_address decode_address encode_address wallet = true ->
  account_info W wallet = None ->
  fst (check_token_ownership W wallet s) = inr false
  /\ handle decode_address encode_address WEATHER_ASA_ID MARKETPLACE_APP_ID
  W city wallet s
     = (JSONResponse 403
          (ContentDict false
             {| code := "INVALID_TOKEN";
                message :=
                  "No valid weather access token found for this wallet";
                details :=
                  Some {| wallet_address := wallet;
                          required_token_type := "OpenWeather Access Token";
                          marketplace_info :=
                            {| contract_id := MARKETPLACE_APP_ID;
                               token_price_algo := 10;
                               purchase_endpoint := "/marketplace/buy" |} |}
             |}),
        {| calls := EvAccountInfo wallet :: calls s;
           clock_reads := clock_reads s |}).
Proof.
  intros Hv Hl. split.
  - rewrite (check_token_ownership_no_answer _ _ s Hl). reflexivity.
  - unfold handle, get_weather. rewrite Hv. simpl. unfold bind.
    rewrite (check_token_ownership_no_answer _ _ s Hl). reflexivity.
Qed.

(** C3. For a caller identity that fails [validate_wallet_address], the
    route answers 400 with code INVALID_WALLET and makes no call at all: the
    trace of ledger and provider calls and the clock are left as they
    were. *)
Theorem malformed_wallet_is_rejected W city wallet s :
  validate_wallet_address decode_address encode_address wallet = false ->
  handle decode_address encode_address WEATHER_ASA_ID MARKETPLACE_APP_ID
  W city wallet s
  = (JSONResponse 400
       (ContentDict false
          {| code := "INVALID_WALLET";
             message := "Invalid wallet address format";
             details := None |}),
     s).
Proof.
  intros Hv. unfold handle, get_weather. rewrite Hv. reflexivity.
Qed.

(** The decision of the route, clock fields apart, is a function of what the
    ledger says about the wallet and what the provider says about the
    city. *)
Lemma handle_reads_ledger_and_provider W W' city wallet s s' :
  account_info W wallet = account_info W' wallet ->
  provider W city = provider W' city ->
  without_clock
    (fst (handle decode_address encode_address WEATHER_ASA_ID
            MARKETPLACE_APP_ID W city wallet s))
  = without_clock
      (fst (handle decode_address encode_address WEATHER_ASA_ID
              MARKETPLACE_APP_ID W' city wallet s')).
Proof.
  intros Hl Hp.
  cbv beta iota zeta delta
    [handle get_weather bind try_except check_token_ownership
     algod_account_info record_call modify call ret raise get_weather_data
     format_weather_data datetime_utcnow].
  destruct (validate_wallet_address decode_address encode_address wallet);
    [| reflexivity].
  cbv beta iota delta [negb]. rewrite <- Hl, <- Hp.
  destruct (account_info W wallet) as [info |]; [| reflexivity].
  destruct (Qle_bool 5.0 (balance_algos info)); [| reflexivity].
  destruct (provider W city) as [raw | st text |]; try reflexivity.
  destruct (hd_error _); reflexivity.
Qed.

(** C8 (amended). Two consecutive calls of the route for the same city and
    wallet, with the ledger and the provider unchanged in between, return
    decisions that agree on everything but the two clock readings
    ([expires_at] and [timestamp]) of a granted response; a denial is repeated
    identically. *)
Theorem consecutive_calls_agree_up_to_clock W W' city wallet s :
  account_info W wallet = account_info W' wallet ->
  provider W city = provider W' city ->
  let first :=
    handle decode_address encode_address WEATHER_ASA_ID MARKETPLACE_APP_ID
      W city wallet s in
  let second :=
    handle decode_address encode_address WEATHER_ASA_ID MARKETPLACE_APP_ID
      W' city wallet (snd first) in
  without_clock (fst first) = without_clock (fst second)
  /\ (forall status content,
        fst first = JSONResponse status content ->
        fst second = JSONResponse status content).
Proof.
  intros Hl Hp first second.
  assert (Heq : without_clock (fst first) = without_clock (fst second))
    by (apply handle_reads_ledger_and_provider; assumption).
  split; [exact Heq |].
  intros status content Hd. rewrite Hd in Heq.
  destruct (fst second); simpl in Heq; congruence.
Qed.

End Broker.

(** C2, at a concrete request: the node is down. *)
Lemma ledger_failure_is_denied_witness :
  fst (check_token_ownership Scenario.ledger_down Scenario.wallet Scenario.idle)
  = inr false
  /\ exists content,
       fst (Scenario.serve Scenario.ledger_down "London" Scenario.wallet)
       = JSONResponse 403 content.
Proof.
  destruct (@ledger_failure_is_denied _ Scenario.decode_address
              Scenario.encode_address 0%Z 0%Z Scenario.ledger_down "London"
              Scenario.wallet Scenario.idle) as [Hv Hr];
    [reflexivity | reflexivity |].
  split; [exact Hv |].
  unfold Scenario.serve. rewrite Hr. simpl. eexists. reflexivity.
Defined.

(** C1, at concrete accounts: 6 ALGO passes the check, 2 ALGO does not. *)
Lemma check_token_ownership_threshold_witness :
  fst (check_token_ownership Scenario.funded Scenario.wallet Scenario.idle)
  = inr true
  /\ fst (check_token_ownership Scenario.underfunded Scenario.wallet
            Scenario.idle)
     = inr false.
Proof.
  split.
  - apply (@check_token_ownership_threshold Scenario.funded Scenario.wallet
             {| amount := 6000000; assets := [] |} Scenario.idle);
      [reflexivity | vm_compute; discriminate].
  - apply (@check_token_ownership_threshold Scenario.underfunded
             Scenario.wallet {| amount := 2000000; assets := [] |}
             Scenario.idle);
      [reflexivity | vm_compute; reflexivity].
Defined.

(** C3, at a concrete request: ["abc"] is not an address. *)
Lemma malformed_wallet_is_rejected_witness :
  exists content,
    Scenario.serve Scenario.funded "London" "abc"
    = (JSONResponse 400 content, Scenario.idle).
Proof.
  unfold Scenario.serve.
  rewrite (@malformed_wallet_is_rejected _ Scenario.decode_address
             Scenario.encode_address 0%Z 0%Z Scenario.funded "London" "abc"
             Scenario.idle); [| reflexivity].
  eexists. reflexivity.
Defined.

(** C8, as stated, fails: with 6 ALGO on the account and the provider
    answering the same data, two consecutive calls return responses that
    differ (in [timestamp] and [expires_at]). *)
Lemma consecutive_grants_differ :
  let first := Scenario.serve Scenario.funded "London" Scenario.wallet in
  let second :=
    handle Scenario.decode_address Scenario.encode_address 0%Z 0%Z
      Scenario.funded "London" Scenario.wallet (snd first) in
  fst first <> fst second.
Proof.
  vm_compute. intros H. discriminate H.
Qed.

(** C8 (amended), at the same two calls. *)
Lemma consecutive_calls_agree_up_to_clock_witness :
  let first := Scenario.serve Scenario.funded "London" Scenario.wallet in
  let second :=
    handle Scenario.decode_address Scenario.encode_address 0%Z 0%Z
      Scenario.funded "London" Scenario.wallet (snd first) in
  without_clock (fst first) = without_clock (fst second).
Proof.
  apply (@consecutive_calls_agree_up_to_clock _ Scenario.decode_address
           Scenario.encode_address 0%Z 0%Z Scenario.funded Scenario.funded
           "London" Scenario.wallet Scenario.idle);
    reflexivity.
Defined.

End BackendFacts.

(* ===================================================================== *)
(** ** The autonomous client: requests, purchases and counters *)
(* ===================================================================== *)

Module AgentFacts.

Import Eff EffFacts Agent.
Local Open Scope Z_scope.

Section Methods.

Variable W : World.

(** *** What each basic method does to the state *)

(** Closes a goal about a run of [get_weather] that ends in [None]. *)
Ltac no_data :=
  exists None; split; [reflexivity |];
  split; [intros _; reflexivity | intros H; exfalso; apply H; reflexivity].

(** The state after [_update_account_info]: one call to the node; the balance
    and the owned tokens are refreshed when it answers. *)
Lemma _update_account_info_state s :
  _update_account_info W s
  = (inr tt,
     {| self :=
          match account_info W (io s) (address (self s)) with
          | Some info =>
              set_owned_tokens
                (filter (fun asset =>
                           (Backend.asset_id asset =? weather_asa_id (self s))
                           && (Backend.asset_amount asset >? 0))
                        (Backend.assets info))
                (set_balance_algos
                   (inject_Z (Backend.amount info) / 1000000)%Q (self s))
          | None => self s
          end;
        trace := EvAccountInfo (address (self s)) :: trace s;
        io := S (io s) |}).
Proof.
  cbv beta iota zeta delta
    [_update_account_info try_except bind get_self outside update_self
     modify ret].
  destruct (account_info W (io s) (address (self s))); reflexivity.
Qed.

(** The state after [get_weather]: one request; [request_count] goes up by
    one, [successful_requests] goes up by one exactly on a 200. *)
Lemma get_weather_state city s :
  snd (get_weather W city s)
  = {| self :=
         if answered_200 W city s
         then incr_successful_requests (incr_request_count (self s))
         else incr_request_count (self s);
       trace := EvHttpGet city (address (self s)) :: trace s;
       io := S (io s) |}.
Proof.
  unfold answered_200, answer.
  cbv beta iota zeta delta
    [get_weather try_except bind get_self outside update_self modify ret call
     raise incr_request_count address self io trace].
  destruct s as [a t k]. destruct a. cbn [Agent.address].
  destruct (http_get W k city _) as [response |]; [| reflexivity].
  destruct (status_code response =? 200).
  - destruct (response_json response) as [data |]; [| reflexivity].
    destruct (subscript data "data") as [inner |]; [| reflexivity].
    destruct (subscript inner "temperature"); reflexivity.
  - destruct (status_code response =? 403); [| reflexivity].
    destruct (response_json response) as [data |]; [| reflexivity].
    destruct (dict_get data "error" (JObject [])) as [error |];
      [| reflexivity].
    destruct (dict_get error "message" (JString "Unknown error"));
      reflexivity.
Qed.

(** [get_weather] never raises, and a result other than [None] is a
    dictionary with a ["data"] member, which Python takes as true. *)
Lemma get_weather_result city s :
  exists r, fst (get_weather W city s) = inr r
            /\ (answered_200 W city s = false -> r = None)
            /\ (r <> None -> truthy r = true).
Proof.
  unfold answered_200, answer.
  cbv beta iota zeta delta
    [get_weather try_except bind get_self outside update_self modify ret call
     raise incr_request_count address self io trace].
  destruct s as [a t k]. destruct a. cbn [Agent.address].
  destruct (http_get W k city _) as [response |]; [| no_data].
  destruct (status_code response =? 200).
  - destruct (response_json response) as [data |]; [| no_data].
    destruct (subscript data "data") as [inner |] eqn:Hd; [| no_data].
    destruct (subscript inner "temperature"); [| no_data].
    eexists. split; [reflexivity |]. split; [discriminate |].
    intros _. destruct data; try discriminate Hd.
    destruct members; [discriminate Hd | reflexivity].
  - destruct (status_code response =? 403); [| no_data].
    destruct (response_json response) as [data |]; [| no_data].
    destruct (dict_get data "error" (JObject [])) as [error |]; [| no_data].
    destruct (dict_get error "message" (JString "Unknown error")); no_data.
Qed.

(** A purchase with less than 1.1 ALGO on the books stops at the guard. *)
Lemma purchase_weather_token_insufficient s :
  (balance_algos (self s) < 1.1)%Q ->
  purchase_weather_token W s
  = (inr false,
     {| self := self s; trace := EvPurchaseAttempt :: trace s; io := io s |}).
Proof.
  intros Hlt.
  cbv beta iota zeta delta
    [purchase_weather_token bind emit modify get_self ret self trace io].
  destruct s as [a t k].
  destruct (Qlt_le_dec (balance_algos a) 1.1) as [_ | Hge]; [reflexivity |].
  exfalso. exact (Qlt_not_le _ _ Hlt Hge).
Qed.

(** The two ways a purchase ends.  It fails and leaves the agent as it was,
    or the payment is confirmed, [tokens_purchased] goes up by one and the
    account is read again.  Either way it returns, and it counts as one
    attempt. *)
Lemma purchase_weather_token_cases s :
  (fst (purchase_weather_token W s) = inr false
   /\ self (snd (purchase_weather_token W s)) = self s
   /\ attempts (trace (snd (purchase_weather_token W s)))
      = S (attempts (trace s)))
  \/ (fst (purchase_weather_token W s) = inr true
      /\ exists s1,
           self s1 = incr_tokens_purchased (self s)
           /\ attempts (trace s1) = S (attempts (trace s))
           /\ snd (purchase_weather_token W s)
              = snd (_update_account_info W s1)).
Proof.
  destruct (Qlt_le_dec (balance_algos (self s)) 1.1) as [Hlt | Hge] eqn:Hdec.
  - rewrite (purchase_weather_token_insufficient s Hlt). left.
    repeat split.
  - cbv beta iota zeta delta
      [purchase_weather_token bind emit modify get_self ret try_except
       outside update_self sleep self trace io].
    destruct s as [a t k]. cbn [self trace io] in *. rewrite Hdec.
    destruct (suggested_params W k) as [params |];
      [| left; repeat split].
    match goal with
    | |- context [send_transaction W ?k ?stx] =>
        destruct (send_transaction W k stx) as [txid |]
    end; [| left; repeat split].
    match goal with
    | |- context [wait_for_confirmation W ?k ?t ?n] =>
        destruct (wait_for_confirmation W k t n) as [round |]
    end; [| left; repeat split].
    destruct (round >? 0); [| left; repeat split].
    right. rewrite _update_account_info_state. split; [reflexivity |].
    eexists. split; [| split; [| rewrite _update_account_info_state;
                                 reflexivity ] ]; reflexivity.
Qed.

(** [purchase_weather_token] never raises. *)
Lemma purchase_weather_token_returns s :
  exists b, fst (purchase_weather_token W s) = inr b.
Proof.
  destruct (purchase_weather_token_cases s) as [[H _] | [H _]]; eauto.
Qed.

(** C6 (amended). [request_count] goes up by one on every request, whatever
    the outcome; [tokens_purchased] goes up by one on an acquisition attempt
    exactly when the attempt succeeds, and a failed attempt leaves it as it
    was. *)
Theorem counters_after_request_and_purchase city s :
  request_count (self (snd (get_weather W city s)))
  = request_count (self s) + 1
  /\ tokens_purchased (self (snd (purchase_weather_token W s)))
     = tokens_purchased (self s)
       + match fst (purchase_weather_token W s) with
         | inr true => 1
         | _ => 0
         end.
Proof.
  split.
  - rewrite get_weather_state. cbn [self].
    destruct (answered_200 W city s); reflexivity.
  - destruct (purchase_weather_token_cases s)
      as [(Hr & Hs & _) | (Hr & s1 & Hs1 & _ & Hs)].
    + rewrite Hr, Hs. lia.
    + rewrite Hr, Hs, _update_account_info_state. cbn [self].
      destruct (account_info W (io s1) (address (self s1)));
        cbn [set_owned_tokens set_balance_algos tokens_purchased];
        rewrite Hs1; reflexivity.
Qed.

(** C7 (amended). With a booked balance below 1.1 ALGO, that is with
    [self.balance_algos], the balance read at the last refresh that the node
    answered, below 1.1, [purchase_weather_token] returns [False] to its
    caller, submits nothing and calls the node not at all: the trace gains
    only the mark of the attempt and the agent is left as it was.  In
    particular this is so right after a refresh that the node answers with a
    balance below 1.1 ALGO. *)
Theorem insufficient_balance_is_reported s :
  ((balance_algos (self s) < 1.1)%Q ->
   fst (purchase_weather_token W s) = inr false
   /\ submissions (trace (snd (purchase_weather_token W s)))
      = submissions (trace s)
   /\ trace (snd (purchase_weather_token W s)) = EvPurchaseAttempt :: trace s
   /\ io (snd (purchase_weather_token W s)) = io s
   /\ self (snd (purchase_weather_token W s)) = self s)
  /\ (forall info,
        account_info W (io s) (address (self s)) = Some info ->
        (Backend.balance_algos info < 1.1)%Q ->
        fst (purchase_weather_token W (snd (_update_account_info W s)))
        = inr false
        /\ submissions
             (trace (snd (purchase_weather_token W
                            (snd (_update_account_info W s)))))
           = submissions (trace s)
        /\ trace (snd (purchase_weather_token W
                         (snd (_update_account_info W s))))
           = EvPurchaseAttempt :: EvAccountInfo (address (self s)) :: trace s).
Proof.
  split.
  - intros Hlt. rewrite (purchase_weather_token_insufficient s Hlt).
    repeat split.
  - intros info Hinfo Hlt.
    rewrite purchase_weather_token_insufficient.
    + rewrite _update_account_info_state. repeat split.
    + rewrite _update_account_info_state, Hinfo. exact Hlt.
Qed.

(** *** The purchase loop *)

(** One iteration of the loop, spelled out. *)
Lemma purchase_loop_step city max_attempts remaining attempt s :
  purchase_loop W city max_attempts (S remaining) attempt s
  = match fst (purchase_weather_token W s) with
    | inr true =>
        let g := get_weather W city
                   (snd (sleep 2 (snd (purchase_weather_token W s)))) in
        match fst g with
        | inr r =>
            if truthy r then (inr r, snd g)
            else next_iteration W city max_attempts remaining attempt (snd g)
        | inl e => (inl e, snd g)
        end
    | inr false =>
        next_iteration W city max_attempts remaining attempt
          (snd (purchase_weather_token W s))
    | inl e => (inl e, snd (purchase_weather_token W s))
    end.
Proof.
  unfold next_iteration. cbn [purchase_loop]. unfold bind at 1.
  destruct (purchase_weather_token W s) as [[e | [|]] s1]; cbn [fst snd].
  - reflexivity.
  - unfold bind at 1. unfold bind at 1. cbn [sleep emit modify fst snd].
    unfold bind at 1.
    destruct (get_weather W city _) as [[e | r] s2]; cbn [fst snd];
      [reflexivity |].
    destruct r as [d |]; cbn [truthy].
    + destruct (truth d); cbn [ret]; [reflexivity |].
      unfold bind at 1.
      destruct (attempt <? max_attempts - 1); reflexivity.
    + cbn [ret]. unfold bind at 1.
      destruct (attempt <? max_attempts - 1); reflexivity.
  - unfold bind at 1. cbn [ret]. unfold bind at 1.
    destruct (attempt <? max_attempts - 1); reflexivity.
Qed.

(** Every call of [purchase_weather_token] is one attempt. *)
Lemma purchase_weather_token_attempts s :
  attempts (trace (snd (purchase_weather_token W s))) = S (attempts (trace s)).
Proof.
  destruct (purchase_weather_token_cases s)
    as [(_ & _ & H) | (_ & s1 & _ & H & Hs)]; [exact H |].
  rewrite Hs, _update_account_info_state. cbn [trace attempts]. exact H.
Qed.

Lemma pause_attempts (b : bool) n s :
  attempts (trace (snd ((if b then sleep n else ret tt) s)))
  = attempts (trace s).
Proof. destruct b; reflexivity. Qed.

Lemma pause_self (b : bool) n s :
  self (snd ((if b then sleep n else ret tt) s)) = self s.
Proof. destruct b; reflexivity. Qed.

(** The loop makes at most as many attempts as it has iterations. *)
Lemma purchase_loop_attempts_bound city max_attempts remaining :
  forall attempt s,
    (attempts (trace (snd (purchase_loop W city max_attempts remaining
                              attempt s)))
     <= attempts (trace s) + remaining)%nat.
Proof.
  induction remaining as [| k IH]; intros attempt s.
  - cbn. lia.
  - rewrite purchase_loop_step.
    pose proof (purchase_weather_token_attempts s) as Hp.
    destruct (fst (purchase_weather_token W s)) as [e | [|]]; cbn [snd].
    + lia.
    + cbv zeta.
      match goal with
      | |- context [get_weather W city ?s2] =>
          pose proof (get_weather_state city s2) as Hg;
          destruct (get_weather W city s2) as [[e | r] s3]
      end; cbn [fst snd] in *.
      * subst s3. cbn [trace attempts sleep emit modify snd]. lia.
      * assert (Ha : attempts (trace s3)
                     = S (attempts (trace s)))
          by (subst s3; cbn [trace attempts sleep emit modify snd]; lia).
        destruct (truthy r); cbn [snd]; [lia |].
        unfold next_iteration.
        eapply Nat.le_trans; [apply IH |].
        rewrite pause_attempts. lia.
    + unfold next_iteration.
      eapply Nat.le_trans; [apply IH |].
      rewrite pause_attempts. lia.
Qed.

(** A loop with an iteration to run makes at least one attempt. *)
Lemma purchase_loop_attempts_at_least city max_attempts remaining :
  forall attempt s,
    (attempts (trace s) + Nat.min 1 remaining
     <= attempts (trace (snd (purchase_loop W city max_attempts remaining
                                attempt s))))%nat.
Proof.
  induction remaining as [| k IH]; intros attempt s.
  - cbn. lia.
  - rewrite purchase_loop_step.
    pose proof (purchase_weather_token_attempts s) as Hp.
    destruct (fst (purchase_weather_token W s)) as [e | [|]]; cbn [snd].
    + lia.
    + cbv zeta.
      match goal with
      | |- context [get_weather W city ?s2] =>
          pose proof (get_weather_state city s2) as Hg;
          destruct (get_weather W city s2) as [[e | r] s3]
      end; cbn [fst snd] in *.
      * subst s3. cbn [trace attempts sleep emit modify snd]. lia.
      * assert (Ha : attempts (trace s3) = S (attempts (trace s)))
          by (subst s3; cbn [trace attempts sleep emit modify snd]; lia).
        destruct (truthy r); cbn [snd]; [lia |].
        unfold next_iteration.
        match goal with
        | |- context [purchase_loop W city max_attempts k ?a ?s5] =>
            pose proof (IH a s5) as Hm
        end.
        rewrite pause_attempts in Hm. lia.
    + unfold next_iteration.
      match goal with
      | |- context [purchase_loop W city max_attempts k ?a ?s5] =>
          pose proof (IH a s5) as Hm
      end.
      rewrite pause_attempts in Hm. lia.
Qed.

(** [autonomous_weather_request], spelled out: refresh the account, ask once,
    and enter the loop when the answer is not a usable grant. *)
Lemma autonomous_weather_request_unfold city max_attempts s :
  autonomous_weather_request W city max_attempts s
  = let g := get_weather W city (snd (_update_account_info W s)) in
    match fst g with
    | inr r =>
        if truthy r then (inr r, snd g)
        else purchase_loop W city max_attempts (Z.to_nat max_attempts) 0
               (snd g)
    | inl e => (inl e, snd g)
    end.
Proof.
  unfold autonomous_weather_request. unfold bind at 1.
  rewrite _update_account_info_state. cbn [snd]. unfold bind at 1.
  destruct (get_weather W city _) as [[e | r] s2]; cbn [fst snd];
    [reflexivity |].
  destruct (truthy r); reflexivity.
Qed.

(** The first request of [autonomous_weather_request] is no attempt. *)
Lemma first_request_attempts city s :
  attempts (trace (snd (get_weather W city (snd (_update_account_info W s)))))
  = attempts (trace s).
Proof.
  rewrite get_weather_state, _update_account_info_state. reflexivity.
Qed.

Lemma first_request_tokens_purchased city s :
  tokens_purchased
    (self (snd (get_weather W city (snd (_update_account_info W s)))))
  = tokens_purchased (self s).
Proof.
  rewrite get_weather_state, _update_account_info_state. cbn [snd self io].
  destruct (answered_200 W city _);
    destruct (account_info W (io s) (address (self s))); reflexivity.
Qed.

(** When [purchase_weather_token] fails on every attempt of the loop, the
    loop runs all its iterations, makes one attempt in each, leaves the agent
    as it was and returns [None]. *)
Lemma purchase_loop_every_attempt_fails city max_attempts remaining :
  forall attempt s,
    every_attempt_fails W max_attempts remaining attempt s ->
    fst (purchase_loop W city max_attempts remaining attempt s) = inr None
    /\ attempts (trace (snd (purchase_loop W city max_attempts remaining
                               attempt s)))
       = (attempts (trace s) + remaining)%nat
    /\ self (snd (purchase_loop W city max_attempts remaining attempt s))
       = self s.
Proof.
  induction remaining as [| k IH]; intros attempt s Hfails.
  - cbn. repeat split. lia.
  - destruct Hfails as [Hfail Hrest].
    rewrite purchase_loop_step, Hfail. unfold next_iteration.
    destruct (IH _ _ Hrest) as (Hr & Ha & Hs).
    split; [exact Hr |]. split.
    + rewrite Ha, pause_attempts, purchase_weather_token_attempts. lia.
    + rewrite Hs, pause_self.
      destruct (purchase_weather_token_cases s)
        as [(_ & H & _) | (Ht & _)]; [exact H |].
      rewrite Hfail in Ht. discriminate Ht.
Qed.

(** C4 (amended). With [max_attempts = N >= 1], [autonomous_weather_request]
    makes at most N acquisition attempts.  When the first request is not
    granted and [purchase_weather_token] fails on every attempt of the run
    (each of the calls the loop makes returns [False], whatever it would
    return in states the run does not pass through), the result is [None],
    exactly N attempts are made, and [tokens_purchased], which counts
    confirmed purchases only, is left as it was. *)
Theorem retry_bound_and_exhaustion city max_attempts s :
  1 <= max_attempts ->
  new_attempts s (snd (autonomous_weather_request W city max_attempts s))
  <= max_attempts
  /\ (fst (get_weather W city (snd (_update_account_info W s))) = inr None ->
      every_attempt_fails W max_attempts (Z.to_nat max_attempts) 0
        (snd (get_weather W city (snd (_update_account_info W s)))) ->
      fst (autonomous_weather_request W city max_attempts s) = inr None
      /\ new_attempts s
           (snd (autonomous_weather_request W city max_attempts s))
         = max_attempts
      /\ tokens_purchased
           (self (snd (autonomous_weather_request W city max_attempts s)))
         = tokens_purchased (self s)).
Proof.
  intros HN. unfold new_attempts.
  rewrite autonomous_weather_request_unfold. cbv zeta.
  pose proof (first_request_attempts city s) as Ha.
  pose proof (first_request_tokens_purchased city s) as Ht.
  split.
  - destruct (fst (get_weather W city _)) as [e | r]; cbn [snd]; [lia |].
    destruct (truthy r); cbn [snd]; [lia |].
    pose proof (purchase_loop_attempts_bound city max_attempts
                  (Z.to_nat max_attempts) 0
                  (snd (get_weather W city (snd (_update_account_info W s)))))
      as Hb.
    lia.
  - intros Hdenied Hfail. rewrite Hdenied. cbn [truthy].
    destruct (@purchase_loop_every_attempt_fails city max_attempts
                (Z.to_nat max_attempts) 0
                (snd (get_weather W city (snd (_update_account_info W s))))
                Hfail)
      as (Hr & Hc & Hs).
    split; [exact Hr |]. split.
    + rewrite Hc. lia.
    + rewrite Hs. exact Ht.
Qed.

(** After a first request that is not granted, whatever the reason, an
    acquisition is attempted as soon as [max_attempts >= 1]. *)
Lemma any_refusal_enters_acquisition city max_attempts s :
  1 <= max_attempts ->
  fst (get_weather W city (snd (_update_account_info W s))) = inr None ->
  1 <= new_attempts s
         (snd (autonomous_weather_request W city max_attempts s)).
Proof.
  intros HN Hdenied. unfold new_attempts.
  rewrite autonomous_weather_request_unfold. cbv zeta.
  rewrite Hdenied. cbn [truthy].
  pose proof (first_request_attempts city s) as Ha.
  pose proof (purchase_loop_attempts_at_least city max_attempts
                (Z.to_nat max_attempts) 0
                (snd (get_weather W city (snd (_update_account_info W s)))))
    as Hb.
  assert (Nat.min 1 (Z.to_nat max_attempts) = 1%nat) by lia.
  lia.
Qed.

(** *** Relations that every method preserves *)

Section Compound.

Variable R : St -> St -> Prop.
Hypothesis R_refl : forall s, R s s.
Hypothesis R_trans : forall s1 s2 s3, R s1 s2 -> R s2 s3 -> R s1 s3.
Hypothesis R_update : preserves R (_update_account_info W).
Hypothesis R_get_weather : forall city, preserves R (get_weather W city).
Hypothesis R_purchase : preserves R (purchase_weather_token W).
Hypothesis R_sleep : forall n, preserves R (sleep n).

Lemma purchase_loop_preserves city max_attempts remaining :
  forall attempt,
    preserves R (purchase_loop W city max_attempts remaining attempt).
Proof.
  induction remaining as [| k IH]; intros attempt; cbn [purchase_loop].
  - apply preserves_ret, R_refl.
  - apply preserves_bind; [exact R_trans | exact R_purchase |].
    intros purchased. apply preserves_bind; [exact R_trans | |].
    + destruct purchased; [| apply preserves_ret, R_refl].
      apply preserves_bind; [exact R_trans | apply R_sleep |]. intros _.
      apply preserves_bind; [exact R_trans | apply R_get_weather |].
      intros weather_data.
      destruct (truthy weather_data); apply preserves_ret, R_refl.
    + intros [weather_data |]; [apply preserves_ret, R_refl |].
      apply preserves_bind; [exact R_trans | | intros _; apply IH].
      destruct (attempt <? max_attempts - 1);
        [apply R_sleep | apply preserves_ret, R_refl].
Qed.

Lemma autonomous_weather_request_preserves city max_attempts :
  preserves R (autonomous_weather_request W city max_attempts).
Proof.
  unfold autonomous_weather_request.
  apply preserves_bind; [exact R_trans | exact R_update |]. intros _.
  apply preserves_bind; [exact R_trans | apply R_get_weather |].
  intros weather_data.
  destruct (truthy weather_data);
    [apply preserves_ret, R_refl | apply purchase_loop_preserves].
Qed.

Lemma run_demo_loop_preserves total cities :
  forall i, preserves R (run_demo_loop W total i cities).
Proof.
  induction cities as [| city rest IH]; intros i; cbn [run_demo_loop].
  - apply preserves_ret, R_refl.
  - apply preserves_bind;
      [exact R_trans | apply autonomous_weather_request_preserves |].
    intros result. apply preserves_bind; [exact R_trans | |].
    + destruct (truthy result); [| apply preserves_ret, R_refl].
      destruct result as [d |]; [| apply preserves_ret, R_refl].
      repeat (apply preserves_bind;
              [exact R_trans | apply preserves_call, R_refl | intros ?]).
      apply preserves_ret, R_refl.
    + intros _. apply preserves_bind; [exact R_trans | | intros _; apply IH].
      destruct (i <? total); [apply R_sleep | apply preserves_ret, R_refl].
Qed.

(** Every method call relates the state before to the state after. *)
Lemma exec_preserves op s : R s (exec W op s).
Proof.
  destruct op; cbn [exec].
  - apply R_refl.
  - apply R_update.
  - apply R_refl.
  - apply R_get_weather.
  - apply R_purchase.
  - apply R_refl.
  - apply autonomous_weather_request_preserves.
  - apply R_refl.
  - unfold run_demo.
    apply preserves_bind;
      [exact R_trans | apply run_demo_loop_preserves
      | intros _; apply preserves_ret, R_refl].
Qed.

End Compound.

(** *** The counters *)

Lemma counters_grow_refl s : counters_grow s s.
Proof. unfold counters_grow. repeat split; auto; lia. Qed.

Lemma counters_grow_trans s1 s2 s3 :
  counters_grow s1 s2 -> counters_grow s2 s3 -> counters_grow s1 s3.
Proof. unfold counters_grow. intuition lia. Qed.

Lemma counters_grow_update : preserves counters_grow (_update_account_info W).
Proof.
  intros s. rewrite _update_account_info_state. unfold counters_grow.
  cbn [snd self].
  destruct (account_info W (io s) (address (self s)));
    cbn; repeat split; auto; lia.
Qed.

Lemma counters_grow_get_weather city :
  preserves counters_grow (get_weather W city).
Proof.
  intros s. rewrite get_weather_state. unfold counters_grow. cbn [self].
  destruct (answered_200 W city s); cbn; repeat split; lia.
Qed.

Lemma counters_grow_purchase :
  preserves counters_grow (purchase_weather_token W).
Proof.
  intros s. unfold counters_grow.
  destruct (purchase_weather_token_cases s)
    as [(_ & Hs & _) | (_ & s1 & Hs1 & _ & Hs)].
  - rewrite Hs. repeat split; auto; lia.
  - rewrite Hs, _update_account_info_state. cbn [snd self].
    destruct (account_info W (io s1) (address (self s1)));
      cbn; rewrite Hs1; cbn; repeat split; auto; lia.
Qed.

Lemma counters_grow_sleep n : preserves counters_grow (sleep n).
Proof. intros s. unfold counters_grow. cbn. repeat split; auto; lia. Qed.

Lemma counters_grow_exec op s : counters_grow s (exec W op s).
Proof.
  apply exec_preserves.
  - exact counters_grow_refl.
  - exact counters_grow_trans.
  - exact counters_grow_update.
  - exact counters_grow_get_weather.
  - exact counters_grow_purchase.
  - exact counters_grow_sleep.
Qed.

(** C9. In every reachable state of an agent [successful_requests] is at
    most [request_count]; no method call makes either counter smaller;
    [get_weather] adds exactly one to [request_count] on every call and adds
    one to [successful_requests] exactly when the broker answers 200 (and
    nothing otherwise). *)
Theorem request_counters_invariant :
  (forall s, reachable W s ->
             successful_requests (self s) <= request_count (self s))
  /\ (forall op s,
        request_count (self s) <= request_count (self (exec W op s))
        /\ successful_requests (self s)
           <= successful_requests (self (exec W op s)))
  /\ (forall city s,
        request_count (self (snd (get_weather W city s)))
        = request_count (self s) + 1)
  /\ (forall city s,
        successful_requests (self (snd (get_weather W city s)))
        = successful_requests (self s)
          + if answered_200 W city s then 1 else 0).
Proof.
  repeat split.
  - induction 1 as [a k asa | op s Hs IH].
    + unfold new_agent. rewrite _update_account_info_state.
      cbn [snd self io address].
      destruct (account_info W 0 a); cbn; lia.
    + apply (counters_grow_exec op s). exact IH.
  - apply (counters_grow_exec op s).
  - apply (counters_grow_exec op s).
  - intros city s. rewrite get_weather_state. cbn [self].
    destruct (answered_200 W city s); reflexivity.
  - intros city s. rewrite get_weather_state. cbn [self].
    destruct (answered_200 W city s); cbn; lia.
Qed.

(** A node that hands out no transaction parameters makes every purchase
    fail. *)
Lemma purchase_fails_without_params :
  (forall k, suggested_params W k = None) ->
  forall s, fst (purchase_weather_token W s) = inr false.
Proof.
  intros Hnone s.
  cbv beta iota zeta delta
    [purchase_weather_token bind emit modify get_self ret try_except
     outside update_self sleep self trace io].
  destruct s as [a t k].
  destruct (Qlt_le_dec (balance_algos a) 1.1); [reflexivity |].
  rewrite Hnone. reflexivity.
Qed.

End Methods.

Local Open Scope string_scope.

(** C4, as stated, fails.  First part: the broker denies with 403 and the node
    rejects every transaction; with [max_attempts = 3] the result is [None]
    after three attempts, but the agent's acquisition counter
    [tokens_purchased] is 0, not 3.  Second part: the node rejects every
    transaction but the broker grants the first request; the result is the
    granted data, not a failure, and no attempt is made. *)
Lemma failed_attempts_are_not_counted :
  (let W := Scenario.denied_node_rejects in
   let s := Scenario.agent W in
   let run := autonomous_weather_request W "London" 3 s in
   (forall s', fst (purchase_weather_token W s') = inr false)
   /\ fst run = inr None
   /\ new_attempts s (snd run) = 3
   /\ tokens_purchased (self (snd run)) = 0
   /\ tokens_purchased (self (snd run)) <> 3)
  /\ (let W := Scenario.granted_node_rejects in
      let s := Scenario.agent W in
      let run := autonomous_weather_request W "London" 3 s in
      (forall s', fst (purchase_weather_token W s') = inr false)
      /\ fst run = inr (Some Scenario.granted_body)
      /\ fst run <> inr None
      /\ new_attempts s (snd run) = 0).
Proof.
  split; cbv zeta.
  - split; [apply purchase_fails_without_params; reflexivity |].
    vm_compute. repeat split; congruence.
  - split; [apply purchase_fails_without_params; reflexivity |].
    vm_compute. repeat split; congruence.
Qed.

(** C4 (amended), at a concrete run: the broker denies and the account holds
    0.5 ALGO, so every attempt stops at the balance guard; three attempts are
    allowed. *)
Lemma retry_bound_and_exhaustion_witness :
  let W := Scenario.denied_and_broke in
  let s := Scenario.agent W in
  let run := autonomous_weather_request W "London" 3 s in
  new_attempts s (snd run) <= 3
  /\ fst run = inr None
  /\ new_attempts s (snd run) = 3
  /\ tokens_purchased (self (snd run)) = tokens_purchased (self s).
Proof.
  cbv zeta.
  destruct (@retry_bound_and_exhaustion Scenario.denied_and_broke "London"
              3 (Scenario.agent Scenario.denied_and_broke))
    as [Hbound Hexhaust]; [lia |].
  split; [exact Hbound |].
  apply Hexhaust.
  - vm_compute. reflexivity.
  - vm_compute. repeat split.
Defined.

(** C5 fails on the code.  The broker answers 502 because its provider is
    down (the wallet holds 6 ALGO, so the credential check passed); the agent
    nevertheless enters the purchase loop, sends three payments and gives
    up. *)
Lemma upstream_failure_triggers_purchases :
  let W := Scenario.upstream_502 in
  let s := Scenario.agent W in
  let run := autonomous_weather_request W "London" 3 s in
  option_map status_code (answer W "London" (snd (_update_account_info W s)))
  = Some 502
  /\ fst run = inr None
  /\ new_attempts s (snd run) = 3
  /\ submissions (trace (snd run)) = 3%nat
  /\ tokens_purchased (self (snd run)) = 3
  /\ request_count (self (snd run)) = 4.
Proof.
  vm_compute. repeat split.
Qed.

(** The 502 above is what the broker answers to a funded wallet when its
    provider is unreachable. *)
Lemma broker_answers_502_when_provider_down :
  fst (Scenario.serve Scenario.provider_down "London" Scenario.wallet)
  = Backend.JSONResponse 502
      (Backend.ContentError "Weather service unavailable").
Proof. reflexivity. Qed.

(** C6, as stated, fails: with 0.5 ALGO the attempt is made and fails, and
    [tokens_purchased] is not incremented. *)
Lemma failed_purchase_is_not_counted :
  let W := Scenario.denied_and_broke in
  let s := Scenario.agent W in
  let run := purchase_weather_token W s in
  fst run = inr false
  /\ new_attempts s (snd run) = 1
  /\ tokens_purchased (self (snd run)) = tokens_purchased (self s)
  /\ tokens_purchased (self (snd run)) <> tokens_purchased (self s) + 1.
Proof.
  vm_compute. repeat split; congruence.
Qed.

(** C7, as stated, fails.  First part: the account holds 0.5 ALGO when
    [purchase_weather_token] is called, but the agent last read it when it
    held 6 ALGO; the guard looks at the booked 6 ALGO and a transaction is
    submitted.  Second part: the account holds exactly 1.1 ALGO, which does
    not exceed the cost plus the margin; the guard lets the purchase through,
    a transaction is submitted and the purchase succeeds. *)
Lemma insufficient_current_balance_still_submits :
  (let W := Example.drained in
   let s := Scenario.agent W in
   let run := purchase_weather_token W s in
   option_map Backend.amount (account_info W (io s) (address (self s)))
   = Some 500000
   /\ (balance_algos (self s) == 6)%Q
   /\ submissions (trace s) = 0%nat
   /\ submissions (trace (snd run)) = 1%nat)
  /\ (let W := Example.at_the_margin in
      let s := Scenario.agent W in
      let run := purchase_weather_token W s in
      option_map Backend.amount (account_info W (io s) (address (self s)))
      = Some 1100000
      /\ (balance_algos (self s) == 1.1)%Q
      /\ ~ (1.1 < balance_algos (self s))%Q
      /\ fst run = inr true
      /\ submissions (trace s) = 0%nat
      /\ submissions (trace (snd run)) = 1%nat).
Proof.
  split; cbv zeta.
  - repeat split.
  - split; [reflexivity |]. split; [reflexivity |].
    split; [intros H; vm_compute in H; discriminate H |].
    vm_compute. repeat split.
Qed.

(** C7 (amended), at a concrete agent: 0.5 ALGO on the account and on the
    books. *)
Lemma insufficient_balance_is_reported_witness :
  let W := Scenario.denied_and_broke in
  let s := Scenario.agent W in
  fst (purchase_weather_token W s) = inr false
  /\ submissions (trace (snd (purchase_weather_token W s)))
     = submissions (trace s).
Proof.
  cbv zeta.
  destruct (proj1 (@insufficient_balance_is_reported Scenario.denied_and_broke
                     (Scenario.agent Scenario.denied_and_broke)))
    as (Hr & Hs & _); [vm_compute; reflexivity |].
  split; [exact Hr | exact Hs].
Defined.

(** C9, at a concrete reachable state: a new agent after one granted
    request. *)
Lemma request_counters_invariant_witness :
  let W := Scenario.granted in
  let s := exec W (OpGetWeather "London") (Scenario.agent W) in
  successful_requests (self s) <= request_count (self s).
Proof.
  cbv zeta.
  apply (proj1 (request_counters_invariant Scenario.granted)).
  apply reachable_exec. apply reachable_new.
Defined.

End AgentFacts.

(* ===================================================================== *)
(** ** The contract: what the methods write *)
(* ===================================================================== *)

Module MarketplaceFacts.

Import Marketplace.
Local Open Scope Z_scope.

(** What a call leaves alone: the three configuration values always,
    [weather_asa_id] unless the call is [set_weather_asa_id], and
    [total_tokens_sold] unless the call is [record_token_sale]. *)
Lemma after_frame c self :
  token_price (after c self) = token_price self
  /\ token_duration (after c self) = token_duration self
  /\ is_active (after c self) = is_active self
  /\ (weather_asa_id (after c self) <> weather_asa_id self ->
      exists asa_id, c = CallSetWeatherAsaId asa_id)
  /\ (total_tokens_sold (after c self) <> total_tokens_sold self ->
      c = CallRecordTokenSale).
Proof.
  unfold after.
  destruct c; cbn [dispatch];
    unfold set_weather_asa_id, record_token_sale;
    try destruct (is_uint64 _); try destruct (uint64_add _ _);
    cbn; repeat split; intros; try (exfalso; congruence); eauto.
Qed.

(** A call keeps the sales counter a [uint64]. *)
Lemma after_total_tokens_sold_range c self :
  0 <= total_tokens_sold self <= uint64_max ->
  0 <= total_tokens_sold (after c self) <= uint64_max.
Proof.
  intros Hs. unfold after.
  destruct c; cbn [dispatch];
    unfold get_token_price, get_weather_asa_id, set_weather_asa_id,
      get_token_duration, record_token_sale, get_total_sales,
      is_contract_active, get_contract_info, uint64_add;
    try destruct (is_uint64 _);
    try destruct (Z.leb_spec (total_tokens_sold self + 1) uint64_max);
    cbn [fst snd total_tokens_sold]; lia.
Qed.

(** In a deployed application the configuration has its initial values and
    the sales counter is a [uint64]. *)
Lemma reachable_configuration self :
  reachable self ->
  token_price self = 10000000
  /\ token_duration self = 3600
  /\ is_active self = true
  /\ 0 <= total_tokens_sold self <= uint64_max.
Proof.
  induction 1 as [| c self Hr IH].
  - cbn. unfold uint64_max. repeat split; lia.
  - destruct IH as (Hp & Hd & Ha & Hs).
    destruct (after_frame c self) as (Fp & Fd & Fa & _ & _).
    rewrite Fp, Fd, Fa.
    repeat split; try assumption;
      apply (after_total_tokens_sold_range c self Hs).
Qed.

(** C10. In every state of the deployed contract [token_price] is 10,000,000,
    [token_duration] is 3600 and [is_active] is true, and every method leaves
    them so; a call that changes [weather_asa_id] is [set_weather_asa_id] and
    a call that changes [total_tokens_sold] is [record_token_sale];
    [record_token_sale] adds exactly 1 to [total_tokens_sold] and returns the
    new count (it succeeds as long as the sum is a [uint64]). *)
Theorem marketplace_frame self :
  reachable self ->
  (token_price self = 10000000
   /\ token_duration self = 3600
   /\ is_active self = true)
  /\ (forall c,
        token_price (after c self) = token_price self
        /\ token_duration (after c self) = token_duration self
        /\ is_active (after c self) = is_active self
        /\ (weather_asa_id (after c self) <> weather_asa_id self ->
            exists asa_id, c = CallSetWeatherAsaId asa_id)
        /\ (total_tokens_sold (after c self) <> total_tokens_sold self ->
            c = CallRecordTokenSale))
  /\ (total_tokens_sold self < uint64_max ->
      record_token_sale self
      = Some ({| token_price := token_price self;
                 weather_asa_id := weather_asa_id self;
                 token_duration := token_duration self;
                 total_tokens_sold := total_tokens_sold self + 1;
                 is_active := is_active self |},
              VUInt64 (total_tokens_sold self + 1)))
  /\ (forall self' v,
        record_token_sale self = Some (self', v) ->
        total_tokens_sold self' = total_tokens_sold self + 1
        /\ v = VUInt64 (total_tokens_sold self + 1)).
Proof.
  intros Hr.
  destruct (reachable_configuration Hr) as (Hp & Hd & Ha & Hs).
  split; [auto |]. split; [intros c; apply after_frame |]. split.
  - intros Hlt. unfold record_token_sale, uint64_add.
    destruct (Z.leb_spec (total_tokens_sold self + 1) uint64_max);
      [reflexivity | lia].
  - intros self' v. unfold record_token_sale, uint64_add.
    destruct (total_tokens_sold self + 1 <=? uint64_max); [| discriminate].
    intros H. inversion H. cbn. split; reflexivity.
Qed.

(** C10, at a concrete state: after the asset id is set and one sale is
    recorded. *)
Lemma marketplace_frame_witness :
  let self := after CallRecordTokenSale
                (after (CallSetWeatherAsaId 1234) __init__) in
  (token_price self = 10000000
   /\ token_duration self = 3600
   /\ is_active self = true)
  /\ weather_asa_id self = 1234
  /\ total_tokens_sold self = 1
  /\ option_map snd (record_token_sale self) = Some (VUInt64 2).
Proof.
  cbv zeta.
  destruct (@marketplace_frame
              (after CallRecordTokenSale
                 (after (CallSetWeatherAsaId 1234) __init__)))
    as (Hconf & _ & Hsale & _).
  - apply reachable_call. apply reachable_call. apply reachable_init.
  - split; [exact Hconf |].
    rewrite Hsale; [| vm_compute; reflexivity].
    repeat split.
Defined.

End MarketplaceFacts.

(* ===================================================================== *)
(** ** The broker: every outcome of the weather route *)
(* ===================================================================== *)

Module RouteFacts.

Import Eff Backend Tokens.
Local Open Scope string_scope.

Lemma replace_microsecond_0_spec (dt : datetime) :
  (replace_microsecond_0 dt <= dt
   /\ dt - 1000000 < replace_microsecond_0 dt
   /\ replace_microsecond_0 dt mod 1000000 = 0)%Z.
Proof.
  unfold replace_microsecond_0.
  pose proof (Z.mod_pos_bound dt 1000000 ltac:(lia)) as Hb.
  repeat split; try lia.
  rewrite Zminus_mod, Z.mod_mod, Z.sub_diag by lia. reflexivity.
Qed.

Section Broker.

Variable address_bytes : Type.
Variable decode_address : string -> option address_bytes.
Variable encode_address : address_bytes -> option string.
Variables WEATHER_ASA_ID MARKETPLACE_APP_ID : Z.
Variable W : World.

(** A wallet that does not pass the check is answered 403 after one ledger
    query. *)
Lemma handle_not_admitted city wallet s :
  validate_wallet_address decode_address encode_address wallet = true ->
  fst (check_token_ownership W wallet s) = inr false ->
  exists content,
    handle decode_address encode_address WEATHER_ASA_ID MARKETPLACE_APP_ID
      W city wallet s
    = (JSONResponse 403 content, asked wallet s).
Proof.
  intros Hv Hc. unfold handle, get_weather. rewrite Hv. cbn [negb].
  unfold bind at 1.
  destruct (account_info W wallet) as [info |] eqn:Hl.
  - rewrite (BackendFacts.check_token_ownership_answer _ _ s Hl) in *.
    cbn [fst] in Hc. injection Hc as Hc. rewrite Hc. cbn. eauto.
  - rewrite (BackendFacts.check_token_ownership_no_answer _ _ s Hl).
    cbn. eauto.
Qed.

(** A wallet that passes the check is answered from the provider: its data,
    its [HTTPException] as it is, or 500 for anything else. *)
Lemma handle_admitted city wallet info s :
  validate_wallet_address decode_address encode_address wallet = true ->
  account_info W wallet = Some info ->
  Qle_bool 5.0 (balance_algos info) = true ->
  handle decode_address encode_address WEATHER_ASA_ID MARKETPLACE_APP_ID
    W city wallet s
  = match provider W city with
    | UpstreamData raw =>
        match format_weather_data raw city (fetched city wallet s) with
        | (inr weather_data, _) =>
            (Response200
               {| wr_success := true;
                  wr_data := weather_data;
                  wr_token_info :=
                    {| token_id := WEATHER_ASA_ID;
                       remaining_time_seconds := 3600;
                       expires_at :=
                         replace_microsecond_0 (utcnow W (clock_reads s)) |};
                  wr_timestamp := utcnow W (S (clock_reads s)) |},
             {| calls := EvProvider city :: EvAccountInfo wallet :: calls s;
                clock_reads := S (S (clock_reads s)) |})
        | (inl _, _) =>
            (JSONResponse 500 (ContentError "Internal server error"),
             fetched city wallet s)
        end
    | UpstreamHTTPException status text =>
        (JSONResponse status (ContentError text), fetched city wallet s)
    | UpstreamException =>
        (JSONResponse 500 (ContentError "Internal server error"),
         fetched city wallet s)
    end.
Proof.
  intros Hv Hl Hb. unfold handle, get_weather. rewrite Hv. cbn [negb].
  unfold bind at 1.
  rewrite (BackendFacts.check_token_ownership_answer _ _ s Hl), Hb.
  cbn [negb].
  cbv beta iota zeta delta
    [try_except bind get_weather_data record_call modify ret raise
     datetime_utcnow fetched].
  cbn [calls clock_reads].
  destruct (provider W city) as [raw | status text |]; try reflexivity.
  unfold format_weather_data, bind, call, ret, raise.
  destruct (hd_error _); reflexivity.
Qed.

(** [format_weather_data] fails exactly on an empty ["weather"] list. *)
Lemma format_weather_data_fails raw city s :
  (exists e, fst (format_weather_data raw city s) = inl e)
  <-> raw_weather raw = Some [].
Proof.
  unfold format_weather_data, bind, call, ret, raise, dict_get.
  destruct (raw_weather raw) as [[| w l] |]; cbn; split;
    try (intros [e He]; discriminate He); try discriminate; eauto.
Qed.

(** X1. The weather route grants access only to a well-formed wallet whose
    ledger balance was read and is at least 5.0 ALGO; a granted response
    names the configured asset id and 3600 seconds of validity. *)
Theorem granted_only_above_threshold city wallet s body :
  fst (handle decode_address encode_address WEATHER_ASA_ID MARKETPLACE_APP_ID
         W city wallet s)
  = Response200 body ->
  validate_wallet_address decode_address encode_address wallet = true
  /\ (exists info,
        account_info W wallet = Some info
        /\ (5.0 <= balance_algos info)%Q)
  /\ wr_success body = true
  /\ token_id (wr_token_info body) = WEATHER_ASA_ID
  /\ remaining_time_seconds (wr_token_info body) = 3600%Z.
Proof.
  intros Hg.
  destruct (validate_wallet_address decode_address encode_address wallet)
    eqn:Hv.
  2: { unfold handle, get_weather in Hg. rewrite Hv in Hg.
       discriminate Hg. }
  split; [reflexivity |].
  destruct (account_info W wallet) as [info |] eqn:Hl.
  2: { destruct (handle_not_admitted city wallet s Hv) as [c Hc].
       - rewrite (BackendFacts.check_token_ownership_no_answer _ _ s Hl).
         reflexivity.
       - rewrite Hc in Hg. discriminate Hg. }
  destruct (Qle_bool 5.0 (balance_algos info)) eqn:Hb.
  2: { destruct (handle_not_admitted city wallet s Hv) as [c Hc].
       - rewrite (BackendFacts.check_token_ownership_answer _ _ s Hl), Hb.
         reflexivity.
       - rewrite Hc in Hg. discriminate Hg. }
  split; [exists info; split; [reflexivity | apply Qle_bool_iff, Hb] |].
  rewrite (handle_admitted city wallet s Hv Hl Hb) in Hg.
  destruct (provider W city) as [raw | status text |];
    try discriminate Hg.
  destruct (format_weather_data raw city _) as [[e | wd] s1];
    [discriminate Hg |].
  cbn [fst] in Hg. injection Hg as Hg. subst body. repeat split.
Qed.

(** X2. In one request the weather route calls [algod_client.account_info]
    at most once and [get_weather_data] at most once; [get_weather_data] is
    called only after the ledger was asked, and only for a wallet whose
    balance is at least 5.0 ALGO.  (A call of [get_weather_data] may itself
    send more than one request to the provider.) *)
Theorem provider_only_for_admitted_wallets city wallet s :
  let s' := snd (handle decode_address encode_address WEATHER_ASA_ID
                   MARKETPLACE_APP_ID W city wallet s) in
  calls s' = calls s
  \/ calls s' = EvAccountInfo wallet :: calls s
  \/ (calls s' = EvProvider city :: EvAccountInfo wallet :: calls s
      /\ exists info,
           account_info W wallet = Some info
           /\ (5.0 <= balance_algos info)%Q).
Proof.
  cbv zeta.
  destruct (validate_wallet_address decode_address encode_address wallet)
    eqn:Hv.
  2: { left. unfold handle, get_weather. rewrite Hv. reflexivity. }
  destruct (account_info W wallet) as [info |] eqn:Hl.
  2: { right. left.
       destruct (handle_not_admitted city wallet s Hv) as [c Hc].
       - rewrite (BackendFacts.check_token_ownership_no_answer _ _ s Hl).
         reflexivity.
       - rewrite Hc. reflexivity. }
  destruct (Qle_bool 5.0 (balance_algos info)) eqn:Hb.
  2: { right. left.
       destruct (handle_not_admitted city wallet s Hv) as [c Hc].
       - rewrite (BackendFacts.check_token_ownership_answer _ _ s Hl), Hb.
         reflexivity.
       - rewrite Hc. reflexivity. }
  right. right.
  split; [| exists info; split; [reflexivity | apply Qle_bool_iff, Hb] ].
  rewrite (handle_admitted city wallet s Hv Hl Hb).
  destruct (provider W city) as [raw | status text |]; try reflexivity.
  destruct (format_weather_data raw city _) as [[e | wd] s1]; reflexivity.
Qed.

(** X3. For an admitted wallet, an [HTTPException] of the provider (404 city
    not found, 500 key not configured, 502 provider unavailable) is answered
    with the provider's status and its text under ["error"]; any other
    failure of the provider, and a provider dictionary whose ["weather"] list
    is empty, is answered 500 "Internal server error". *)
Theorem provider_failures_are_reported city wallet info s :
  validate_wallet_address decode_address encode_address wallet = true ->
  account_info W wallet = Some info ->
  (5.0 <= balance_algos info)%Q ->
  (forall status text,
     provider W city = UpstreamHTTPException status text ->
     fst (handle decode_address encode_address WEATHER_ASA_ID
            MARKETPLACE_APP_ID W city wallet s)
     = JSONResponse status (ContentError text))
  /\ (provider W city = UpstreamException
      \/ (exists raw, provider W city = UpstreamData raw
                      /\ raw_weather raw = Some []) ->
      fst (handle decode_address encode_address WEATHER_ASA_ID
             MARKETPLACE_APP_ID W city wallet s)
      = JSONResponse 500 (ContentError "Internal server error")).
Proof.
  intros Hv Hl Hb. apply Qle_bool_iff in Hb.
  rewrite (handle_admitted city wallet s Hv Hl Hb). split.
  - intros status text Hp. rewrite Hp. reflexivity.
  - intros [Hp | (raw & Hp & Hw)]; rewrite Hp; [reflexivity |].
    destruct (proj2 (format_weather_data_fails raw city
                       (fetched city wallet s)) Hw) as [e He].
    destruct (format_weather_data raw city _) as [[e' | wd] s1];
      [reflexivity | discriminate He].
Qed.

(** X4. In a granted response [expires_at] is the time of the request cut to
    the whole second: it is never later than the clock reading it was taken
    from, although [remaining_time_seconds] says 3600; [timestamp] is the
    next clock reading, and the city is the provider's ["name"] when it gives
    one and the requested city otherwise. *)
Theorem granted_response_times city wallet s body :
  fst (handle decode_address encode_address WEATHER_ASA_ID MARKETPLACE_APP_ID
         W city wallet s)
  = Response200 body ->
  expires_at (wr_token_info body)
  = replace_microsecond_0 (utcnow W (clock_reads s))
  /\ (expires_at (wr_token_info body) <= utcnow W (clock_reads s))%Z
  /\ (expires_at (wr_token_info body) mod 1000000 = 0)%Z
  /\ wr_timestamp body = utcnow W (S (clock_reads s))
  /\ exists raw,
       provider W city = UpstreamData raw
       /\ wd_city (wr_data body) = dict_get (raw_name raw) city.
Proof.
  intros Hg.
  destruct (validate_wallet_address decode_address encode_address wallet)
    eqn:Hv.
  2: { unfold handle, get_weather in Hg. rewrite Hv in Hg.
       discriminate Hg. }
  destruct (account_info W wallet) as [info |] eqn:Hl.
  2: { destruct (handle_not_admitted city wallet s Hv) as [c Hc].
       - rewrite (BackendFacts.check_token_ownership_no_answer _ _ s Hl).
         reflexivity.
       - rewrite Hc in Hg. discriminate Hg. }
  destruct (Qle_bool 5.0 (balance_algos info)) eqn:Hb.
  2: { destruct (handle_not_admitted city wallet s Hv) as [c Hc].
       - rewrite (BackendFacts.check_token_ownership_answer _ _ s Hl), Hb.
         reflexivity.
       - rewrite Hc in Hg. discriminate Hg. }
  rewrite (handle_admitted city wallet s Hv Hl Hb) in Hg.
  destruct (provider W city) as [raw | status text |];
    try discriminate Hg.
  unfold format_weather_data, bind, call, ret, raise in Hg.
  destruct (hd_error _) as [weather |]; [| discriminate Hg].
  cbn [fst] in Hg. injection Hg as Hg. subst body.
  cbn [wr_token_info expires_at wr_timestamp wr_data wd_city].
  destruct (replace_microsecond_0_spec (utcnow W (clock_reads s)))
    as (H1 & _ & H3).
  repeat split; try assumption. exists raw. split; reflexivity.
Qed.

End Broker.

End RouteFacts.

(* ===================================================================== *)
(** ** The broker: the token listing *)
(* ===================================================================== *)

Module TokensFacts.

Import Eff Backend Tokens.
Local Open Scope string_scope.

Section Route.

Variable address_bytes : Type.
Variable decode_address : string -> option address_bytes.
Variable encode_address : address_bytes -> option string.
Variable WEATHER_ASA_ID : Z.
Variable W : World.

(** The loop appends one token per weather token of the account, in order,
    reads the clock once for each, and counts them. *)
Lemma list_tokens_spec assets :
  forall tokens valid_tokens s,
  exists new,
    list_tokens WEATHER_ASA_ID W assets tokens valid_tokens s
    = (inr ((tokens ++ new)%list,
            (valid_tokens + Z.of_nat (List.length new))%Z),
       {| calls := calls s;
          clock_reads := clock_reads s + List.length new |})
    /\ map td_balance new
       = map asset_amount (filter (is_weather_token WEATHER_ASA_ID) assets)
    /\ map td_asset_id new
       = map asset_id (filter (is_weather_token WEATHER_ASA_ID) assets)
    /\ Forall (fun t => td_status t = "valid") new.
Proof.
  induction assets as [| asset rest IH]; intros tokens valid_tokens s.
  - exists []. cbn. rewrite app_nil_r, Z.add_0_r, Nat.add_0_r.
    destruct s. repeat split; constructor.
  - cbn [list_tokens filter].
    destruct (is_weather_token WEATHER_ASA_ID asset).
    + unfold bind at 1. cbn [datetime_utcnow].
      match goal with
      | |- context [list_tokens _ _ rest ?t ?v ?s1] =>
          destruct (IH t v s1) as (new & Hrun & Hb & Hi & Hs)
      end.
      match type of Hrun with
      | list_tokens _ _ _ (_ ++ [?t]) _ _ = _ => exists (t :: new)
      end.
      rewrite Hrun. cbn [calls clock_reads].
      rewrite <- app_assoc. cbn [app List.length map].
      rewrite Nat2Z.inj_succ, Hb, Hi.
      split; [| split; [reflexivity | split; [reflexivity |] ] ].
      * f_equal; [do 2 f_equal; lia | f_equal; lia].
      * constructor; [reflexivity | exact Hs].
    + apply IH.
Qed.

(** What the listing answers when the node knows the account. *)
Lemma handle_tokens_listing wallet info s :
  validate_wallet_address decode_address encode_address wallet = true ->
  account_info W wallet = Some info ->
  exists tokens,
    handle_tokens decode_address encode_address WEATHER_ASA_ID W wallet s
    = (Reply200
         {| tr_success := true;
            tr_wallet_address := wallet;
            tr_tokens := tokens;
            tr_summary :=
              {| total_tokens := Z.of_nat (List.length tokens);
                 valid_tokens := Z.of_nat (List.length tokens);
                 expired_tokens := 0 |} |},
       {| calls := EvAccountInfo wallet :: calls s;
          clock_reads := clock_reads s + List.length tokens |})
    /\ map td_balance tokens
       = map asset_amount (weather_tokens WEATHER_ASA_ID info)
    /\ map td_asset_id tokens
       = map asset_id (weather_tokens WEATHER_ASA_ID info)
    /\ Forall (fun t => td_status t = "valid") tokens.
Proof.
  intros Hv Hl.
  unfold handle_tokens, get_wallet_tokens. rewrite Hv. cbn [negb].
  cbv beta iota zeta delta
    [try_except bind algod_account_info record_call modify call ret raise].
  rewrite Hl.
  match goal with
  | |- context [list_tokens _ _ ?a ?t ?v ?s1] =>
      destruct (list_tokens_spec a t v s1) as (new & Hrun & Hb & Hi & Hs)
  end.
  exists new. rewrite Hrun. cbn [fst snd app calls clock_reads Z.add].
  repeat split; assumption.
Qed.

(** X5. The token listing answers a malformed wallet with 400 INVALID_WALLET
    without asking the ledger, and a ledger that does not answer with 500
    "Error retrieving token information" (where the weather route answers
    403). *)
Theorem token_listing_errors wallet s :
  (validate_wallet_address decode_address encode_address wallet = false ->
   handle_tokens decode_address encode_address WEATHER_ASA_ID W wallet s
   = (ReplyJSON 400
        (ContentDict false
           {| code := "INVALID_WALLET";
              message := "Invalid wallet address format";
              details := None |}),
      s))
  /\ (validate_wallet_address decode_address encode_address wallet = true ->
      account_info W wallet = None ->
      handle_tokens decode_address encode_address WEATHER_ASA_ID W wallet s
      = (ReplyJSON 500 (ContentError "Error retrieving token information"),
         {| calls := EvAccountInfo wallet :: calls s;
            clock_reads := clock_reads s |})).
Proof.
  split.
  - intros Hv. unfold handle_tokens, get_wallet_tokens. rewrite Hv.
    reflexivity.
  - intros Hv Hl. unfold handle_tokens, get_wallet_tokens. rewrite Hv.
    cbv beta iota zeta delta
      [negb try_except bind algod_account_info record_call modify call ret
       raise].
    rewrite Hl. reflexivity.
Qed.

(** X6. When the node knows the account, the listing has one entry per asset
    of the account whose id is the configured asset id and whose amount is
    positive, in the account's order and with that amount as balance; the
    summary counts them all as valid ([total_tokens = valid_tokens]) and none
    as expired, whatever the clock says. *)
Theorem token_listing_counts wallet info s :
  validate_wallet_address decode_address encode_address wallet = true ->
  account_info W wallet = Some info ->
  exists body,
    fst (handle_tokens decode_address encode_address WEATHER_ASA_ID W
           wallet s)
    = Reply200 body
    /\ tr_wallet_address body = wallet
    /\ map td_balance (tr_tokens body)
       = map asset_amount (weather_tokens WEATHER_ASA_ID info)
    /\ Forall (fun t => (0 < td_balance t)%Z
                        /\ td_asset_id t = WEATHER_ASA_ID
                        /\ td_status t = "valid")
              (tr_tokens body)
    /\ total_tokens (tr_summary body)
       = Z.of_nat (List.length (weather_tokens WEATHER_ASA_ID info))
    /\ valid_tokens (tr_summary body) = total_tokens (tr_summary body)
    /\ expired_tokens (tr_summary body) = 0%Z.
Proof.
  intros Hv Hl.
  destruct (handle_tokens_listing wallet s Hv Hl)
    as (tokens & Hrun & Hb & Hi & Hs).
  eexists. rewrite Hrun. cbn [fst tr_wallet_address tr_tokens tr_summary
                              total_tokens valid_tokens expired_tokens].
  split; [reflexivity |]. split; [reflexivity |]. split; [exact Hb |].
  split.
  - assert (Hin : forall a, In a (weather_tokens WEATHER_ASA_ID info) ->
                            (0 < asset_amount a)%Z
                            /\ asset_id a = WEATHER_ASA_ID).
    { intros a Ha. apply filter_In in Ha. destruct Ha as [_ Ha].
      apply andb_true_iff in Ha. destruct Ha as [H1 H2].
      apply Z.eqb_eq in H1. apply Z.gtb_lt in H2. auto. }
    clear Hrun. revert Hb Hi Hs Hin.
    generalize (weather_tokens WEATHER_ASA_ID info) as l.
    induction tokens as [| t ts IH]; intros l Hb Hi Hs Hin;
      [constructor |].
    destruct l as [| a l]; [discriminate Hb |].
    cbn [map] in Hb, Hi. injection Hb as Hb1 Hb2. injection Hi as Hi1 Hi2.
    inversion Hs as [| ? ? Hs1 Hs2]; subst.
    destruct (Hin a (or_introl eq_refl)) as [Ha1 Ha2].
    constructor.
    + rewrite Hb1, Hi1. auto.
    + apply (IH l); auto. intros a' Ha'. apply Hin. right. exact Ha'.
  - repeat split.
    rewrite <- (length_map td_balance), Hb, length_map. reflexivity.
Qed.

(** X7. The two routes read different things.  A wallet that holds a weather
    token but less than 5.0 ALGO is listed with at least one valid token and
    is still refused the weather with 403 INVALID_TOKEN. *)
Theorem token_holder_below_threshold_is_refused
        MARKETPLACE_APP_ID city wallet info s s' :
  validate_wallet_address decode_address encode_address wallet = true ->
  account_info W wallet = Some info ->
  weather_tokens WEATHER_ASA_ID info <> [] ->
  (balance_algos info < 5.0)%Q ->
  (exists body,
     fst (handle_tokens decode_address encode_address WEATHER_ASA_ID W
            wallet s)
     = Reply200 body
     /\ (1 <= valid_tokens (tr_summary body))%Z)
  /\ exists err,
       fst (handle decode_address encode_address WEATHER_ASA_ID
              MARKETPLACE_APP_ID W city wallet s')
       = JSONResponse 403 (ContentDict false err)
       /\ code err = "INVALID_TOKEN".
Proof.
  intros Hv Hl Hne Hlt. split.
  - destruct (handle_tokens_listing wallet s Hv Hl)
      as (tokens & Hrun & Hb & _).
    eexists. rewrite Hrun. split; [reflexivity |].
    cbn [tr_summary valid_tokens].
    assert (Hlen : List.length tokens
                   = List.length (weather_tokens WEATHER_ASA_ID info))
      by (rewrite <- (length_map td_balance), Hb, length_map; reflexivity).
    destruct (weather_tokens WEATHER_ASA_ID info); [congruence |].
    cbn [List.length] in Hlen. lia.
  - unfold handle, get_weather. rewrite Hv. cbn [negb]. unfold bind at 1.
    rewrite (BackendFacts.check_token_ownership_answer _ _ s' Hl).
    destruct (Qle_bool 5.0 (balance_algos info)) eqn:Hb.
    + apply Qle_bool_iff in Hb. exfalso. exact (Qlt_not_le _ _ Hlt Hb).
    + cbn. eexists. split; reflexivity.
Qed.

End Route.

End TokensFacts.

(* ===================================================================== *)
(** ** The broker: providers and health *)
(* ===================================================================== *)

Module ProvidersFacts.

Import Eff Providers.
Import Agent (json, JNull, JBool, JNumber, JString, JArray, JObject,
              subscript, dict_get, truth).
Local Open Scope string_scope.

Lemma listed_or_unknown code :
  In code listed_codes \/ _weather_code_to_description code = "unknown".
Proof.
  destruct code as [| p | p]; [left; cbn; tauto | | right; reflexivity].
  do 7 (try destruct p as [p | p |]);
    first [right; reflexivity | left; cbn; tauto].
Qed.

(** X8. [_weather_code_to_description] answers "unknown" exactly for the
    codes its table does not list, and gives different descriptions to
    different listed codes. *)
Theorem weather_code_table :
  (forall code,
     _weather_code_to_description code = "unknown"
     <-> ~ In code listed_codes)
  /\ (forall c1 c2,
        In c1 listed_codes -> In c2 listed_codes ->
        _weather_code_to_description c1 = _weather_code_to_description c2 ->
        c1 = c2).
Proof.
  split.
  - intros code. split.
    + intros Hu Hin. cbn in Hin.
      repeat (destruct Hin as [Hin | Hin]; [subst code; discriminate Hu |]).
      exact Hin.
    + intros Hn. destruct (listed_or_unknown code); tauto.
  - intros c1 c2 H1 H2. cbn in H1, H2.
    repeat (destruct H1 as [H1 | H1]; [subst c1 |]); [.. | contradiction];
      repeat (destruct H2 as [H2 | H2]; [subst c2 |]);
      try contradiction; intros H; try reflexivity; discriminate H.
Qed.

Section Functions.

Variable str_lower : json -> option json.
Variable truediv_3_6 : json -> option json.
Variable mul_1000 : json -> option json.
Variable C : Config.
Variable respond : Request -> Fetched.

(** A guarded computation never ends in [RequestException]. *)
Lemma unavailable_on_request_exception_never A (m : P A) sent :
  fst (unavailable_on_request_exception m sent) <> inl RequestException.
Proof.
  unfold unavailable_on_request_exception, try_except.
  destruct (m sent) as [[[st d | |] | a] sent']; cbn; discriminate.
Qed.

(** A computation that starts with a request that fails with a
    [RequestException] ends in 502 after that one request. *)
Lemma request_exception_is_502 A (r : Request) (k : json -> P A) sent :
  respond r = FetchedRequestException ->
  unavailable_on_request_exception (bind (fetch respond r) k) sent
  = (inl (HTTPException 502 "Weather service unavailable"), r :: sent).
Proof.
  intros H. unfold unavailable_on_request_exception, try_except, bind, fetch.
  rewrite H. reflexivity.
Qed.

(** X9. [get_weather_from_open_meteo] raises 404 "City '<city>' not found"
    when the geocoding answer has no results (the key is absent, or its value
    is empty, null or otherwise false), and then sends no forecast
    request. *)
Theorem open_meteo_city_not_found city geocode_data results sent :
  respond (GeocodeRequest city) = FetchedJson geocode_data ->
  dict_get geocode_data "results" JNull = Some results ->
  truth results = false ->
  get_weather_from_open_meteo respond city sent
  = (inl (HTTPException 404 ("City '" ++ city ++ "' not found")),
     GeocodeRequest city :: sent).
Proof.
  intros Hr Hd Ht.
  unfold get_weather_from_open_meteo, unavailable_on_request_exception,
    try_except, bind at 1, fetch.
  rewrite Hr. unfold bind at 1. rewrite Hd. cbn [call ret].
  rewrite Ht. reflexivity.
Qed.

(** X10. [get_weather_data] never lets a [RequestException] out.  When the
    configured provider needs no key or has one and its first request fails
    with a [RequestException], whatever the other requests would answer,
    [get_weather_data] raises 502 "Weather service unavailable" after that
    one request.  When the geocoding request of Open-Meteo is answered with a
    first result that has coordinates and the forecast request then fails
    with a [RequestException], [get_weather_from_open_meteo] raises the same
    502 after these two requests. *)
Theorem request_failures_become_502 city sent algod indexer now :
  fst (get_weather_data str_lower truediv_3_6 mul_1000 C respond city sent)
  <> inl RequestException
  /\ (weather_api_status (health_check C algod indexer now) = "available" ->
      respond (first_request C city) = FetchedRequestException ->
      get_weather_data str_lower truediv_3_6 mul_1000 C respond city sent
      = (inl (HTTPException 502 "Weather service unavailable"),
         first_request C city :: sent))
  /\ (forall geocode_data results location lat lon,
        respond (GeocodeRequest city) = FetchedJson geocode_data ->
        dict_get geocode_data "results" JNull = Some results ->
        truth results = true ->
        subscript_0 results = Some location ->
        subscript location "latitude" = Some lat ->
        subscript location "longitude" = Some lon ->
        respond (ForecastRequest lat lon) = FetchedRequestException ->
        get_weather_from_open_meteo respond city sent
        = (inl (HTTPException 502 "Weather service unavailable"),
           ForecastRequest lat lon :: GeocodeRequest city :: sent)).
Proof.
  split; [| split].
  - unfold get_weather_data, get_weather_from_openweather,
      get_weather_from_weatherapi, get_weather_from_open_meteo.
    destruct (WEATHER_API_PROVIDER C =? "open-meteo");
      [apply unavailable_on_request_exception_never |].
    destruct (WEATHER_API_PROVIDER C =? "openweather").
    { destruct (OPENWEATHER_API_KEY C =? "");
        [discriminate | apply unavailable_on_request_exception_never]. }
    destruct (WEATHER_API_PROVIDER C =? "weatherapi").
    { destruct (WEATHERAPI_KEY C =? "");
        [discriminate | apply unavailable_on_request_exception_never]. }
    apply unavailable_on_request_exception_never.
  - unfold health_check. cbn [weather_api_status].
    unfold get_weather_data, get_weather_from_openweather,
      get_weather_from_weatherapi, get_weather_from_open_meteo, first_request.
    destruct (WEATHER_API_PROVIDER C =? "open-meteo");
      [intros _ Hfail; apply request_exception_is_502, Hfail |].
    destruct (WEATHER_API_PROVIDER C =? "openweather"); cbn [andb].
    { destruct (OPENWEATHER_API_KEY C =? ""); [discriminate |].
      intros _ Hfail.
      unfold unavailable_on_request_exception, try_except, fetch.
      rewrite Hfail. reflexivity. }
    destruct (WEATHER_API_PROVIDER C =? "weatherapi"); cbn [andb].
    { destruct (WEATHERAPI_KEY C =? ""); [discriminate |].
      intros _ Hfail. apply request_exception_is_502, Hfail. }
    intros _ Hfail. apply request_exception_is_502, Hfail.
  - intros geocode_data results location lat lon Hg Hr Ht Hl Hlat Hlon Hf.
    cbv beta iota zeta delta
      [get_weather_from_open_meteo unavailable_on_request_exception
       try_except bind fetch call ret raise].
    rewrite Hg, Hr, Ht. cbv beta iota delta [negb].
    rewrite Hl, Hlat, Hlon, Hf. reflexivity.
Qed.

(** *** Requests sent *)

Lemma grows_refl sent : grows sent sent.
Proof. unfold grows. lia. Qed.

Lemma grows_trans s1 s2 s3 : grows s1 s2 -> grows s2 s3 -> grows s1 s3.
Proof. unfold grows. lia. Qed.

Lemma grows_fetch r : preserves grows (fetch respond r).
Proof.
  intros sent. unfold fetch, grows.
  destruct (respond r); cbn; lia.
Qed.

(** Walks a provider function: every step keeps or extends the list of
    requests. *)
Ltac walk :=
  repeat first
    [ apply EffFacts.preserves_ret, grows_refl
    | apply EffFacts.preserves_raise, grows_refl
    | apply EffFacts.preserves_call, grows_refl
    | apply grows_fetch
    | apply EffFacts.preserves_bind;
      [exact grows_trans | | intros ?]
    | match goal with
      | |- preserves _ (if ?b then _ else _) => destruct b
      end ].

(** A guarded computation that starts with a request sends at least that
    one. *)
Lemma guarded_fetch_sends A (r : Request) (k : json -> P A) sent :
  (forall j, preserves grows (k j)) ->
  snd (unavailable_on_request_exception (bind (fetch respond r) k) sent)
  <> sent.
Proof.
  intros Hk.
  assert (Hlen : (List.length sent
                  < List.length
                      (snd (unavailable_on_request_exception
                              (bind (fetch respond r) k) sent)))%nat).
  { unfold unavailable_on_request_exception, try_except, bind, fetch.
    destruct (respond r) as [body | |]; cbn; try lia.
    specialize (Hk body (r :: sent)). unfold grows in Hk.
    destruct (k body (r :: sent)) as [[[st d | |] | a] sent'];
      cbn in *; lia. }
  intros Heq. rewrite Heq in Hlen. lia.
Qed.

(** X11. [get_weather_data] sends no request exactly when the health route
    reports the weather API as "not_configured" (the provider is openweather
    or weatherapi and its key is empty); it then raises a 500
    [HTTPException]. *)
Theorem no_request_iff_not_configured city sent algod indexer now :
  (snd (get_weather_data str_lower truediv_3_6 mul_1000 C respond city sent)
   = sent
   <-> weather_api_status (health_check C algod indexer now)
       = "not_configured")
  /\ (weather_api_status (health_check C algod indexer now)
      = "not_configured" ->
      exists text,
        fst (get_weather_data str_lower truediv_3_6 mul_1000 C respond city
               sent)
        = inl (HTTPException 500 text)).
Proof.
  unfold health_check. cbn [weather_api_status].
  unfold get_weather_data, get_weather_from_openweather,
    get_weather_from_weatherapi, get_weather_from_open_meteo.
  assert (Hom : forall A (r : Request) (k : json -> P A),
             (forall j, preserves grows (k j)) ->
             (snd (unavailable_on_request_exception
                     (bind (fetch respond r) k) sent) = sent
              <-> "available" = "not_configured")).
  { intros A r k Hk. split; [| discriminate].
    intros H. exfalso. exact (@guarded_fetch_sends A r k sent Hk H). }
  destruct (WEATHER_API_PROVIDER C =? "open-meteo") eqn:Hp1.
  { assert (Hne1 : (WEATHER_API_PROVIDER C =? "openweather") = false).
    { apply String.eqb_eq in Hp1. rewrite Hp1. reflexivity. }
    assert (Hne2 : (WEATHER_API_PROVIDER C =? "weatherapi") = false).
    { apply String.eqb_eq in Hp1. rewrite Hp1. reflexivity. }
    rewrite Hne1, Hne2. cbn [andb].
    split; [apply Hom; intros j; walk | discriminate]. }
  destruct (WEATHER_API_PROVIDER C =? "openweather") eqn:Hp2; cbn [andb].
  { destruct (OPENWEATHER_API_KEY C =? "").
    - split; [split; reflexivity | intros _; eexists; reflexivity].
    - assert (Hne2 : (WEATHER_API_PROVIDER C =? "weatherapi") = false).
      { apply String.eqb_eq in Hp2. rewrite Hp2. reflexivity. }
      rewrite Hne2. cbn [andb]. split; [| discriminate].
      split; [| discriminate]. intros H. exfalso. revert H.
      unfold unavailable_on_request_exception, try_except, fetch.
      destruct (respond _); cbn; intros H;
        apply (f_equal (@List.length _)) in H; cbn in H; lia. }
  destruct (WEATHER_API_PROVIDER C =? "weatherapi") eqn:Hp3; cbn [andb].
  { destruct (WEATHERAPI_KEY C =? "").
    - split; [split; reflexivity | intros _; eexists; reflexivity].
    - split; [apply Hom; intros j; walk | discriminate]. }
  split; [apply Hom; intros j; walk | discriminate].
Qed.

(** X12. When [get_weather_from_open_meteo] returns, it has sent exactly two
    requests: the geocoding one for the city, and then the forecast one with
    the latitude and the longitude of the first result of the geocoding
    answer.  Its dictionary has visibility 10000, and both its ["temp"] and
    its ["feels_like"] are the ["temperature_2m"] of the forecast answer. *)
Theorem open_meteo_answer city sent d sent' :
  get_weather_from_open_meteo respond city sent = (inr d, sent') ->
  (exists geocode_data results location lat lon,
     respond (GeocodeRequest city) = FetchedJson geocode_data
     /\ dict_get geocode_data "results" JNull = Some results
     /\ subscript_0 results = Some location
     /\ subscript location "latitude" = Some lat
     /\ subscript location "longitude" = Some lon
     /\ sent' = ForecastRequest lat lon :: GeocodeRequest city :: sent
     /\ exists weather_data current main temp,
          respond (ForecastRequest lat lon) = FetchedJson weather_data
          /\ subscript weather_data "current" = Some current
          /\ subscript current "temperature_2m" = Some temp
          /\ subscript d "main" = Some main
          /\ subscript main "temp" = Some temp
          /\ subscript main "feels_like" = Some temp)
  /\ subscript d "visibility" = Some (JNumber 10000).
Proof.
  cbv beta iota zeta delta
    [get_weather_from_open_meteo unavailable_on_request_exception
     try_except bind fetch call ret raise].
  intros H.
  repeat (match type of H with
          | context [respond ?r] => destruct (respond r) eqn:?
          | context [dict_get ?a ?b ?c] => destruct (dict_get a b c) eqn:?
          | context [truth ?a] => destruct (truth a) eqn:?
          | context [subscript_0 ?a] => destruct (subscript_0 a) eqn:?
          | context [subscript ?a ?b] => destruct (subscript a b) eqn:?
          | context [describe ?a] => destruct (describe a) eqn:?
          end;
          cbv beta iota delta [negb] in H; try discriminate H).
  injection H as Hd Hs. subst d sent'.
  split; [| reflexivity].
  do 5 eexists.
  split; [reflexivity |]. split; [eassumption |]. split; [eassumption |].
  split; [eassumption |]. split; [eassumption |]. split; [reflexivity |].
  do 4 eexists.
  split; [eassumption |]. split; [eassumption |]. split; [eassumption |].
  split; [reflexivity |]. split; reflexivity.
Qed.

(** X13. [health_check] reports "healthy" exactly when [algod.status()]
    answers with a last round; the indexer being down changes only the
    indexer entry, and the last round reported without an answer is 0. *)
Theorem health_follows_algod algod indexer now :
  (status (health_check C algod indexer now) = "healthy"
   <-> algod <> None)
  /\ (status (health_check C algod indexer now) = "degraded"
      <-> algod = None)
  /\ status (health_check C algod indexer now)
     = status (health_check C algod None now)
  /\ (algod = None ->
      algorand_node_last_round (health_check C algod indexer now) = 0%Z).
Proof.
  unfold health_check. cbn [status algorand_node_last_round].
  destruct algod as [r |]; cbn; repeat split;
    try discriminate; try congruence.
Qed.

End Functions.

End ProvidersFacts.

(* ===================================================================== *)
(** ** The autonomous client: what the trace shows *)
(* ===================================================================== *)

Module JournalFacts.

Import Eff Agent Journal.
Local Open Scope Z_scope.

Section Methods.

Variable W : World.

Ltac stage_done :=
  cbn; repeat split; try reflexivity; try lia;
  try (intros Hstage; exfalso; lia); try (intros _; reflexivity).

(** A purchase adds the events of the stage it reaches, and returns [True]
    exactly at stage 4. *)
Lemma purchase_weather_token_run s :
  exists params txid,
    fst (purchase_weather_token W s) = inr (Nat.eqb (purchase_stage W s) 4)
    /\ trace (snd (purchase_weather_token W s))
       = (purchase_events (address (self s)) (demo_payment (self s) params)
            txid (purchase_stage W s)
          ++ trace s)%list
    /\ (purchase_stage W s <= 4)%nat
    /\ ((2 <= purchase_stage W s)%nat ->
        suggested_params W (io s) = Some params)
    /\ ((3 <= purchase_stage W s)%nat ->
        send_transaction W (S (io s)) (demo_payment (self s) params)
        = Some txid).
Proof.
  unfold purchase_stage, demo_payment.
  cbv beta iota zeta delta
    [purchase_weather_token bind emit modify get_self ret try_except
     outside update_self sleep self trace io].
  destruct s as [a t k]. cbn [self trace io].
  destruct (Qlt_le_dec (balance_algos a) 1.1).
  { exists {| sp_fee := 0; sp_first := 0; sp_last := 0 |}, EmptyString.
    stage_done. }
  destruct (suggested_params W k) as [params |].
  2: { exists {| sp_fee := 0; sp_first := 0; sp_last := 0 |}, EmptyString.
       stage_done. }
  exists params.
  destruct (send_transaction W (S k) _) as [txid |].
  2: { exists EmptyString. stage_done. }
  exists txid.
  destruct (wait_for_confirmation W (S (S k)) txid 4) as [round |].
  2: { stage_done. }
  destruct (round >? 0).
  - rewrite AgentFacts._update_account_info_state. stage_done.
  - stage_done.
Qed.

(** What a purchase does to the agent itself. *)
Lemma purchase_weather_token_self s :
  address (self (snd (purchase_weather_token W s))) = address (self s)
  /\ private_key (self (snd (purchase_weather_token W s)))
     = private_key (self s)
  /\ weather_asa_id (self (snd (purchase_weather_token W s)))
     = weather_asa_id (self s)
  /\ request_count (self (snd (purchase_weather_token W s)))
     = request_count (self s)
  /\ successful_requests (self (snd (purchase_weather_token W s)))
     = successful_requests (self s)
  /\ tokens_purchased (self (snd (purchase_weather_token W s)))
     = tokens_purchased (self s)
       + if Nat.eqb (purchase_stage W s) 4 then 1 else 0.
Proof.
  destruct (purchase_weather_token_run s) as (params & txid & Hr & _).
  destruct (AgentFacts.purchase_weather_token_cases W s)
    as [(Hf & Hs & _) | (Ht & s1 & Hs1 & _ & Hs)].
  - rewrite Hs. rewrite Hf in Hr. injection Hr as Hr. rewrite <- Hr.
    repeat split. lia.
  - rewrite Hs, AgentFacts._update_account_info_state. cbn [snd self].
    rewrite Ht in Hr. injection Hr as Hr. rewrite <- Hr.
    destruct (account_info W (io s1) (address (self s1)));
      cbn; rewrite Hs1; cbn; repeat split.
Qed.

Lemma only_demo_payments_app address key t1 t2 :
  only_demo_payments address key t1 ->
  only_demo_payments address key t2 ->
  only_demo_payments address key (t1 ++ t2).
Proof. unfold only_demo_payments. intros. apply Forall_app. auto. Qed.

Lemma purchase_events_only_demo_payments a params txid stage :
  only_demo_payments (address a) (private_key a)
    (purchase_events (address a) (demo_payment a params) txid stage).
Proof.
  unfold only_demo_payments, purchase_events, demo_payment, is_demo_payment.
  destruct stage as [| [| [| [| n]]]]; repeat constructor.
Qed.

(** Reduces the projections and counters of a state written out. *)
Ltac books :=
  cbn [snd fst self trace io sleep emit modify
       requests submissions attempts
       address private_key weather_asa_id request_count successful_requests
       tokens_purchased balance_algos owned_tokens
       incr_request_count incr_successful_requests incr_tokens_purchased
       set_owned_tokens set_balance_algos].

Lemma accounted_refl s : accounted s s.
Proof. unfold accounted. repeat split; auto; lia. Qed.

Lemma accounted_trans s1 s2 s3 :
  accounted s1 s2 -> accounted s2 s3 -> accounted s1 s3.
Proof.
  unfold accounted.
  intros (A1 & K1 & I1 & R1 & T1 & S1 & P1) (A2 & K2 & I2 & R2 & T2 & S2 & P2).
  repeat split; try congruence; try lia. auto.
Qed.

Lemma accounted_update : preserves accounted (_update_account_info W).
Proof.
  intros s. rewrite AgentFacts._update_account_info_state.
  unfold accounted. cbn [snd self trace].
  destruct (account_info W (io s) (address (self s)));
    books; repeat split; try lia;
    intros H; constructor; auto.
Qed.

Lemma accounted_get_weather city : preserves accounted (get_weather W city).
Proof.
  intros s. rewrite AgentFacts.get_weather_state.
  unfold accounted. cbn [self trace].
  destruct (answered_200 W city s);
    books; repeat split; try lia;
    intros H; constructor; auto.
Qed.

Lemma accounted_sleep n : preserves accounted (sleep n).
Proof.
  intros s. unfold accounted. books. repeat split; try lia.
  intros H. constructor; auto.
Qed.

Lemma accounted_purchase : preserves accounted (purchase_weather_token W).
Proof.
  intros s. unfold accounted.
  destruct (purchase_weather_token_run s)
    as (params & txid & Hr & Ht & Hle & _).
  destruct (purchase_weather_token_self s)
    as (Ha & Hk & Hi & Hq & _ & Hp).
  rewrite Ha, Hk, Hi, Hq, Hp, Ht.
  pose proof (purchase_events_only_demo_payments (self s) params txid
                (purchase_stage W s)) as Hok.
  split; [reflexivity |]. split; [reflexivity |]. split; [reflexivity |].
  assert (Hcount :
            requests (purchase_events (address (self s))
                        (demo_payment (self s) params) txid
                        (purchase_stage W s) ++ trace s)
            = requests (trace s)
            /\ Z.of_nat (submissions
                           (purchase_events (address (self s))
                              (demo_payment (self s) params) txid
                              (purchase_stage W s) ++ trace s))
               = Z.of_nat (submissions (trace s))
                 + (if Nat.leb 2 (purchase_stage W s) then 1 else 0)
            /\ attempts (purchase_events (address (self s))
                           (demo_payment (self s) params) txid
                           (purchase_stage W s) ++ trace s)
               = S (attempts (trace s))).
  { destruct (purchase_stage W s) as [| [| [| [| n]]]]; cbn;
      repeat split; lia. }
  destruct Hcount as (Hc1 & Hc2 & Hc3). rewrite Hc1, Hc2, Hc3.
  repeat split; try lia.
  - destruct (purchase_stage W s) as [| [| [| [| [| n]]]]]; cbn; lia.
  - destruct (Nat.leb 2 (purchase_stage W s)); lia.
  - intros H. apply only_demo_payments_app; assumption.
Qed.

(** Every method call keeps the books. *)
Lemma accounted_exec op s : accounted s (exec W op s).
Proof.
  apply AgentFacts.exec_preserves.
  - exact accounted_refl.
  - exact accounted_trans.
  - exact accounted_update.
  - exact accounted_get_weather.
  - exact accounted_purchase.
  - exact accounted_sleep.
Qed.

(** X14. In every reachable state of an agent, [request_count] is the number
    of requests it has sent to the broker, and [tokens_purchased] is at most
    the number of transactions it has submitted, which is at most the number
    of purchase attempts it has made. *)
Theorem counters_match_the_trace s :
  reachable W s ->
  request_count (self s) = Z.of_nat (requests (trace s))
  /\ 0 <= tokens_purchased (self s)
     <= Z.of_nat (submissions (trace s))
  /\ (submissions (trace s) <= attempts (trace s))%nat.
Proof.
  induction 1 as [a k asa | op s Hs IH].
  - unfold new_agent. rewrite AgentFacts._update_account_info_state.
    cbn [snd self trace io address].
    destruct (account_info W 0 a); cbn; lia.
  - destruct (accounted_exec op s) as (_ & _ & _ & R & T & S & _).
    pose proof (AgentFacts.counters_grow_exec W op s) as (_ & _ & G & _).
    lia.
Qed.

(** X15. Whatever methods are called on an agent, its address, key and
    asset id stay what they were at construction, and every transaction it
    has submitted is the same payment: 1,000,000 microAlgos from its own
    address to the demo marketplace address, signed with its own key. *)
Theorem only_demo_payments_are_sent s :
  reachable W s ->
  only_demo_payments (address (self s)) (private_key (self s)) (trace s)
  /\ forall op,
       address (self (exec W op s)) = address (self s)
       /\ private_key (self (exec W op s)) = private_key (self s)
       /\ weather_asa_id (self (exec W op s)) = weather_asa_id (self s).
Proof.
  intros Hr. split.
  - induction Hr as [a k asa | op s Hs IH].
    + unfold new_agent. rewrite AgentFacts._update_account_info_state.
      cbn [snd self trace io address].
      destruct (account_info W 0 a); cbn; repeat constructor.
    + destruct (accounted_exec op s) as (_ & _ & _ & _ & _ & _ & P).
      apply P, IH.
  - intros op.
    destruct (accounted_exec op s) as (A & K & I & _). auto.
Qed.

(** *** Requests and purchases in one autonomous request *)

(** What [get_weather] returns other than [None] is a document with a
    temperature, received with status 200. *)
Lemma get_weather_some city s d :
  fst (get_weather W city s) = inr (Some d) ->
  has_temperature d /\ answered_200 W city s = true.
Proof.
  unfold has_temperature, answered_200, answer.
  cbv beta iota zeta delta
    [get_weather try_except bind get_self outside update_self modify ret call
     raise incr_request_count address self io trace].
  destruct s as [a t k]. destruct a. cbn [Agent.address].
  destruct (http_get W k city _) as [response |]; [| discriminate].
  destruct (status_code response =? 200).
  - destruct (response_json response) as [data |]; [| discriminate].
    destruct (subscript data "data") as [inner |] eqn:Hd; [| discriminate].
    destruct (subscript inner "temperature") as [temp |] eqn:Ht;
      [| discriminate].
    cbn. intros H. injection H as H. subst d. eauto.
  - destruct (status_code response =? 403); [| discriminate].
    destruct (response_json response) as [data |]; [| discriminate].
    destruct (dict_get data "error" (JObject [])) as [error |];
      [| discriminate].
    destruct (dict_get error "message" (JString "Unknown error"));
      discriminate.
Qed.

(** A document with a temperature is a non-empty dictionary. *)
Lemma has_temperature_truthy d : has_temperature d -> truthy (Some d) = true.
Proof.
  intros (inner & t & Hd & _). destruct d; try discriminate Hd.
  destruct members; [discriminate Hd | reflexivity].
Qed.

(** A 200 answer carrying a document with a temperature is returned as it
    is. *)
Lemma get_weather_granted city s d :
  answer W city s = Some {| status_code := 200; response_json := Some d |} ->
  has_temperature d ->
  fst (get_weather W city s) = inr (Some d).
Proof.
  unfold answer. intros Ha (inner & t & Hd & Ht).
  cbv beta iota zeta delta
    [get_weather try_except bind get_self outside update_self modify ret call
     raise incr_request_count address self io trace] in *.
  destruct s as [a tr k]. destruct a. cbn [Agent.address] in *.
  rewrite Ha. cbn [status_code response_json Z.eqb Pos.eqb].
  rewrite Hd, Ht. reflexivity.
Qed.

(** The loop sends one request per confirmed purchase, never raises, and
    what it returns other than [None] was received with status 200. *)
Lemma purchase_loop_books city max_attempts remaining :
  forall attempt s,
    request_count
      (self (snd (purchase_loop W city max_attempts remaining attempt s)))
    - request_count (self s)
    = tokens_purchased
        (self (snd (purchase_loop W city max_attempts remaining attempt s)))
      - tokens_purchased (self s)
    /\ successful_requests (self s)
       <= successful_requests
            (self (snd (purchase_loop W city max_attempts remaining
                          attempt s)))
    /\ exists r,
         fst (purchase_loop W city max_attempts remaining attempt s) = inr r
         /\ forall d, r = Some d ->
              has_temperature d
              /\ successful_requests (self s) + 1
                 <= successful_requests
                      (self (snd (purchase_loop W city max_attempts
                                    remaining attempt s))).
Proof.
  induction remaining as [| k IH]; intros attempt s.
  - cbn. repeat split; try lia. eexists. split; [reflexivity |].
    discriminate.
  - rewrite AgentFacts.purchase_loop_step.
    destruct (purchase_weather_token_run s) as (params & txid & Hr & _).
    destruct (purchase_weather_token_self s)
      as (_ & _ & _ & Hq & Hsucc & Hp).
    rewrite Hr.
    destruct (Nat.eqb (purchase_stage W s) 4).
    + cbv zeta.
      set (s2 := snd (sleep 2 (snd (purchase_weather_token W s)))).
      assert (Hself2 : self s2 = self (snd (purchase_weather_token W s)))
        by reflexivity.
      clearbody s2.
      pose proof (AgentFacts.get_weather_state W city s2) as Hg.
      destruct (AgentFacts.get_weather_result W city s2)
        as (r & Hres & Hnone & _).
      pose proof (get_weather_some city s2) as Hsome.
      destruct (get_weather W city s2) as [x s3].
      cbn [fst snd] in *. subst x s3.
      assert (Hafter :
                request_count
                  (if answered_200 W city s2
                   then incr_successful_requests
                          (incr_request_count (self s2))
                   else incr_request_count (self s2))
                = request_count (self s) + 1
                /\ tokens_purchased
                     (if answered_200 W city s2
                      then incr_successful_requests
                             (incr_request_count (self s2))
                      else incr_request_count (self s2))
                   = tokens_purchased (self s) + 1
                /\ successful_requests
                     (if answered_200 W city s2
                      then incr_successful_requests
                             (incr_request_count (self s2))
                      else incr_request_count (self s2))
                   = successful_requests (self s)
                     + if answered_200 W city s2 then 1 else 0).
      { destruct (answered_200 W city s2); books;
          rewrite Hself2, Hq, Hp, Hsucc; repeat split; lia. }
      destruct Hafter as (Ha1 & Ha2 & Ha3).
      destruct (truthy r) eqn:Htr.
      * cbn [fst snd self].
        destruct r as [d |]; [| discriminate Htr].
        destruct (Hsome d eq_refl) as [Htemp H200].
        rewrite Ha1, Ha2, Ha3, H200.
        repeat split; try lia.
        eexists. split; [reflexivity |].
        intros d' Hd'. injection Hd' as Hd'. subst d'. split; [exact Htemp |].
        lia.
      * unfold next_iteration.
        match goal with
        | |- context [purchase_loop W city max_attempts k ?a ?s5] =>
            destruct (IH a s5) as (Hb & Hm & r' & Hres' & Hd');
            rewrite Hres'; revert Hb Hm Hd'
        end.
        rewrite !AgentFacts.pause_self. cbn [self].
        rewrite Ha1, Ha2, Ha3. intros Hb Hm Hd'.
        assert (0 <= if answered_200 W city s2 then 1 else 0)
          by (destruct (answered_200 W city s2); lia).
        repeat split; try lia.
        eexists. split; [reflexivity |].
        intros d' Heq. destruct (Hd' d' Heq) as [Ht Hs].
        split; [exact Ht | lia].
    + unfold next_iteration.
      match goal with
      | |- context [purchase_loop W city max_attempts k ?a ?s5] =>
          destruct (IH a s5) as (Hb & Hm & r' & Hres' & Hd');
          rewrite Hres'; revert Hb Hm Hd'
      end.
      rewrite !AgentFacts.pause_self, Hq, Hp, Hsucc. intros Hb Hm Hd'.
      repeat split; try lia.
      eexists. split; [reflexivity |].
      intros d' Heq. destruct (Hd' d' Heq) as [Ht Hs].
      split; [exact Ht | lia].
Qed.

(** The counters after the first request of an autonomous request. *)
Lemma first_request_books city s :
  request_count
    (self (snd (get_weather W city (snd (_update_account_info W s)))))
  = request_count (self s) + 1
  /\ tokens_purchased
       (self (snd (get_weather W city (snd (_update_account_info W s)))))
     = tokens_purchased (self s)
  /\ successful_requests
       (self (snd (get_weather W city (snd (_update_account_info W s)))))
     = successful_requests (self s)
       + if answered_200 W city (snd (_update_account_info W s))
         then 1 else 0.
Proof.
  rewrite AgentFacts.get_weather_state. cbn [self].
  destruct (answered_200 W city _);
    rewrite AgentFacts._update_account_info_state; cbn [snd self];
    destruct (account_info W (io s) (address (self s)));
    books; repeat split; lia.
Qed.

(** X16. [autonomous_weather_request] never raises, whatever the broker and
    the node do, and it sends exactly one request to the broker plus one for
    every purchase it gets confirmed: [request_count] grows by one more than
    [tokens_purchased]. *)
Theorem one_request_per_confirmed_purchase city max_attempts s :
  (exists r,
     fst (autonomous_weather_request W city max_attempts s) = inr r)
  /\ request_count
       (self (snd (autonomous_weather_request W city max_attempts s)))
     - request_count (self s)
     = 1 + (tokens_purchased
              (self (snd (autonomous_weather_request W city max_attempts s)))
            - tokens_purchased (self s)).
Proof.
  rewrite AgentFacts.autonomous_weather_request_unfold. cbv zeta.
  destruct (first_request_books city s) as (Hq & Hp & _).
  destruct (AgentFacts.get_weather_result W city
              (snd (_update_account_info W s))) as (r & Hres & _).
  rewrite Hres.
  destruct (truthy r).
  - cbn [fst snd]. split; [eauto |]. lia.
  - destruct (purchase_loop_books city max_attempts (Z.to_nat max_attempts) 0
                (snd (get_weather W city (snd (_update_account_info W s)))))
      as (Hb & _ & r' & Hres' & _).
    split; [eauto |]. lia.
Qed.


(** X18. With [max_attempts <= 0] the loop does not run:
    [autonomous_weather_request] is the refresh of the account followed by a
    single [get_weather], with no purchase attempt. *)
Theorem no_attempts_allowed city max_attempts s :
  max_attempts <= 0 ->
  autonomous_weather_request W city max_attempts s
  = get_weather W city (snd (_update_account_info W s))
  /\ new_attempts s (snd (autonomous_weather_request W city max_attempts s))
     = 0.
Proof.
  intros HN. unfold new_attempts.
  rewrite AgentFacts.autonomous_weather_request_unfold. cbv zeta.
  pose proof (AgentFacts.first_request_attempts W city s) as Ha.
  destruct (AgentFacts.get_weather_result W city
              (snd (_update_account_info W s))) as (r & Hres & _ & Htruthy).
  destruct (get_weather W city (snd (_update_account_info W s)))
    as [x s2] eqn:Hg.
  cbn [fst snd] in *. subst x.
  replace (Z.to_nat max_attempts) with 0%nat by lia.
  destruct (truthy r) eqn:Htr.
  - cbn [snd]. split; [reflexivity | lia].
  - cbn [purchase_loop ret snd].
    assert (r = None).
    { destruct r as [d |]; [| reflexivity].
      assert (Hyes : false = true)
        by (apply Htruthy; intros Hd; discriminate Hd).
      discriminate Hyes. }
    subst r. split; [reflexivity | lia].
Qed.

(** X19. [purchase_weather_token] returns [True] exactly when the booked
    balance is at least 1.1 ALGO and the node gives parameters, accepts the
    payment and confirms it in a positive round; it then has submitted
    exactly one transaction and counted one purchase. *)
Theorem purchase_succeeds_iff_confirmed s :
  (fst (purchase_weather_token W s) = inr true
   <-> (1.1 <= balance_algos (self s))%Q
       /\ exists params txid confirmed_round,
            suggested_params W (io s) = Some params
            /\ send_transaction W (S (io s)) (demo_payment (self s) params)
               = Some txid
            /\ wait_for_confirmation W (S (S (io s))) txid 4
               = Some confirmed_round
            /\ 0 < confirmed_round)
  /\ (fst (purchase_weather_token W s) = inr true ->
      submissions (trace (snd (purchase_weather_token W s)))
      = S (submissions (trace s))
      /\ tokens_purchased (self (snd (purchase_weather_token W s)))
         = tokens_purchased (self s) + 1).
Proof.
  destruct (purchase_weather_token_run s)
    as (params & txid & Hr & Ht & Hle & _).
  destruct (purchase_weather_token_self s) as (_ & _ & _ & _ & _ & Hp).
  rewrite Hr, Ht, Hp. split.
  - unfold purchase_stage.
    destruct (Qlt_le_dec (balance_algos (self s)) 1.1) as [Hlt | Hge].
    { cbn. split; [discriminate |]. intros [Hge _]. exfalso.
      exact (Qlt_not_le _ _ Hlt Hge). }
    destruct (suggested_params W (io s)) as [p |].
    2: { cbn. split; [discriminate |].
         intros (_ & p & t & r & H & _). discriminate H. }
    destruct (send_transaction W (S (io s)) (demo_payment (self s) p))
      as [t |] eqn:Hsend.
    2: { cbn. split; [discriminate |].
         intros (_ & p' & t & r & H1 & H2 & _).
         injection H1 as H1. subst p'. rewrite Hsend in H2.
         discriminate H2. }
    destruct (wait_for_confirmation W (S (S (io s))) t 4) as [r |] eqn:Hwait.
    2: { cbn. split; [discriminate |].
         intros (_ & p' & t' & r & H1 & H2 & H3 & _).
         injection H1 as H1. subst p'. rewrite Hsend in H2.
         injection H2 as H2. subst t'. rewrite Hwait in H3.
         discriminate H3. }
    destruct (r >? 0) eqn:Hpos.
    + cbn. split; [| reflexivity]. intros _. split; [exact Hge |].
      exists p, t, r. split; [reflexivity |]. split; [exact Hsend |].
      split; [exact Hwait |]. apply Z.gtb_lt. exact Hpos.
    + cbn. split; [discriminate |].
      intros (_ & p' & t' & r' & H1 & H2 & H3 & H4).
      injection H1 as H1. subst p'. rewrite Hsend in H2.
      injection H2 as H2. subst t'. rewrite Hwait in H3.
      injection H3 as H3. subst r'.
      apply Z.gtb_lt in H4. congruence.
  - intros H. injection H as H. rewrite H.
    apply Nat.eqb_eq in H. rewrite H. cbn. split; [reflexivity | lia].
Qed.

(** X20. A [False] from [purchase_weather_token] does not mean that nothing
    was sent: when the node has accepted the payment and the wait for its
    confirmation fails, or reports a round that is not positive, the call
    returns [False] and counts no purchase, yet one transaction was
    submitted. *)
Theorem unconfirmed_payment_was_still_sent s params txid :
  (1.1 <= balance_algos (self s))%Q ->
  suggested_params W (io s) = Some params ->
  send_transaction W (S (io s)) (demo_payment (self s) params) = Some txid ->
  (wait_for_confirmation W (S (S (io s))) txid 4 = None
   \/ exists confirmed_round,
        wait_for_confirmation W (S (S (io s))) txid 4 = Some confirmed_round
        /\ confirmed_round <= 0) ->
  fst (purchase_weather_token W s) = inr false
  /\ submissions (trace (snd (purchase_weather_token W s)))
     = S (submissions (trace s))
  /\ tokens_purchased (self (snd (purchase_weather_token W s)))
     = tokens_purchased (self s).
Proof.
  intros Hge Hparams Hsend Hwait.
  assert (Hstage : purchase_stage W s = 3%nat).
  { unfold purchase_stage.
    destruct (Qlt_le_dec (balance_algos (self s)) 1.1) as [Hlt | _];
      [exfalso; exact (Qlt_not_le _ _ Hlt Hge) |].
    rewrite Hparams, Hsend.
    destruct Hwait as [Hw | (r & Hw & Hr)]; rewrite Hw; [reflexivity |].
    destruct (Z.gtb_spec r 0); [lia | reflexivity]. }
  destruct (purchase_weather_token_run s) as (p & t & Hr & Ht & _).
  destruct (purchase_weather_token_self s) as (_ & _ & _ & _ & _ & Hp).
  rewrite Hr, Ht, Hp, Hstage. cbn. split; [reflexivity |].
  split; [reflexivity | lia].
Qed.

(** *** Pauses *)

Lemma purchase_weather_token_pauses s :
  pauses (trace (snd (purchase_weather_token W s))) = pauses (trace s).
Proof.
  destruct (purchase_weather_token_run s) as (params & txid & _ & Ht & _).
  rewrite Ht.
  destruct (purchase_stage W s) as [| [| [| [| n]]]]; reflexivity.
Qed.

Lemma purchase_loop_pauses city max_attempts remaining :
  forall attempt s,
    Z.of_nat (pauses (trace (snd (purchase_loop W city max_attempts
                                    remaining attempt s))))
    <= Z.of_nat (pauses (trace s)) + Z.max 0 (max_attempts - 1 - attempt).
Proof.
  induction remaining as [| k IH]; intros attempt s.
  - cbn. lia.
  - rewrite AgentFacts.purchase_loop_step.
    pose proof (purchase_weather_token_pauses s) as Hp.
    assert (Hnext : forall s',
               pauses (trace s') = pauses (trace s) ->
               Z.of_nat (pauses (trace (snd (next_iteration W city
                                               max_attempts k attempt s'))))
               <= Z.of_nat (pauses (trace s))
                  + Z.max 0 (max_attempts - 1 - attempt)).
    { intros s' Hs'. unfold next_iteration.
      eapply Z.le_trans; [apply IH |].
      destruct (Z.ltb_spec attempt (max_attempts - 1));
        cbn [snd sleep emit modify trace pauses ret];
        rewrite ?Nat2Z.inj_succ, Hs'; lia. }
    destruct (fst (purchase_weather_token W s)) as [e | [|]]; cbn [snd].
    + lia.
    + cbv zeta.
      match goal with
      | |- context [get_weather W city ?s2] =>
          pose proof (AgentFacts.get_weather_state W city s2) as Hg;
          destruct (get_weather W city s2) as [[e | r] s3]
      end; cbn [fst snd] in *.
      * subst s3. cbn [trace pauses sleep emit modify snd]. lia.
      * assert (Hs3 : pauses (trace s3) = pauses (trace s))
          by (subst s3; cbn [trace pauses sleep emit modify snd];
              exact Hp).
        destruct (truthy r); cbn [snd]; [lia | apply Hnext, Hs3].
    + apply Hnext, Hp.
Qed.

(** The loop pauses once between two attempts: the pauses it makes are one
    fewer than its attempts. *)
Lemma purchase_loop_pauses_exact city max_attempts remaining :
  forall attempt s,
    attempt + Z.of_nat remaining = max_attempts ->
    Z.of_nat (pauses (trace (snd (purchase_loop W city max_attempts
                                    remaining attempt s))))
    - Z.of_nat (pauses (trace s))
    = Z.max 0 (Z.of_nat (attempts (trace (snd (purchase_loop W city
                                                 max_attempts remaining
                                                 attempt s))))
               - Z.of_nat (attempts (trace s)) - 1).
Proof.
  induction remaining as [| k IH]; intros attempt s Hleft.
  - cbn. lia.
  - rewrite AgentFacts.purchase_loop_step.
    pose proof (purchase_weather_token_pauses s) as Hp.
    pose proof (AgentFacts.purchase_weather_token_attempts W s) as Ha.
    assert (Hnext : forall s',
               pauses (trace s') = pauses (trace s) ->
               attempts (trace s') = S (attempts (trace s)) ->
               Z.of_nat (pauses (trace (snd (next_iteration W city
                                               max_attempts k attempt s'))))
               - Z.of_nat (pauses (trace s))
               = Z.max 0 (Z.of_nat (attempts (trace (snd (next_iteration W
                                                            city max_attempts
                                                            k attempt s'))))
                          - Z.of_nat (attempts (trace s)) - 1)).
    { intros s' Hp' Ha'. unfold next_iteration.
      assert (Hk : attempt + 1 + Z.of_nat k = max_attempts) by lia.
      pose proof (IH (attempt + 1)
                    (snd ((if attempt <? max_attempts - 1
                           then sleep 5 else ret tt) s')) Hk) as Hexact.
      pose proof (AgentFacts.purchase_loop_attempts_bound W city max_attempts
                    k (attempt + 1)
                    (snd ((if attempt <? max_attempts - 1
                           then sleep 5 else ret tt) s'))) as Hmost.
      pose proof (AgentFacts.purchase_loop_attempts_at_least W city
                    max_attempts k (attempt + 1)
                    (snd ((if attempt <? max_attempts - 1
                           then sleep 5 else ret tt) s'))) as Hleast.
      rewrite AgentFacts.pause_attempts in Hexact, Hmost, Hleast.
      assert (Hpause :
                Z.of_nat (pauses (trace (snd ((if attempt <? max_attempts - 1
                                               then sleep 5 else ret tt) s'))))
                = Z.of_nat (pauses (trace s'))
                  + (if attempt <? max_attempts - 1 then 1 else 0)).
      { destruct (attempt <? max_attempts - 1);
          cbn [snd sleep emit modify trace pauses ret]; lia. }
      destruct (Z.ltb_spec attempt (max_attempts - 1)); lia. }
    destruct (fst (purchase_weather_token W s)) as [e | [|]]; cbn [snd].
    + lia.
    + cbv zeta.
      match goal with
      | |- context [get_weather W city ?s2] =>
          pose proof (AgentFacts.get_weather_state W city s2) as Hg;
          destruct (get_weather W city s2) as [[e | r] s3]
      end; cbn [fst snd] in *.
      * subst s3. cbn [trace pauses attempts sleep emit modify snd]. lia.
      * assert (Hp3 : pauses (trace s3) = pauses (trace s))
          by (subst s3; cbn [trace pauses sleep emit modify snd];
              exact Hp).
        assert (Ha3 : attempts (trace s3) = S (attempts (trace s)))
          by (subst s3; cbn [trace attempts sleep emit modify snd];
              exact Ha).
        destruct (truthy r); cbn [snd]; [lia | apply Hnext; assumption].
    + apply Hnext; assumption.
Qed.

(** The last thing a purchase does is never a five-second pause. *)
Lemma purchase_weather_token_last_event s t :
  trace (snd (purchase_weather_token W s)) <> EvSleep 5 :: t.
Proof.
  destruct (purchase_weather_token_run s) as (params & txid & _ & Ht & _).
  rewrite Ht.
  destruct (purchase_stage W s) as [| [| [| [| n]]]]; discriminate.
Qed.

(** The loop does not end on a five-second pause: after the last attempt it
    makes none. *)
Lemma purchase_loop_last_event city max_attempts remaining :
  forall attempt s,
    attempt + Z.of_nat remaining = max_attempts ->
    (remaining = O -> forall t, trace s <> EvSleep 5 :: t) ->
    forall t,
      trace (snd (purchase_loop W city max_attempts remaining attempt s))
      <> EvSleep 5 :: t.
Proof.
  induction remaining as [| k IH]; intros attempt s Hleft Hlast.
  - cbn. exact (Hlast eq_refl).
  - rewrite AgentFacts.purchase_loop_step.
    pose proof (purchase_weather_token_last_event s) as Hp.
    assert (Hnext : forall s',
               (forall t, trace s' <> EvSleep 5 :: t) ->
               forall t,
                 trace (snd (next_iteration W city max_attempts k attempt s'))
                 <> EvSleep 5 :: t).
    { intros s' Hs'. unfold next_iteration. apply IH; [lia |].
      intros Hk. subst k.
      destruct (Z.ltb_spec attempt (max_attempts - 1));
        [cbn [Z.of_nat] in Hleft; lia | exact Hs']. }
    destruct (fst (purchase_weather_token W s)) as [e | [|]]; cbn [snd].
    + exact Hp.
    + cbv zeta.
      match goal with
      | |- context [get_weather W city ?s2] =>
          pose proof (AgentFacts.get_weather_state W city s2) as Hg;
          destruct (get_weather W city s2) as [[e | r] s3]
      end; cbn [fst snd] in *.
      * subst s3. discriminate.
      * assert (Hs3 : forall t, trace s3 <> EvSleep 5 :: t)
          by (subst s3; discriminate).
        destruct (truthy r); cbn [snd]; [exact Hs3 | apply Hnext, Hs3].
    + apply Hnext, Hp.
Qed.

(** X21. [autonomous_weather_request] pauses five seconds once between two
    consecutive purchase attempts and never after the last one: in every run
    the number of five-second pauses is the number of attempts minus one
    (none when no attempt is made), hence at most [max_attempts - 1], and
    the run does not end on such a pause. *)
Theorem pauses_between_attempts_only city max_attempts s :
  Z.of_nat
    (pauses (trace (snd (autonomous_weather_request W city max_attempts s))))
  - Z.of_nat (pauses (trace s))
  = Z.max 0
      (new_attempts s (snd (autonomous_weather_request W city max_attempts s))
       - 1)
  /\ Z.of_nat
       (pauses (trace (snd (autonomous_weather_request W city max_attempts
                              s))))
     - Z.of_nat (pauses (trace s))
     <= Z.max 0 (max_attempts - 1)
  /\ (forall t,
        trace (snd (autonomous_weather_request W city max_attempts s))
        <> EvSleep 5 :: t).
Proof.
  unfold new_attempts.
  rewrite AgentFacts.autonomous_weather_request_unfold. cbv zeta.
  assert (Hfirst :
            pauses (trace (snd (get_weather W city
                                  (snd (_update_account_info W s)))))
            = pauses (trace s)).
  { rewrite AgentFacts.get_weather_state,
      AgentFacts._update_account_info_state. reflexivity. }
  pose proof (AgentFacts.first_request_attempts W city s) as Hattempts.
  assert (Hevent :
            forall t,
              trace (snd (get_weather W city
                            (snd (_update_account_info W s))))
              <> EvSleep 5 :: t).
  { rewrite AgentFacts.get_weather_state. discriminate. }
  destruct (fst (get_weather W city _)) as [e | r]; cbn [snd];
    [split; [| split]; [lia | lia | exact Hevent] |].
  destruct (truthy r); cbn [snd];
    [split; [| split]; [lia | lia | exact Hevent] |].
  pose proof (purchase_loop_pauses city max_attempts (Z.to_nat max_attempts)
                0 (snd (get_weather W city (snd (_update_account_info W s)))))
    as Hmost.
  destruct (Z.to_nat max_attempts) as [| n] eqn:HN.
  - cbn [purchase_loop ret snd].
    split; [| split]; [lia | lia | exact Hevent].
  - assert (Hleft : 0 + Z.of_nat (S n) = max_attempts) by lia.
    pose proof (@purchase_loop_pauses_exact city max_attempts (S n) 0
                  (snd (get_weather W city (snd (_update_account_info W s))))
                  Hleft) as Hexact.
    split; [| split]; [lia | lia |].
    apply purchase_loop_last_event; [exact Hleft | discriminate].
Qed.

(** X22. [run_demo] is not as careful as [get_weather]: when the broker
    grants the first city with a document that has a temperature but no
    ["data"]["description"], [run_demo] raises after that single request and
    the remaining cities are never asked for. *)
Theorem run_demo_needs_a_description city rest s d inner t :
  answer W city (snd (_update_account_info W s))
  = Some {| status_code := 200; response_json := Some d |} ->
  subscript d "data" = Some inner ->
  subscript inner "temperature" = Some t ->
  subscript inner "description" = None ->
  fst (run_demo W (Some (city :: rest)) s) = inl Exception
  /\ requests (trace (snd (run_demo W (Some (city :: rest)) s)))
     = S (requests (trace s))
  /\ request_count (self (snd (run_demo W (Some (city :: rest)) s)))
     = request_count (self s) + 1.
Proof.
  intros Ha Hd Ht Hnone.
  assert (Htemp : has_temperature d) by (exists inner, t; auto).
  pose proof (get_weather_granted city _ Ha Htemp) as Hg.
  pose proof (has_temperature_truthy Htemp) as Htr.
  destruct (first_request_books city s) as (Hq & _).
  assert (Hreq :
            requests (trace (snd (get_weather W city
                                    (snd (_update_account_info W s)))))
            = S (requests (trace s))).
  { rewrite AgentFacts.get_weather_state,
      AgentFacts._update_account_info_state. reflexivity. }
  assert (Hrun : autonomous_weather_request W city 3 s
                 = (inr (Some d),
                    snd (get_weather W city
                           (snd (_update_account_info W s))))).
  { rewrite AgentFacts.autonomous_weather_request_unfold. cbv zeta.
    rewrite Hg, Htr. reflexivity. }
  unfold run_demo. cbn [run_demo_loop]. unfold bind, call.
  rewrite Hrun. cbv beta iota. rewrite Htr, Hd.
  cbv beta iota delta [ret]. rewrite Ht.
  cbv beta iota delta [ret]. rewrite Hnone.
  cbv beta iota delta [raise fst snd].
  repeat split; assumption.
Qed.

End Methods.

(** *** The agent and the token listing *)

Section Listing.

Variable address_bytes : Type.
Variable decode_address : string -> option address_bytes.
Variable encode_address : address_bytes -> option string.
Variable B : Backend.World.
Variable W : World.

(** X23. When the agent and the broker are told the same about the agent's
    account and are configured with the same asset id, the agent's
    [owned_tokens] after a refresh are the assets the listing route reports,
    with the same amounts in the same order, and [has_valid_token] is true
    exactly when the listing counts at least one valid token. *)
Theorem agent_and_listing_agree s sb info :
  Backend.validate_wallet_address decode_address encode_address
    (address (self s)) = true ->
  account_info W (io s) (address (self s)) = Some info ->
  Backend.account_info B (address (self s)) = Some info ->
  exists body,
    fst (Tokens.handle_tokens decode_address encode_address
           (weather_asa_id (self s)) B (address (self s)) sb)
    = Tokens.Reply200 body
    /\ map Backend.asset_amount
         (owned_tokens (self (snd (_update_account_info W s))))
       = map Tokens.td_balance (Tokens.tr_tokens body)
    /\ (fst (has_valid_token (snd (_update_account_info W s))) = inr true
        <-> 1 <= Tokens.valid_tokens (Tokens.tr_summary body)).
Proof.
  intros Hv Hw Hb.
  destruct (TokensFacts.handle_tokens_listing decode_address encode_address
              (weather_asa_id (self s)) B (address (self s)) sb Hv Hb)
    as (tokens & Hrun & Hbal & _).
  eexists. rewrite Hrun. split; [reflexivity |].
  rewrite AgentFacts._update_account_info_state, Hw.
  cbn [fst snd self owned_tokens set_owned_tokens Tokens.tr_tokens
       Tokens.tr_summary Tokens.valid_tokens].
  unfold Tokens.weather_tokens in Hbal. split; [symmetry; exact Hbal |].
  unfold has_valid_token, bind, get_self, ret.
  cbn [fst snd self owned_tokens set_owned_tokens].
  assert (Hlen : List.length tokens
                 = List.length
                     (filter (fun asset =>
                                (Backend.asset_id asset
                                 =? weather_asa_id (self s))
                                && (Backend.asset_amount asset >? 0))
                             (Backend.assets info))).
  { rewrite <- (length_map Tokens.td_balance), Hbal, length_map.
    reflexivity. }
  rewrite <- Hlen. split.
  - intros H. injection H as H. apply Z.gtb_lt in H. lia.
  - intros H. f_equal. apply Z.gtb_lt. lia.
Qed.

End Listing.

End JournalFacts.

(* ===================================================================== *)
(** ** The contract: what a history of calls leaves *)
(* ===================================================================== *)

Module CallsFacts.

Import Marketplace Calls.
Local Open Scope Z_scope.

Lemma sales_nonneg cs : 0 <= sales cs.
Proof.
  induction cs as [| c cs IH]; [cbn; lia |].
  destruct c; cbn [sales]; lia.
Qed.

(** One call moves the sales counter by one, up to the largest [uint64],
    when it is [record_token_sale], and not at all otherwise. *)
Lemma after_total_tokens_sold c self :
  0 <= total_tokens_sold self <= uint64_max ->
  total_tokens_sold (after c self)
  = Z.min uint64_max (total_tokens_sold self + sales [c]).
Proof.
  intros Hs. unfold after.
  destruct c; cbn [dispatch sales];
    unfold get_token_price, get_weather_asa_id, set_weather_asa_id,
      get_token_duration, record_token_sale, get_total_sales,
      is_contract_active, get_contract_info, uint64_add;
    try destruct (is_uint64 _);
    try destruct (Z.leb_spec (total_tokens_sold self + 1) uint64_max);
    cbn [fst snd total_tokens_sold]; lia.
Qed.

Lemma run_total_tokens_sold cs :
  forall self,
    0 <= total_tokens_sold self <= uint64_max ->
    total_tokens_sold (run cs self)
    = Z.min uint64_max (total_tokens_sold self + sales cs).
Proof.
  unfold run.
  induction cs as [| c cs IH]; intros self Hs.
  - cbn [fold_left sales]. lia.
  - cbn [fold_left]. rewrite IH.
    + rewrite (after_total_tokens_sold c self Hs).
      pose proof (sales_nonneg cs). pose proof (sales_nonneg [c]).
      assert (sales (c :: cs) = sales [c] + sales cs)
        by (destruct c; cbn [sales]; lia).
      lia.
    + apply MarketplaceFacts.after_total_tokens_sold_range, Hs.
Qed.

Lemma after_weather_asa_id c self :
  weather_asa_id (after c self) = last_asa_id [c] (weather_asa_id self).
Proof.
  unfold after, last_asa_id.
  destruct c; cbn [dispatch fold_left];
    unfold get_token_price, get_weather_asa_id, set_weather_asa_id,
      get_token_duration, record_token_sale, get_total_sales,
      is_contract_active, get_contract_info;
    try destruct (is_uint64 _); try destruct (uint64_add _ _);
    reflexivity.
Qed.

Lemma run_weather_asa_id cs :
  forall self,
    weather_asa_id (run cs self) = last_asa_id cs (weather_asa_id self).
Proof.
  unfold run, last_asa_id.
  induction cs as [| c cs IH]; intros self; [reflexivity |].
  cbn [fold_left]. rewrite IH, after_weather_asa_id. reflexivity.
Qed.

(** X24. After any history of calls on a deployed contract,
    [total_tokens_sold] is the number of [record_token_sale] calls in the
    history, capped at the largest [uint64] (where further sales are
    rejected), and that is what [get_total_sales] returns. *)
Theorem sales_are_counted cs :
  total_tokens_sold (run cs __init__) = Z.min uint64_max (sales cs)
  /\ get_total_sales (run cs __init__)
     = Some (run cs __init__, VUInt64 (Z.min uint64_max (sales cs))).
Proof.
  assert (H : total_tokens_sold (run cs __init__)
              = Z.min uint64_max (sales cs)).
  { rewrite run_total_tokens_sold; [reflexivity |].
    cbn. unfold uint64_max. lia. }
  split; [exact H |]. unfold get_total_sales. rewrite H. reflexivity.
Qed.

(** X25. After any history of calls on a deployed contract,
    [get_weather_asa_id] returns the argument of the last
    [set_weather_asa_id] call that was a [uint64] (0 when there was none): an
    accepted set is read back by the next [get_weather_asa_id], and a set
    with an argument out of range is rejected without effect. *)
Theorem asa_id_is_the_last_one_set cs :
  get_weather_asa_id (run cs __init__)
  = Some (run cs __init__, VUInt64 (last_asa_id cs 0))
  /\ (forall asa_id,
        is_uint64 asa_id = true ->
        get_weather_asa_id (run (cs ++ [CallSetWeatherAsaId asa_id]) __init__)
        = Some (run (cs ++ [CallSetWeatherAsaId asa_id]) __init__,
                VUInt64 asa_id))
  /\ (forall asa_id,
        is_uint64 asa_id = false ->
        set_weather_asa_id asa_id (run cs __init__) = None
        /\ run (cs ++ [CallSetWeatherAsaId asa_id]) __init__
           = run cs __init__).
Proof.
  split; [| split].
  - unfold get_weather_asa_id. rewrite run_weather_asa_id. reflexivity.
  - intros a Ha. unfold get_weather_asa_id. rewrite run_weather_asa_id.
    unfold last_asa_id. rewrite fold_left_app. cbn [fold_left].
    rewrite Ha. reflexivity.
  - intros a Ha. split.
    + unfold set_weather_asa_id. rewrite Ha. reflexivity.
    + unfold run. rewrite fold_left_app. cbn [fold_left].
      unfold after at 1. cbn [dispatch]. unfold set_weather_asa_id.
      rewrite Ha. reflexivity.
Qed.

End CallsFacts.

(* ===================================================================== *)
(** ** The theorems above at concrete runs *)
(* ===================================================================== *)

Module Runs.

Import Scenario Example.
Local Open Scope string_scope.
Local Open Scope Z_scope.

(** X1, for the funded wallet asking for London. *)
Lemma granted_only_above_threshold_witness :
  exists info,
    Backend.account_info funded wallet = Some info
    /\ (5.0 <= Backend.balance_algos info)%Q.
Proof.
  destruct (@RouteFacts.granted_only_above_threshold _ decode_address
              encode_address 0 0 funded "London" wallet idle _ eq_refl)
    as (_ & H & _).
  exact H.
Defined.

(** X3, for the funded wallet when the provider is down. *)
Lemma provider_failures_are_reported_witness :
  fst (serve provider_down "London" wallet)
  = Backend.JSONResponse 502
      (Backend.ContentError "Weather service unavailable").
Proof.
  destruct (@RouteFacts.provider_failures_are_reported _ decode_address
              encode_address 0 0 provider_down "London" wallet
              {| Backend.amount := 6000000; Backend.assets := [] |} idle)
    as [H _]; [reflexivity | reflexivity | vm_compute; discriminate |].
  apply H. reflexivity.
Defined.

(** X4, for the funded wallet asking for London. *)
Lemma granted_response_times_witness :
  exists body,
    fst (serve funded "London" wallet) = Backend.Response200 body
    /\ Backend.expires_at (Backend.wr_token_info body) = 0
    /\ Backend.wr_timestamp body = 1000001.
Proof.
  eexists. split; [reflexivity |].
  destruct (@RouteFacts.granted_response_times _ decode_address
              encode_address 0 0 funded "London" wallet idle _ eq_refl)
    as (H1 & _ & _ & H4 & _).
  split; [exact H1 | exact H4].
Defined.

(** X6, for the holder of two kinds of asset. *)
Lemma token_listing_counts_witness :
  exists body,
    fst (list_tokens token_holder wallet) = Tokens.Reply200 body
    /\ map Tokens.td_balance (Tokens.tr_tokens body) = [3]
    /\ Tokens.total_tokens (Tokens.tr_summary body) = 1.
Proof.
  destruct (@TokensFacts.token_listing_counts _ decode_address
              encode_address 7 token_holder wallet holder_info idle)
    as (body & Hb & _ & Hbal & _ & Htotal & _);
    [reflexivity | reflexivity |].
  exists body. split; [exact Hb |]. split; [exact Hbal | exact Htotal].
Defined.

(** X7, for the same holder, who has 2 ALGO. *)
Lemma token_holder_below_threshold_is_refused_witness :
  (exists body,
     fst (list_tokens token_holder wallet) = Tokens.Reply200 body
     /\ 1 <= Tokens.valid_tokens (Tokens.tr_summary body))
  /\ exists err,
       fst (Backend.handle decode_address encode_address 7 0 token_holder
              "London" wallet idle)
       = Backend.JSONResponse 403 (Backend.ContentDict false err)
       /\ Backend.code err = "INVALID_TOKEN".
Proof.
  apply (@TokensFacts.token_holder_below_threshold_is_refused _
           decode_address encode_address 7 token_holder 0 "London" wallet
           holder_info idle idle).
  - reflexivity.
  - reflexivity.
  - discriminate.
  - vm_compute. reflexivity.
Defined.

(** X9, for a city Open-Meteo does not know. *)
Lemma open_meteo_city_not_found_witness :
  Providers.get_weather_from_open_meteo open_meteo "Atlantis" []
  = (inl (Providers.HTTPException 404 "City 'Atlantis' not found"),
     [Providers.GeocodeRequest "Atlantis"]).
Proof.
  apply (@ProvidersFacts.open_meteo_city_not_found open_meteo "Atlantis"
           (Agent.JObject []) Agent.JNull []);
    reflexivity.
Defined.

(** X12, for London. *)
Lemma open_meteo_answer_witness :
  exists d sent,
    Providers.get_weather_from_open_meteo open_meteo "London" [] = (inr d, sent)
    /\ sent = [ Providers.ForecastRequest (Agent.JNumber 51.5%Q)
                  (Agent.JNumber (-0.12)%Q);
                Providers.GeocodeRequest "London" ]
    /\ Agent.subscript d "visibility" = Some (Agent.JNumber 10000).
Proof.
  eexists. eexists. split; [reflexivity |].
  destruct (@ProvidersFacts.open_meteo_answer open_meteo "London" [] _ _
              eq_refl) as [_ Hv].
  split; [reflexivity | exact Hv].
Defined.

(** X14, for a new agent after one autonomous request that is granted. *)
Lemma counters_match_the_trace_witness :
  let s := Agent.exec granted (Agent.OpAutonomousWeatherRequest "London" 3)
             (agent granted) in
  Agent.request_count (Agent.self s)
  = Z.of_nat (Journal.requests (Agent.trace s)).
Proof.
  cbv zeta.
  apply (@JournalFacts.counters_match_the_trace granted).
  apply Agent.reachable_exec, Agent.reachable_new.
Defined.

(** X15, for a new agent after three purchases while the broker answers
    502. *)
Lemma only_demo_payments_are_sent_witness :
  let s := Agent.exec upstream_502
             (Agent.OpAutonomousWeatherRequest "London" 3)
             (agent upstream_502) in
  Journal.only_demo_payments (Agent.address (Agent.self s))
    (Agent.private_key (Agent.self s)) (Agent.trace s).
Proof.
  cbv zeta.
  apply (@JournalFacts.only_demo_payments_are_sent upstream_502).
  apply Agent.reachable_exec, Agent.reachable_new.
Defined.


(** X18, with no attempt allowed and a broker that denies. *)
Lemma no_attempts_allowed_witness :
  Agent.autonomous_weather_request denied_and_broke "London" 0
    (agent denied_and_broke)
  = Agent.get_weather denied_and_broke "London"
      (snd (Agent._update_account_info denied_and_broke
              (agent denied_and_broke))).
Proof.
  apply (@JournalFacts.no_attempts_allowed denied_and_broke "London" 0
           (agent denied_and_broke)).
  lia.
Defined.

(** X20, for a node that accepts the payment and never confirms it. *)
Lemma unconfirmed_payment_was_still_sent_witness :
  fst (Agent.purchase_weather_token never_confirmed (agent never_confirmed))
  = inr false
  /\ Agent.submissions
       (Agent.trace
          (snd (Agent.purchase_weather_token never_confirmed
                  (agent never_confirmed))))
     = 1%nat.
Proof.
  destruct (@JournalFacts.unconfirmed_payment_was_still_sent never_confirmed
              (agent never_confirmed)
              {| Agent.sp_fee := 1000; Agent.sp_first := 1;
                 Agent.sp_last := 1001 |} "TXID")
    as (Hr & Hs & _).
  - vm_compute. discriminate.
  - reflexivity.
  - reflexivity.
  - left. reflexivity.
  - split; [exact Hr | exact Hs].
Defined.

(** X22, for a broker whose documents have no description. *)
Lemma run_demo_needs_a_description_witness :
  fst (Agent.run_demo terse_broker None (agent terse_broker))
  = inl Agent.Exception
  /\ Journal.requests
       (Agent.trace (snd (Agent.run_demo terse_broker None
                            (agent terse_broker))))
     = 1%nat.
Proof.
  destruct (@JournalFacts.run_demo_needs_a_description terse_broker "Berlin"
              ["New York"; "Tokyo"; "London"; "Sydney"] (agent terse_broker)
              terse_body
              (Agent.JObject
                 [ ("city", Agent.JString "Berlin");
                   ("temperature", Agent.JNumber 9%Q) ])
              (Agent.JNumber 9%Q))
    as (Hr & Hq & _); try reflexivity.
  split; [exact Hr | exact Hq].
Defined.

(** X23, for the holder's account seen by the agent and by the broker. *)
Lemma agent_and_listing_agree_witness :
  exists body,
    fst (list_tokens token_holder wallet) = Tokens.Reply200 body
    /\ (fst (Agent.has_valid_token
               (snd (Agent._update_account_info holder_node holder_agent)))
        = inr true
        <-> 1 <= Tokens.valid_tokens (Tokens.tr_summary body)).
Proof.
  destruct (@JournalFacts.agent_and_listing_agree _ decode_address
              encode_address token_holder holder_node holder_agent idle
              holder_info)
    as (body & Hb & _ & Hiff); try reflexivity.
  exists body. split; [exact Hb | exact Hiff].
Defined.

End Runs.
